(** * Ebbinghaus vocabulary trainer: scheduler, review session, catalog merge
      and progress persistence

    A shallow embedding of the TypeScript sources

    - [src/types] (the data model),
    - [src/services/scheduler.ts],
    - [src/services/wordLoader.ts],
    - [src/services/progress.ts],
    - [src/stores/progress.ts],
    - [src/stores/vocabulary.ts] and the grading handlers of
      [src/pages/Review.vue],

    followed by the properties the specification states about them and by
    further properties of the same code.

    Conventions of the embedding.

    - A JavaScript [number] that holds an instant or a counter is an integer
      of [Z]; instants are milliseconds since the epoch. A stage is a value
      of the seven-valued type [ReviewStage].
    - Every read of the clock ([Date.now()], [new Date()]) is an explicit
      argument [now]; the clock reads of one grading return the same instant.
    - The host's local time zone has a fixed offset from UTC (no daylight
      saving), given by the class [TimeZone]: every local day has 24 hours.
      The properties that add days to a local midnight are properties of
      such zones.
    - An optional field ([example?], [lastReviewedAt?]) is an [option].
    - The own properties of a plain JavaScript object are an association
      list in property order; a [Map] is a [gmap].
    - A string that holds JSON is modelled by the value [JSON.parse] reads
      in it. *)

From Stdlib Require Import ZArith List Ascii String DecimalString Bool Lia.
From Stdlib Require Import Permutation Sorted.
From stdpp Require Import base option list gmap strings sorting.

Local Open Scope Z_scope.

(* ================================================================== *)
(** * Time: the fragment of ECMAScript's [Date] the sources use       *)
(* ================================================================== *)

(** Offset of local time from UTC, in milliseconds (LocalTZA), the same at
    every instant: a zone without daylight saving. *)
Class TimeZone := { utcOffset : Z }.

(** China Standard Time, UTC+8, the zone of the worked examples. *)
Definition zoneCST : TimeZone := {| utcOffset := 8 * 3600000 |}.

Module JsDate.

Definition msPerDay : Z := 86400000.

(** ECMAScript's Day, MakeTime and MakeDate. *)
Definition Day (t : Z) : Z := t / msPerDay.

Definition MakeTime (hour min sec ms : Z) : Z :=
  hour * 3600000 + min * 60000 + sec * 1000 + ms.

Definition MakeDate (day time : Z) : Z := day * msPerDay + time.

Section Zone.
Context {zone : TimeZone}.

Definition LocalTime (t : Z) : Z := t + utcOffset.
Definition UTC (t : Z) : Z := t - utcOffset.

(** [d = new Date(t); d.setHours(h, m, s, ms); d.getTime()] *)
Definition setHours (t hour min sec ms : Z) : Z :=
  UTC (MakeDate (Day (LocalTime t)) (MakeTime hour min sec ms)).
End Zone.

(** Day number (days since 1970-01-01) of the civil date [y]-[m]-[d] of the
    proleptic Gregorian calendar, [m] in 1..12. *)
Definition daysFromCivil (y m d : Z) : Z :=
  let y' := if m <=? 2 then y - 1 else y in
  let era := y' / 400 in
  let yoe := y' - era * 400 in
  let mp := (m + 9) mod 12 in
  let doy := (153 * mp + 2) / 5 + d - 1 in
  let doe := yoe * 365 + yoe / 4 - yoe / 100 + doy in
  era * 146097 + doe - 719468.

(** The civil date (year, month 1..12, day) of a day number. *)
Definition civilFromDays (days : Z) : Z * Z * Z :=
  let z := days + 719468 in
  let era := z / 146097 in
  let doe := z - era * 146097 in
  let yoe := (doe - doe / 1460 + doe / 36524 - doe / 146096) / 365 in
  let doy := doe - (365 * yoe + yoe / 4 - yoe / 100) in
  let mp := (5 * doy + 2) / 153 in
  let d := doy - (153 * mp + 2) / 5 + 1 in
  let m := if mp <? 10 then mp + 3 else mp - 9 in
  (if m <=? 2 then yoe + era * 400 + 1 else yoe + era * 400, m, d).

(** ECMAScript's MakeDay: [month] is 0-based and may lie outside 0..11,
    [date] may lie outside the month; both are carried over. *)
Definition MakeDay (year month date : Z) : Z :=
  daysFromCivil (year + month / 12) (month mod 12 + 1) 1 + date - 1.

(** Days of the month [month] (0-based) of [year]. *)
Definition daysInMonth (year month : Z) : Z :=
  MakeDay year (month + 1) 1 - MakeDay year month 1.

(** Decimal digits. *)
Definition digitValue (c : ascii) : option Z :=
  let n := Z.of_nat (nat_of_ascii c) in
  if (48 <=? n) && (n <=? 57) then Some (n - 48) else None.

Definition digitChar (z : Z) : ascii := ascii_of_nat (Z.to_nat (48 + z mod 10)).

(** The [w] low decimal digits of [z], most significant first. *)
Fixpoint pad (w : nat) (z : Z) : string :=
  match w with
  | O => EmptyString
  | S w' => pad w' (z / 10) +:+ String (digitChar z) EmptyString
  end.

(** The three numbers of a string of the shape [/^\d{4}-\d{2}-\d{2}$/]
    ([None] for every other string): what [s.split('-').map(Number)]
    yields on such a string. *)
Definition splitYMD (s : string) : option (Z * Z * Z) :=
  match list_ascii_of_string s with
  | [y1; y2; y3; y4; "-"%char; m1; m2; "-"%char; d1; d2] =>
      a ← digitValue y1; b ← digitValue y2; c ← digitValue y3;
      d ← digitValue y4; e ← digitValue m1; f ← digitValue m2;
      g ← digitValue d1; h ← digitValue d2;
      Some (1000 * a + 100 * b + 10 * c + d, 10 * e + f, 10 * g + h)
  | _ => None
  end.

(** [new Date(s).getTime()] for a date-only ISO string [YYYY-MM-DD] that
    names a date of the calendar: the UTC midnight of that day. These are
    the strings the model reads; [None] stands for every other string, be
    it one that [Date] reads as NaN (the empty string) or one it reads in
    another way (ECMAScript also reads [YYYY], [YYYY-MM], the date-time
    forms and the expanded years, and implementations read more). The
    properties of the streak take the study dates as calendar dates, as the
    store writes them. *)
Definition parse (s : string) : option Z :=
  '(y, m, d) ← splitYMD s;
  if (1 <=? m) && (m <=? 12) && (1 <=? d) && (d <=? daysInMonth y (m - 1))
  then Some (MakeDate (MakeDay y (m - 1) d) 0)
  else None.

(** [new Date(t).toISOString().split('T')[0]]: the UTC civil date of the
    instant [t], with the expanded six-digit year outside 0..9999. *)
Definition toISODate (t : Z) : string :=
  let '(y, m, d) := civilFromDays (Day t) in
  let year :=
    if (0 <=? y) && (y <=? 9999) then pad 4 y
    else (if y <? 0 then "-" else "+") +:+ pad 6 (Z.abs y) in
  year +:+ "-" +:+ pad 2 m +:+ "-" +:+ pad 2 d.

Section Zone.
Context {zone : TimeZone}.

(** [new Date(year, month, day).getTime()] for integral arguments: local
    midnight; a year in 0..99 stands for 1900 + year. *)
Definition ofLocalYMD (year month day : Z) : Z :=
  let yr := if (0 <=? year) && (year <=? 99) then 1900 + year else year in
  UTC (MakeDate (MakeDay yr month day) (MakeTime 0 0 0 0)).

Definition getFullYear (t : Z) : Z := (civilFromDays (Day (LocalTime t))).1.1.
Definition getMonth (t : Z) : Z := (civilFromDays (Day (LocalTime t))).1.2 - 1.
Definition getDate (t : Z) : Z := (civilFromDays (Day (LocalTime t))).2.
Definition TimeWithinDay (t : Z) : Z := t mod msPerDay.

(** [d = new Date(t); d.setDate(date); d.getTime()]: the day of the month is
    set in local time, the time of day is kept. *)
Definition setDate (t date : Z) : Z :=
  let l := LocalTime t in
  let '(year, month, _) := civilFromDays (Day l) in
  UTC (MakeDate (MakeDay year (month - 1) date) (TimeWithinDay l)).
End Zone.

End JsDate.

(* ================================================================== *)
(** * Data model ([src/types])                                        *)
(* ================================================================== *)

(** [type ReviewStage = 0 | 1 | 2 | 3 | 4 | 5 | 6] *)
Inductive ReviewStage :=
  Stage0 | Stage1 | Stage2 | Stage3 | Stage4 | Stage5 | Stage6.

(** The number a stage is. *)
Definition stageNumber (s : ReviewStage) : Z :=
  match s with
  | Stage0 => 0 | Stage1 => 1 | Stage2 => 2 | Stage3 => 3
  | Stage4 => 4 | Stage5 => 5 | Stage6 => 6
  end.

(** The cast [n as ReviewStage]; the sources apply it to 1..6 only. *)
Definition asReviewStage (n : Z) : ReviewStage :=
  match n with
  | 0 => Stage0 | 1 => Stage1 | 2 => Stage2 | 3 => Stage3
  | 4 => Stage4 | 5 => Stage5 | _ => Stage6
  end.

(** [type MemoryStatus = 'new' | 'learning' | 'mastered'] *)
Inductive MemoryStatus := new | learning | mastered.

(** [type VoiceType = 'en-US' | 'en-GB'] *)
Inductive VoiceType := en_US | en_GB.

Global Instance ReviewStage_eq_dec : EqDecision ReviewStage.
Proof. solve_decision. Defined.
Global Instance MemoryStatus_eq_dec : EqDecision MemoryStatus.
Proof. solve_decision. Defined.
Global Instance VoiceType_eq_dec : EqDecision VoiceType.
Proof. solve_decision. Defined.

Module RawWord.
Record t := mk { word : string; meaning : string; example : option string }.
End RawWord.

Module WordEntry.
Record t := mk {
  id : string;
  word : string;
  meaning : string;
  example : option string;
  addedDate : string;
  reviewStage : ReviewStage;
  nextReviewAt : Z;
  memoryStatus : MemoryStatus;
  lastReviewedAt : option Z }.
End WordEntry.

Module WordProgress.
Record t := mk {
  id : string;
  reviewStage : ReviewStage;
  nextReviewAt : Z;
  memoryStatus : MemoryStatus;
  lastReviewedAt : option Z }.
End WordProgress.

Module DailyStudy.
Record t := mk { date : string; reviewedCount : Z }.
End DailyStudy.

Module StudyStats.
Record t := mk {
  totalWords : Z;
  masteredWords : Z;
  learningWords : Z;
  newWords : Z;
  streakDays : Z;
  lastStudyDate : string;
  weeklyData : list DailyStudy.t }.
End StudyStats.

(** [REVIEW_INTERVALS: Record<ReviewStage, number>], in days. *)
Definition REVIEW_INTERVALS (s : ReviewStage) : Z :=
  match s with
  | Stage0 => 1
  | Stage1 => 1
  | Stage2 => 2
  | Stage3 => 4
  | Stage4 => 7
  | Stage5 => 15
  | Stage6 => 30
  end.

(* ================================================================== *)
(** * [Array.prototype.sort]                                          *)
(* ================================================================== *)

(** ECMAScript (2019 on) requires [sort] to be stable, and with a consistent
    comparator the sorted order is then the same for every sorting
    algorithm; the model sorts by stable insertion. *)
Module JsArray.
Section Sort.
Context {A : Type} (compareFn : A -> A -> Z).

(** [x] goes in front of the first element it must not follow. *)
Fixpoint insert (x : A) (l : list A) : list A :=
  match l with
  | [] => [x]
  | y :: l' =>
      if compareFn x y <=? 0 then x :: y :: l' else y :: insert x l'
  end.

Definition sort (l : list A) : list A := foldr insert [] l.
End Sort.
End JsArray.

(* ================================================================== *)
(** * [src/services/scheduler.ts]                                     *)
(* ================================================================== *)

Module Scheduler.

Definition DAY_MS : Z := 24 * 60 * 60 * 1000.

Section Zone.
Context {zone : TimeZone}.

Definition getStartOfDay (timestamp : Z) : Z :=
  JsDate.setHours timestamp 0 0 0 0.

Definition getEndOfDay (timestamp : Z) : Z :=
  JsDate.setHours timestamp 23 59 59 999.

(** [None] is NaN: the model follows [parseDateString] on strings of
    the documented shape YYYY-MM-DD only. *)
Definition parseDateString (dateStr : string) : option Z :=
  '(year, month, day) ← JsDate.splitYMD dateStr;
  Some (JsDate.ofLocalYMD year (month - 1) day).

Definition calculateNextReview (currentStage : ReviewStage) (baseTime : Z) : Z :=
  let intervalDays := REVIEW_INTERVALS currentStage in
  getStartOfDay baseTime + intervalDays * DAY_MS.

Definition handleRemember (now : Z) (word : WordEntry.t) : WordProgress.t :=
  let currentStage := WordEntry.reviewStage word in
  if decide (currentStage = Stage6) then
    {| WordProgress.id := WordEntry.id word;
       WordProgress.reviewStage := Stage6;
       WordProgress.nextReviewAt := WordEntry.nextReviewAt word;
       WordProgress.memoryStatus := mastered;
       WordProgress.lastReviewedAt := Some now |}
  else
    let nextStage := asReviewStage (stageNumber currentStage + 1) in
    let nextReviewAt := calculateNextReview nextStage now in
    let memoryStatus := learning in
    let memoryStatus :=
      if decide (nextStage = Stage6) then learning else memoryStatus in
    {| WordProgress.id := WordEntry.id word;
       WordProgress.reviewStage := nextStage;
       WordProgress.nextReviewAt := nextReviewAt;
       WordProgress.memoryStatus := memoryStatus;
       WordProgress.lastReviewedAt := Some now |}.

Definition handleForget (now : Z) (word : WordEntry.t) : WordProgress.t :=
  let nextReviewAt := calculateNextReview Stage1 now in
  {| WordProgress.id := WordEntry.id word;
     WordProgress.reviewStage := Stage1;
     WordProgress.nextReviewAt := nextReviewAt;
     WordProgress.memoryStatus := learning;
     WordProgress.lastReviewedAt := Some now |}.

Definition getTodayReviewWords (now : Z) (words : list WordEntry.t)
  : list WordEntry.t :=
  let todayEnd := getEndOfDay now in
  List.filter
    (fun word =>
       if decide (WordEntry.memoryStatus word = mastered) then false
       else WordEntry.nextReviewAt word <=? todayEnd) words.

Definition getTodayNewWords (now : Z) (words : list WordEntry.t)
  : list WordEntry.t :=
  let today := JsDate.toISODate now in
  List.filter
    (fun word =>
       bool_decide (WordEntry.addedDate word = today)
       && bool_decide (WordEntry.memoryStatus word = new)) words.

Definition getPriority (todayStart todayEnd : Z) (word : WordEntry.t) : Z :=
  if WordEntry.nextReviewAt word <? todayStart then 0
  else if WordEntry.nextReviewAt word <=? todayEnd then 1
  else 2.

(** The comparator handed to [sort]. *)
Definition compareUrgency (todayStart todayEnd : Z) (a b : WordEntry.t) : Z :=
  let priorityA := getPriority todayStart todayEnd a in
  let priorityB := getPriority todayStart todayEnd b in
  if negb (priorityA =? priorityB) then priorityA - priorityB
  else WordEntry.nextReviewAt a - WordEntry.nextReviewAt b.

(** [[...words].sort(...)]: the copy is sorted, [words] is only read. *)
Definition sortByUrgency (now : Z) (words : list WordEntry.t)
  : list WordEntry.t :=
  let todayStart := getStartOfDay now in
  let todayEnd := getEndOfDay now in
  JsArray.sort (compareUrgency todayStart todayEnd) words.

(** [None] is NaN, see [parseDateString]. *)
Definition calculateInitialReview (addedDate : string) : option Z :=
  addedTimestamp ← parseDateString addedDate;
  Some (getStartOfDay addedTimestamp).
End Zone.

End Scheduler.


(* ================================================================== *)
(** * [src/services/wordLoader.ts]                                    *)
(* ================================================================== *)

(** An element of [Array<{ raw: RawWord; date: string }>]. *)
Module DatedWord.
Record t := mk { raw : RawWord.t; date : string }.
End DatedWord.

Module WordLoader.

Definition generateWordId (date word : string) : string :=
  date +:+ "_" +:+ word.

Section Zone.
Context {zone : TimeZone}.

Definition isValidDateFormat (dateStr : string) : bool :=
  match JsDate.splitYMD dateStr with
  | None => false
  | Some (year, month, day) =>
      let date := JsDate.ofLocalYMD year (month - 1) day in
      (JsDate.getFullYear date =? year)
      && (JsDate.getMonth date =? month - 1)
      && (JsDate.getDate date =? day)
  end.

(** [None]: the date is not of the shape YYYY-MM-DD, where the model
    does not follow [calculateInitialReview]. The loader passes only
    dates that [isValidDateFormat] accepts. *)
Definition createWordEntry (rawWord : RawWord.t) (addedDate : string)
  : option WordEntry.t :=
  let id := generateWordId addedDate (RawWord.word rawWord) in
  nextReviewAt ← Scheduler.calculateInitialReview addedDate;
  Some {| WordEntry.id := id;
          WordEntry.word := RawWord.word rawWord;
          WordEntry.meaning := RawWord.meaning rawWord;
          WordEntry.example := RawWord.example rawWord;
          WordEntry.addedDate := addedDate;
          WordEntry.reviewStage := Stage0;
          WordEntry.nextReviewAt := nextReviewAt;
          WordEntry.memoryStatus := new;
          WordEntry.lastReviewedAt := None |}.

(** [progressMap]: each record is [set] under its id, in list order. *)
Definition buildProgressMap (progress : list WordProgress.t)
  : gmap string WordProgress.t :=
  foldl (fun progressMap p => <[WordProgress.id p := p]> progressMap)
        ∅ progress.

Definition mergeOne (progressMap : gmap string WordProgress.t)
    (w : DatedWord.t) : option WordEntry.t :=
  let raw := DatedWord.raw w in
  let date := DatedWord.date w in
  let id := generateWordId date (RawWord.word raw) in
  match progressMap !! id with
  | Some existingProgress =>
      Some {| WordEntry.id := id;
              WordEntry.word := RawWord.word raw;
              WordEntry.meaning := RawWord.meaning raw;
              WordEntry.example := RawWord.example raw;
              WordEntry.addedDate := date;
              WordEntry.reviewStage := WordProgress.reviewStage existingProgress;
              WordEntry.nextReviewAt := WordProgress.nextReviewAt existingProgress;
              WordEntry.memoryStatus := WordProgress.memoryStatus existingProgress;
              WordEntry.lastReviewedAt := WordProgress.lastReviewedAt existingProgress |}
  | None => createWordEntry raw date
  end.

Definition mergeWithProgress (words : list DatedWord.t)
    (progress : list WordProgress.t) : option (list WordEntry.t) :=
  let progressMap := buildProgressMap progress in
  mapM (mergeOne progressMap) words.
End Zone.

End WordLoader.

(* ================================================================== *)
(** * JSON values, strings holding JSON, and [localStorage]           *)
(* ================================================================== *)

(** Own properties of a plain object, in property order. *)
Module Props.
Section Props.
Context {V : Type}.

(** [o[key]] *)
Fixpoint get (key : string) (o : list (string * V)) : option V :=
  match o with
  | [] => None
  | (k, v) :: o' => if decide (k = key) then Some v else get key o'
  end.

(** [o[key] = v]: in place when the property exists, else appended. *)
Fixpoint set (key : string) (v : V) (o : list (string * V))
  : list (string * V) :=
  match o with
  | [] => [(key, v)]
  | (k, x) :: o' =>
      if decide (k = key) then (k, v) :: o' else (k, x) :: set key v o'
  end.

(** [delete o[key]] *)
Definition delete (key : string) (o : list (string * V))
  : list (string * V) :=
  List.filter (fun kv => negb (bool_decide (kv.1 = key))) o.
End Props.
End Props.

(** What [JSON.parse] returns. Numbers are integers in every field the
    program reads or writes. *)
#[local] Set Warnings "-register-all".
Inductive json :=
| JNull
| JBool (b : bool)
| JNumber (n : Z)
| JString (s : string)
| JArray (items : list json)
| JObject (props : list (string * json)).
#[local] Set Warnings "register-all".

Inductive JsType :=
  TypeUndefined | TypeObject | TypeBoolean | TypeNumber | TypeString.

Global Instance JsType_eq_dec : EqDecision JsType.
Proof. solve_decision. Defined.

(** A value read from a property is [None] when it is [undefined]. *)
Module Js.

Definition typeof (v : option json) : JsType :=
  match v with
  | None => TypeUndefined
  | Some JNull => TypeObject
  | Some (JBool _) => TypeBoolean
  | Some (JNumber _) => TypeNumber
  | Some (JString _) => TypeString
  | Some (JArray _) => TypeObject
  | Some (JObject _) => TypeObject
  end.

(** ToBoolean *)
Definition truthy (v : option json) : bool :=
  match v with
  | None => false
  | Some JNull => false
  | Some (JBool b) => b
  | Some (JNumber n) => negb (n =? 0)
  | Some (JString s) => negb (bool_decide (s = ""))
  | Some (JArray _) => true
  | Some (JObject _) => true
  end.

Definition isArray (v : option json) : bool :=
  match v with
  | Some (JArray _) => true
  | _ => false
  end.

(** The decimal string of an array index. *)
Definition indexString (i : nat) : string :=
  NilZero.string_of_uint (Nat.to_uint i).

(** The own properties of an array, as [{...array}] copies them. *)
Definition indexed (items : list json) : list (string * json) :=
  imap (fun i x => (indexString i, x)) items.

(** [v.key] for [v] an object or an array; on a primitive other than
    [null] the sources read no property that exists. *)
Definition getProp (v : json) (key : string) : option json :=
  match v with
  | JObject props => Props.get key props
  | JArray items =>
      if decide (key = "length") then Some (JNumber (Z.of_nat (length items)))
      else Props.get key (indexed items)
  | JString s =>
      if decide (key = "length")
      then Some (JNumber (Z.of_nat (String.length s))) else None
  | _ => None
  end.

(** [v?.key] on a value that may be [undefined]. *)
Definition prop (v : option json) (key : string) : option json :=
  v ≫= fun x => getProp x key.

(** [{...v}] *)
Definition spread (v : json) : list (string * json) :=
  match v with
  | JObject props => props
  | JArray items => indexed items
  | _ => []
  end.

(** [delete v.key], for [v] other than [null] (where it throws). A
    property the sources delete exists on objects only. *)
Definition deleteProp (key : string) (v : json) : json :=
  match v with
  | JObject props => JObject (Props.delete key props)
  | _ => v
  end.

(** [{...target, ...source}] on the own properties: each property of
    [source] is set, in order. *)
Definition assign (target source : list (string * json))
  : list (string * json) :=
  foldl (fun o kv => Props.set kv.1 kv.2 o) target source.

End Js.

(** A JavaScript string, as the persistence code treats it: the code hands a
    string to [JSON.parse], tests it for emptiness, and obtains strings from
    [JSON.stringify] only. A string is modelled by its JSON reading. *)
Inductive text :=
| JsonText (v : json)    (** a string [JSON.parse] accepts, with its value *)
| PlainText (s : string) (** any other string, [JSON.parse] throws on it *).

Module JSON.
(** [None]: SyntaxError. *)
Definition parse (t : text) : option json :=
  match t with
  | JsonText v => Some v
  | PlainText _ => None
  end.

(** [JSON.stringify(v)] and [JSON.stringify(v, null, 2)], which differ in
    white space only. *)
Definition stringify (v : json) : text := JsonText v.
End JSON.

(** [!raw] for a string. *)
Definition isEmptyText (t : text) : bool :=
  match t with
  | PlainText s => bool_decide (s = "")
  | JsonText _ => false
  end.

(** The browser's [localStorage]. A call that throws returns [None]. *)
Module LocalStorage.

Record t := mk {
  usable : bool;                       (** false: every call throws *)
  fits : gmap string text -> bool;     (** the quota, on the contents *)
  items : gmap string text }.

Definition getItem (key : string) (st : t) : option (option text) :=
  if usable st then Some (items st !! key) else None.

Definition setItem (key : string) (value : text) (st : t) : option t :=
  let items' := <[key := value]> (items st) in
  if usable st && fits st items'
  then Some (mk (usable st) (fits st) items') else None.

Definition removeItem (key : string) (st : t) : option t :=
  if usable st
  then Some (mk (usable st) (fits st) (delete key (items st))) else None.

End LocalStorage.

(* ================================================================== *)
(** * [src/services/progress.ts]                                      *)
(* ================================================================== *)

(** [interface ProgressData]. The settings are carried as they were read
    from storage. *)
Module ProgressData.
Record stats := mkStats {
  streakDays : Z;
  lastStudyDate : string;
  dailyReviews : list (string * Z) }.

Record t := mk {
  version : Z;
  progress : list WordProgress.t;
  stats_ : stats;
  settings : json }.
End ProgressData.

(** The JSON a typed value is written as; [JSON.stringify] leaves out a
    property that is [undefined]. *)
Module ToJson.

Definition memoryStatus (m : MemoryStatus) : json :=
  JString match m with
          | new => "new" | learning => "learning" | mastered => "mastered"
          end.

Definition wordProgress (p : WordProgress.t) : json :=
  JObject
    ([("id", JString (WordProgress.id p));
      ("reviewStage", JNumber (stageNumber (WordProgress.reviewStage p)));
      ("nextReviewAt", JNumber (WordProgress.nextReviewAt p));
      ("memoryStatus", memoryStatus (WordProgress.memoryStatus p))]
     ++ match WordProgress.lastReviewedAt p with
        | Some t => [("lastReviewedAt", JNumber t)]
        | None => []
        end).

Definition stats (s : ProgressData.stats) : json :=
  JObject
    [("streakDays", JNumber (ProgressData.streakDays s));
     ("lastStudyDate", JString (ProgressData.lastStudyDate s));
     ("dailyReviews",
      JObject (map (fun kv => (kv.1, JNumber kv.2))
                   (ProgressData.dailyReviews s)))].

Definition progressData (d : ProgressData.t) : json :=
  JObject
    [("version", JNumber (ProgressData.version d));
     ("progress", JArray (map wordProgress (ProgressData.progress d)));
     ("stats", stats (ProgressData.stats_ d));
     ("settings", ProgressData.settings d)].

End ToJson.

(** The typed value that a JSON value holds when it is exactly what [ToJson]
    writes: the same properties in the same order. [None] for every other
    value. *)
Module FromJson.

Definition memoryStatus (v : json) : option MemoryStatus :=
  match v with
  | JString s =>
      if bool_decide (s = "new") then Some new
      else if bool_decide (s = "learning") then Some learning
      else if bool_decide (s = "mastered") then Some mastered
      else None
  | _ => None
  end.

Definition reviewStage (v : json) : option ReviewStage :=
  match v with
  | JNumber n => if (0 <=? n) && (n <=? 6) then Some (asReviewStage n) else None
  | _ => None
  end.

Definition wordProgress (v : json) : option WordProgress.t :=
  match v with
  | JObject ((k1, JString id) :: (k2, stage) :: (k3, JNumber due)
             :: (k4, status) :: rest) =>
      if bool_decide (k1 = "id") && bool_decide (k2 = "reviewStage")
         && bool_decide (k3 = "nextReviewAt")
         && bool_decide (k4 = "memoryStatus")
      then
        stage ← reviewStage stage;
        status ← memoryStatus status;
        last ← match rest with
               | [] => Some None
               | [(k5, JNumber t)] =>
                   if bool_decide (k5 = "lastReviewedAt") then Some (Some t)
                   else None
               | _ => None
               end;
        Some (WordProgress.mk id stage due status last)
      else None
  | _ => None
  end.

Definition dailyCount (kv : string * json) : option (string * Z) :=
  match kv.2 with
  | JNumber n => Some (kv.1, n)
  | _ => None
  end.

Definition stats (v : json) : option ProgressData.stats :=
  match v with
  | JObject [(k1, JNumber streakDays); (k2, JString lastStudyDate);
             (k3, JObject dailyReviews)] =>
      if bool_decide (k1 = "streakDays") && bool_decide (k2 = "lastStudyDate")
         && bool_decide (k3 = "dailyReviews")
      then
        dailyReviews ← mapM dailyCount dailyReviews;
        Some (ProgressData.mkStats streakDays lastStudyDate dailyReviews)
      else None
  | _ => None
  end.

Definition progressData (v : json) : option ProgressData.t :=
  match v with
  | JObject [(k1, JNumber version); (k2, JArray progress); (k3, s);
             (k4, settings)] =>
      if bool_decide (k1 = "version") && bool_decide (k2 = "progress")
         && bool_decide (k3 = "stats") && bool_decide (k4 = "settings")
      then
        progress ← mapM wordProgress progress;
        s ← stats s;
        Some (ProgressData.mk version progress s settings)
      else None
  | _ => None
  end.

End FromJson.

(** The messages of [importData]. *)
Inductive ImportMessage :=
| MsgInvalidFormat            (** the data format is invalid *)
| MsgImported (count : Z)     (** imported the records of [count] words *)
| MsgSaveFailed               (** saving failed *)
| MsgParseFailed              (** parsing failed *).

Record ImportResult := mkImportResult {
  success : bool;
  message : ImportMessage }.

Module ProgressService.

Definition STORAGE_KEY : string := "ebbinghaus-progress".
Definition CURRENT_VERSION : Z := 1.
Definition DEFAULT_SETTINGS : json := JObject [("voiceType", JString "en-US")].

Definition createDefaultProgressData : ProgressData.t :=
  {| ProgressData.version := CURRENT_VERSION;
     ProgressData.progress := [];
     ProgressData.stats_ :=
       {| ProgressData.streakDays := 0;
          ProgressData.lastStudyDate := "";
          ProgressData.dailyReviews := [] |};
     ProgressData.settings := JObject (Js.spread DEFAULT_SETTINGS) |}.

Definition isValidProgressData (data : json) : bool :=
  if negb (Js.truthy (Some data))
     || negb (bool_decide (Js.typeof (Some data) = TypeObject))
  then false else
  let obj := data in
  if negb (bool_decide (Js.typeof (Js.getProp obj "version") = TypeNumber))
  then false else
  if negb (Js.isArray (Js.getProp obj "progress"))
  then false else
  if negb (Js.truthy (Js.getProp obj "stats"))
     || negb (bool_decide (Js.typeof (Js.getProp obj "stats") = TypeObject))
  then false else
  let stats := Js.getProp obj "stats" in
  if negb (bool_decide (Js.typeof (Js.prop stats "streakDays") = TypeNumber))
  then false else
  if negb (bool_decide (Js.typeof (Js.prop stats "lastStudyDate") = TypeString))
  then false else
  if negb (Js.truthy (Js.prop stats "dailyReviews"))
     || negb (bool_decide
                (Js.typeof (Js.prop stats "dailyReviews") = TypeObject))
  then false else
  if negb (Js.truthy (Js.getProp obj "settings"))
     || negb (bool_decide (Js.typeof (Js.getProp obj "settings") = TypeObject))
  then false else
  true.

(** [isStorageAvailable]: the probe writes and removes its own key. *)
Definition testKey : string := "__storage_test__".

Definition isStorageAvailable (st : LocalStorage.t) : bool * LocalStorage.t :=
  match LocalStorage.setItem testKey (PlainText testKey) st with
  | None => (false, st)
  | Some st1 =>
      match LocalStorage.removeItem testKey st1 with
      | None => (false, st1)
      | Some st2 => (true, st2)
      end
  end.

Section Service.
(** [this.storageKey] *)
Variable storageKey : string.

Definition load (st : LocalStorage.t) : option json * LocalStorage.t :=
  let '(available, st) := isStorageAvailable st in
  if negb available then (None, st) else
  match LocalStorage.getItem storageKey st with
  | None => (None, st)
  | Some None => (None, st)
  | Some (Some raw) =>
      if isEmptyText raw then (None, st) else
      match JSON.parse raw with
      | None => (None, st)
      | Some data =>
          if negb (isValidProgressData data) then (None, st)
          else (Some data, st)
      end
  end.

Definition save (data : json) (st : LocalStorage.t) : bool * LocalStorage.t :=
  let '(available, st) := isStorageAvailable st in
  if negb available then (false, st) else
  let json := JSON.stringify data in
  match LocalStorage.setItem storageKey json st with
  | Some st' => (true, st')
  | None => (false, st)
  end.

(** The private [updateStreakDays(data, today)]; [data.stats] is
    updated in place. *)
Definition updateStreakDays (data : ProgressData.t) (today : string)
  : ProgressData.t :=
  let stats := ProgressData.stats_ data in
  let withStreak (streakDays : Z) (lastStudyDate : string) :=
    {| ProgressData.version := ProgressData.version data;
       ProgressData.progress := ProgressData.progress data;
       ProgressData.stats_ :=
         {| ProgressData.streakDays := streakDays;
            ProgressData.lastStudyDate := lastStudyDate;
            ProgressData.dailyReviews := ProgressData.dailyReviews stats |};
       ProgressData.settings := ProgressData.settings data |} in
  let lastStudyDate := ProgressData.lastStudyDate stats in
  if bool_decide (lastStudyDate = "") then withStreak 1 today
  else if bool_decide (lastStudyDate = today) then data
  else
    let lastDate := JsDate.parse lastStudyDate in
    let todayDate := JsDate.parse today in
    let diffDays :=
      t2 ← todayDate; t1 ← lastDate;
      Some ((t2 - t1) / (24 * 60 * 60 * 1000)) in
    if bool_decide (diffDays = Some 1)
    then withStreak (ProgressData.streakDays stats + 1) today
    else withStreak 1 today.

Definition reset (st : LocalStorage.t) : bool * LocalStorage.t :=
  let '(available, st) := isStorageAvailable st in
  if negb available then (false, st) else
  match LocalStorage.removeItem storageKey st with
  | Some st' => (true, st')
  | None => (false, st)
  end.

(** [data?.settings ?? { ...DEFAULT_SETTINGS }] *)
Definition getSettings (st : LocalStorage.t) : json * LocalStorage.t :=
  let '(data, st) := load st in
  match Js.prop data "settings" with
  | None | Some JNull => (JObject (Js.spread DEFAULT_SETTINGS), st)
  | Some settings => (settings, st)
  end.

Definition exportData (now : Z) (st : LocalStorage.t)
  : option text * LocalStorage.t :=
  let '(data, st) := load st in
  match data with
  | None => (None, st)
  | Some data =>
      let exportData :=
        JObject
          (Props.set "exportVersion" (JNumber CURRENT_VERSION)
             (Props.set "exportedAt" (JNumber now) (Js.spread data))) in
      (Some (JSON.stringify exportData), st)
  end.

(** [data.progress.length] in the message of a successful import. *)
Definition progressLength (data : json) : Z :=
  match Js.prop (Js.getProp data "progress") "length" with
  | Some (JNumber n) => n
  | _ => 0
  end.

Definition importData (jsonString : text) (st : LocalStorage.t)
  : ImportResult * LocalStorage.t :=
  match JSON.parse jsonString with
  | None => (mkImportResult false MsgParseFailed, st)
  | Some JNull =>
      (* [delete data.exportedAt] throws on [null] *)
      (mkImportResult false MsgParseFailed, st)
  | Some data =>
      let data := Js.deleteProp "exportedAt" data in
      let data := Js.deleteProp "exportVersion" data in
      if negb (isValidProgressData data)
      then (mkImportResult false MsgInvalidFormat, st)
      else
        let '(saved, st) := save data st in
        if saved
        then (mkImportResult true (MsgImported (progressLength data)), st)
        else (mkImportResult false MsgSaveFailed, st)
  end.
(** [data?.progress ?? []] *)
Definition getAllProgress (st : LocalStorage.t) : json * LocalStorage.t :=
  let '(data, st) := load st in
  match Js.prop data "progress" with
  | None | Some JNull => (JArray [], st)
  | Some progress => (progress, st)
  end.

(** [data?.stats ?? null] *)
Definition getStats (st : LocalStorage.t) : json * LocalStorage.t :=
  let '(data, st) := load st in
  match Js.prop data "stats" with
  | None | Some JNull => (JNull, st)
  | Some stats => (stats, st)
  end.

(** [updateSettings(settings)], [settings] given by its own properties. *)
Definition updateSettings (settings : list (string * json))
    (st : LocalStorage.t) : bool * LocalStorage.t :=
  let '(loaded, st) := load st in
  let data :=
    match loaded with
    | Some data => data
    | None => ToJson.progressData createDefaultProgressData
    end in
  let merged :=
    match Js.getProp data "settings" with
    | Some current => JObject (Js.assign (Js.spread current) settings)
    | None => JObject (Js.assign [] settings)
    end in
  let data :=
    match data with
    | JObject props => JObject (Props.set "settings" merged props)
    | _ => data
    end in
  save data st.

End Service.

End ProgressService.

(* ================================================================== *)
(** * [src/stores/progress.ts]                                        *)
(* ================================================================== *)

Module ProgressStore.

(** The refs of the store, and the [localStorage] that the singleton
    [progressService] writes to. *)
Record State := mkState {
  progressList : list WordProgress.t;
  streakDays : Z;
  lastStudyDate : string;
  dailyReviews : list (string * Z);
  reviewQueue : list WordEntry.t;
  currentReviewIndex : nat;
  todayReviewedCount : Z;
  localStorage : LocalStorage.t }.

Definition set_progressList (x : list WordProgress.t) (st : State) : State :=
  mkState x (streakDays st) (lastStudyDate st) (dailyReviews st)
          (reviewQueue st) (currentReviewIndex st) (todayReviewedCount st)
          (localStorage st).
Definition set_streakDays (x : Z) (st : State) : State :=
  mkState (progressList st) x (lastStudyDate st) (dailyReviews st)
          (reviewQueue st) (currentReviewIndex st) (todayReviewedCount st)
          (localStorage st).
Definition set_lastStudyDate (x : string) (st : State) : State :=
  mkState (progressList st) (streakDays st) x (dailyReviews st)
          (reviewQueue st) (currentReviewIndex st) (todayReviewedCount st)
          (localStorage st).
Definition set_dailyReviews (x : list (string * Z)) (st : State) : State :=
  mkState (progressList st) (streakDays st) (lastStudyDate st) x
          (reviewQueue st) (currentReviewIndex st) (todayReviewedCount st)
          (localStorage st).
Definition set_reviewQueue (x : list WordEntry.t) (st : State) : State :=
  mkState (progressList st) (streakDays st) (lastStudyDate st)
          (dailyReviews st) x (currentReviewIndex st)
          (todayReviewedCount st) (localStorage st).
Definition set_currentReviewIndex (x : nat) (st : State) : State :=
  mkState (progressList st) (streakDays st) (lastStudyDate st)
          (dailyReviews st) (reviewQueue st) x (todayReviewedCount st)
          (localStorage st).
Definition set_todayReviewedCount (x : Z) (st : State) : State :=
  mkState (progressList st) (streakDays st) (lastStudyDate st)
          (dailyReviews st) (reviewQueue st) (currentReviewIndex st) x
          (localStorage st).
Definition set_localStorage (x : LocalStorage.t) (st : State) : State :=
  mkState (progressList st) (streakDays st) (lastStudyDate st)
          (dailyReviews st) (reviewQueue st) (currentReviewIndex st)
          (todayReviewedCount st) x.

(** ** Getters *)

Definition currentWord (st : State) : option WordEntry.t :=
  if (length (reviewQueue st) =? 0)%nat then None
  else if (length (reviewQueue st) <=? currentReviewIndex st)%nat then None
       else reviewQueue st !! currentReviewIndex st.

Definition hasMoreWords (st : State) : bool :=
  (currentReviewIndex st <? length (reviewQueue st))%nat.

Definition isReviewComplete (st : State) : bool :=
  (0 <? length (reviewQueue st))%nat
  && (length (reviewQueue st) <=? currentReviewIndex st)%nat.

Definition getTodayDateString (now : Z) : string := JsDate.toISODate now.

(** ** Actions *)

Definition saveProgress (st : State) : bool * State :=
  let '(settings, storage) :=
    ProgressService.getSettings ProgressService.STORAGE_KEY (localStorage st) in
  let data :=
    {| ProgressData.version := 1;
       ProgressData.progress := progressList st;
       ProgressData.stats_ :=
         {| ProgressData.streakDays := streakDays st;
            ProgressData.lastStudyDate := lastStudyDate st;
            ProgressData.dailyReviews := dailyReviews st |};
       ProgressData.settings := settings |} in
  let '(saved, storage) :=
    ProgressService.save ProgressService.STORAGE_KEY
                         (ToJson.progressData data) storage in
  (saved, set_localStorage storage st).

(** [progressList.findIndex(p => p.id === id)]; [None] is -1. *)
Fixpoint findIndex (id : string) (l : list WordProgress.t) : option nat :=
  match l with
  | [] => None
  | p :: l' =>
      if bool_decide (WordProgress.id p = id) then Some 0%nat
      else S <$> findIndex id l'
  end.

Definition updateProgressList (progress : WordProgress.t) (st : State) : State :=
  match findIndex (WordProgress.id progress) (progressList st) with
  | Some index => set_progressList (<[index := progress]> (progressList st)) st
  | None => set_progressList (progressList st ++ [progress]) st
  end.

Definition updateStreakDays (today : string) (st : State) : State :=
  if bool_decide (lastStudyDate st = "") then
    set_lastStudyDate today (set_streakDays 1 st)
  else if bool_decide (lastStudyDate st = today) then st
  else
    let lastDate := JsDate.parse (lastStudyDate st) in
    let todayDate := JsDate.parse today in
    let diffDays :=
      t2 ← todayDate; t1 ← lastDate;
      Some ((t2 - t1) / (24 * 60 * 60 * 1000)) in
    let st :=
      if bool_decide (diffDays = Some 1)
      then set_streakDays (streakDays st + 1) st
      else set_streakDays 1 st in
    set_lastStudyDate today st.

Definition updateStats (now : Z) (st : State) : State :=
  let today := getTodayDateString now in
  let count := default 0 (Props.get today (dailyReviews st)) + 1 in
  let st := set_dailyReviews (Props.set today count (dailyReviews st)) st in
  let st := set_todayReviewedCount count st in
  updateStreakDays today st.

Section Zone.
Context {zone : TimeZone}.

Definition startReview (now : Z) (words : list WordEntry.t) (st : State)
  : State :=
  let st := set_reviewQueue (Scheduler.sortByUrgency now words) st in
  set_currentReviewIndex 0 st.

Definition handleRemember (now : Z) (st : State)
  : option WordProgress.t * State :=
  match currentWord st with
  | None => (None, st)
  | Some word =>
      let newProgress := Scheduler.handleRemember now word in
      let st := updateProgressList newProgress st in
      let st := updateStats now st in
      let '(_, st) := saveProgress st in
      let st := set_currentReviewIndex (S (currentReviewIndex st)) st in
      (Some newProgress, st)
  end.

Definition handleForget (now : Z) (st : State)
  : option WordProgress.t * State :=
  match currentWord st with
  | None => (None, st)
  | Some word =>
      let newProgress := Scheduler.handleForget now word in
      let st := updateProgressList newProgress st in
      let st := updateStats now st in
      let '(_, st) := saveProgress st in
      let updatedWord :=
        {| WordEntry.id := WordEntry.id word;
           WordEntry.word := WordEntry.word word;
           WordEntry.meaning := WordEntry.meaning word;
           WordEntry.example := WordEntry.example word;
           WordEntry.addedDate := WordEntry.addedDate word;
           WordEntry.reviewStage := WordProgress.reviewStage newProgress;
           WordEntry.nextReviewAt := WordProgress.nextReviewAt newProgress;
           WordEntry.memoryStatus := WordProgress.memoryStatus newProgress;
           WordEntry.lastReviewedAt := WordProgress.lastReviewedAt newProgress |} in
      let st := set_reviewQueue (reviewQueue st ++ [updatedWord]) st in
      let st := set_currentReviewIndex (S (currentReviewIndex st)) st in
      (Some newProgress, st)
  end.
End Zone.

Definition skipCurrentWord (st : State) : State :=
  if hasMoreWords st
  then set_currentReviewIndex (S (currentReviewIndex st)) st else st.

Definition restartReview (st : State) : State := set_currentReviewIndex 0 st.

(** ** The other getters and actions *)

(** [reviewProgress] *)
Record ReviewProgress := mkReviewProgress {
  current : Z;
  total : Z;
  remaining : Z }.

Definition reviewProgress (st : State) : ReviewProgress :=
  {| current := Z.of_nat (currentReviewIndex st) + 1;
     total := Z.of_nat (length (reviewQueue st));
     remaining := Z.of_nat (length (reviewQueue st))
                  - Z.of_nat (currentReviewIndex st) |}.

(** [progressList.find(p => p.id === wordId)]; [None] is [undefined]. *)
Definition getWordProgress (wordId : string) (st : State)
  : option WordProgress.t :=
  List.find (fun p => bool_decide (WordProgress.id p = wordId)) (progressList st).

Definition resetProgress (st : State) : bool * State :=
  let '(success, storage) :=
    ProgressService.reset ProgressService.STORAGE_KEY (localStorage st) in
  if success
  then (success, mkState [] 0 "" [] [] 0 0 storage)
  else (success, set_localStorage storage st).

(** [loadProgress]. The refs take the values of the loaded snapshot as they
    are; [None] stands for a snapshot that is not what the store itself
    writes, whose values the typed state cannot hold. *)
Definition loadProgress (now : Z) (st : State) : option State :=
  let '(data, storage) :=
    ProgressService.load ProgressService.STORAGE_KEY (localStorage st) in
  match data with
  | Some data =>
      data ← FromJson.progressData data;
      let stats := ProgressData.stats_ data in
      let today := getTodayDateString now in
      Some (mkState (ProgressData.progress data)
                    (ProgressData.streakDays stats)
                    (ProgressData.lastStudyDate stats)
                    (ProgressData.dailyReviews stats)
                    (reviewQueue st) (currentReviewIndex st)
                    (default 0 (Props.get today (ProgressData.dailyReviews stats)))
                    storage)
  | None =>
      Some (mkState [] 0 "" [] (reviewQueue st) (currentReviewIndex st) 0 storage)
  end.

Section Zone.
Context {zone : TimeZone}.

(** [weeklyData]: the loop runs [i] from 6 down to 0. *)
Definition weeklyData (now : Z) (st : State) : list DailyStudy.t :=
  map (fun i =>
         let date := JsDate.setDate now (JsDate.getDate now - i) in
         let dateStr := JsDate.toISODate date in
         {| DailyStudy.date := dateStr;
            DailyStudy.reviewedCount :=
              default 0 (Props.get dateStr (dailyReviews st)) |})
      [6; 5; 4; 3; 2; 1; 0].

End Zone.

(** ** A session as a sequence of gradings *)

Inductive Grade := Remember | Forget.

Section Zone.
Context {zone : TimeZone}.

(** The reviewer presses one of the two buttons at instant [now]. *)
Definition grade (g : Grade) (now : Z) (st : State) : State :=
  match g with
  | Remember => (handleRemember now st).2
  | Forget => (handleForget now st).2
  end.

Definition gradeAll (gs : list (Grade * Z)) (st : State) : State :=
  foldl (fun st g => grade g.1 g.2 st) st gs.
End Zone.

End ProgressStore.

(* ================================================================== *)
(** * [src/stores/vocabulary.ts] and the grading of the review page   *)
(* ================================================================== *)


(** The functions of the vocabulary store, on the list [words.value]. *)
Module VocabularyStore.


(** [words.findIndex(w => w.id === id)]; [None] is -1. *)
Fixpoint findIndex (id : string) (words : list WordEntry.t) : option nat :=
  match words with
  | [] => None
  | w :: words' =>
      if bool_decide (WordEntry.id w = id) then Some 0%nat
      else S <$> findIndex id words'
  end.

Definition updateWord (updatedWord : WordEntry.t) (words : list WordEntry.t)
  : list WordEntry.t :=
  match findIndex (WordEntry.id updatedWord) words with
  | Some index => <[index := updatedWord]> words
  | None => words
  end.

Definition updateWordsFromProgress (progressList : list WordProgress.t)
    (words : list WordEntry.t) : list WordEntry.t :=
  let progressMap := WordLoader.buildProgressMap progressList in
  map (fun word =>
         match progressMap !! WordEntry.id word with
         | Some progress =>
             {| WordEntry.id := WordEntry.id word;
                WordEntry.word := WordEntry.word word;
                WordEntry.meaning := WordEntry.meaning word;
                WordEntry.example := WordEntry.example word;
                WordEntry.addedDate := WordEntry.addedDate word;
                WordEntry.reviewStage := WordProgress.reviewStage progress;
                WordEntry.nextReviewAt := WordProgress.nextReviewAt progress;
                WordEntry.memoryStatus := WordProgress.memoryStatus progress;
                WordEntry.lastReviewedAt := WordProgress.lastReviewedAt progress |}
         | None => word
         end) words.

Definition getWordById (id : string) (words : list WordEntry.t)
  : option WordEntry.t :=
  List.find (fun w => bool_decide (WordEntry.id w = id)) words.

End VocabularyStore.

(** [handleRemember] and [handleForget] of [src/pages/Review.vue]: the
    progress store grades, then the word of the vocabulary store with the id
    of the result takes the four fields of the result. *)
Module ReviewPage.

Definition syncWord (result : option WordProgress.t) (words : list WordEntry.t)
  : list WordEntry.t :=
  match result with
  | Some result =>
      match VocabularyStore.getWordById (WordProgress.id result) words with
      | Some word =>
          VocabularyStore.updateWord
            {| WordEntry.id := WordEntry.id word;
               WordEntry.word := WordEntry.word word;
               WordEntry.meaning := WordEntry.meaning word;
               WordEntry.example := WordEntry.example word;
               WordEntry.addedDate := WordEntry.addedDate word;
               WordEntry.reviewStage := WordProgress.reviewStage result;
               WordEntry.nextReviewAt := WordProgress.nextReviewAt result;
               WordEntry.memoryStatus := WordProgress.memoryStatus result;
               WordEntry.lastReviewedAt := WordProgress.lastReviewedAt result |}
            words
      | None => words
      end
  | None => words
  end.

Section Zone.
Context {zone : TimeZone}.

Definition handleRemember (now : Z)
    (st : ProgressStore.State * list WordEntry.t)
  : ProgressStore.State * list WordEntry.t :=
  let '(result, store) := ProgressStore.handleRemember now st.1 in
  (store, syncWord result st.2).

Definition handleForget (now : Z)
    (st : ProgressStore.State * list WordEntry.t)
  : ProgressStore.State * list WordEntry.t :=
  let '(result, store) := ProgressStore.handleForget now st.1 in
  (store, syncWord result st.2).
End Zone.

End ReviewPage.

(* ================================================================== *)
(** * Arrays as objects: [sortByUrgency] on references                *)
(* ================================================================== *)

(** A variable of array type holds a reference; the heap gives the array
    behind each reference. The module restates [sortByUrgency] at that
    level, to tell the array it returns from the array it is given. *)
Module ArrayRefs.

Section Refs.
Context {A : Type}.

(** [[...a]]: a new array with the elements of [a]. *)
Definition spreadCopy (a : positive) (h : gmap positive (list A))
  : option (positive * gmap positive (list A)) :=
  l ← h !! a;
  let r := fresh (dom h) in
  Some (r, <[r := l]> h).

(** [a.sort(compareFn)]: sorts [a] in place and returns [a]. *)
Definition sort (compareFn : A -> A -> Z) (a : positive)
    (h : gmap positive (list A))
  : option (positive * gmap positive (list A)) :=
  l ← h !! a;
  Some (a, <[a := JsArray.sort compareFn l]> h).
End Refs.

Section Zone.
Context {zone : TimeZone}.

(** [None]: [words] is not a reference of the heap. *)
Definition sortByUrgency (now : Z) (words : positive)
    (h : gmap positive (list WordEntry.t))
  : option (positive * gmap positive (list WordEntry.t)) :=
  let todayStart := Scheduler.getStartOfDay now in
  let todayEnd := Scheduler.getEndOfDay now in
  '(copy, h) ← spreadCopy words h;
  sort (Scheduler.compareUrgency todayStart todayEnd) copy h.
End Zone.

End ArrayRefs.

(* ================================================================== *)
(** * The snapshot schema, as the specification words it              *)
(* ================================================================== *)

(** Follows the specification's persistence snapshot,
    [{version:int, progress:[{id:string, stage:0..6, nextReviewAt:int64,
    memoryStatus:enum(new|learning|mastered), lastReviewedAt?:int64}],
    stats:{streakDays:int, lastStudyDate:string, dailyReviews:{date:int}},
    settings:{voiceType:enum}}], with the property names of
    [interface ProgressData]. It is the yardstick [isValidProgressData] is
    compared with, not a function of the program. *)
Module Schema.

Definition isNumber (v : option json) : bool :=
  match v with Some (JNumber _) => true | _ => false end.

Definition isString (v : option json) : bool :=
  match v with Some (JString _) => true | _ => false end.

Definition isObject (v : option json) : bool :=
  match v with Some (JObject _) => true | _ => false end.

Definition isStage (v : option json) : bool :=
  match v with Some (JNumber n) => (0 <=? n) && (n <=? 6) | _ => false end.

Definition isMemoryStatus (v : option json) : bool :=
  match v with
  | Some (JString s) =>
      bool_decide (s = "new") || bool_decide (s = "learning")
      || bool_decide (s = "mastered")
  | _ => false
  end.

Definition isVoiceType (v : option json) : bool :=
  match v with
  | Some (JString s) => bool_decide (s = "en-US") || bool_decide (s = "en-GB")
  | _ => false
  end.

Definition wordProgress (v : json) : bool :=
  isObject (Some v)
  && isString (Js.getProp v "id")
  && isStage (Js.getProp v "reviewStage")
  && isNumber (Js.getProp v "nextReviewAt")
  && isMemoryStatus (Js.getProp v "memoryStatus")
  && match Js.getProp v "lastReviewedAt" with
     | None => true
     | Some x => isNumber (Some x)
     end.

Definition dailyReviews (v : option json) : bool :=
  match v with
  | Some (JObject props) => forallb (fun kv => isNumber (Some kv.2)) props
  | _ => false
  end.

Definition stats (v : option json) : bool :=
  isObject v
  && isNumber (Js.prop v "streakDays")
  && isString (Js.prop v "lastStudyDate")
  && dailyReviews (Js.prop v "dailyReviews").

Definition settings (v : option json) : bool :=
  isObject v && isVoiceType (Js.prop v "voiceType").

Definition snapshot (v : json) : bool :=
  isObject (Some v)
  && isNumber (Js.getProp v "version")
  && match Js.getProp v "progress" with
     | Some (JArray items) => forallb wordProgress items
     | _ => false
     end
  && stats (Js.getProp v "stats")
  && settings (Js.getProp v "settings").

End Schema.

(* ================================================================== *)
(** * Vocabulary of the properties                                    *)
(* ================================================================== *)

(** The record a progress list holds for an id: the last one with that id,
    as each [progressMap.set] replaces the one before. *)
Fixpoint recordFor (id : string) (progress : list WordProgress.t)
  : option WordProgress.t :=
  match progress with
  | [] => None
  | p :: rest =>
      match recordFor id rest with
      | Some q => Some q
      | None => if bool_decide (WordProgress.id p = id) then Some p else None
      end
  end.

(** How [mergeWithProgress] is to build the entry [e] of the catalog word
    [w]: the catalog fields from [w]; stage, due instant, status and last
    review from the record of its id, and without such a record stage 0,
    status new, no last review, due at the start of the introduction day. *)
Definition mergedFrom {zone : TimeZone} (progress : list WordProgress.t)
    (w : DatedWord.t) (e : WordEntry.t) : Prop :=
  let raw := DatedWord.raw w in
  let date := DatedWord.date w in
  let id := WordLoader.generateWordId date (RawWord.word raw) in
  WordEntry.id e = id
  /\ WordEntry.word e = RawWord.word raw
  /\ WordEntry.meaning e = RawWord.meaning raw
  /\ WordEntry.example e = RawWord.example raw
  /\ WordEntry.addedDate e = date
  /\ match recordFor id progress with
     | Some p =>
         WordEntry.reviewStage e = WordProgress.reviewStage p
         /\ WordEntry.nextReviewAt e = WordProgress.nextReviewAt p
         /\ WordEntry.memoryStatus e = WordProgress.memoryStatus p
         /\ WordEntry.lastReviewedAt e = WordProgress.lastReviewedAt p
     | None =>
         WordEntry.reviewStage e = Stage0
         /\ WordEntry.memoryStatus e = new
         /\ WordEntry.lastReviewedAt e = None
         /\ exists t, Scheduler.parseDateString date = Some t
                      /\ WordEntry.nextReviewAt e = Scheduler.getStartOfDay t
                      /\ WordEntry.nextReviewAt e = t
     end.

(** The elements a comparator ranks with [x]. *)
Definition sameRank {A : Type} (compareFn : A -> A -> Z) (x y : A) : bool :=
  (compareFn x y <=? 0) && (compareFn y x <=? 0).

(** The urgency classes of the specification, relative to the instant
    [now]: overdue before the start of today, due today up to the end of
    today, future after it. *)
Inductive Urgency := Overdue | DueToday | Future.

Definition urgencyRank (c : Urgency) : Z :=
  match c with Overdue => 0 | DueToday => 1 | Future => 2 end.

Definition inUrgency {zone : TimeZone} (now : Z) (w : WordEntry.t) (c : Urgency)
  : Prop :=
  match c with
  | Overdue => WordEntry.nextReviewAt w < Scheduler.getStartOfDay now
  | DueToday => Scheduler.getStartOfDay now <= WordEntry.nextReviewAt w
                /\ WordEntry.nextReviewAt w <= Scheduler.getEndOfDay now
  | Future => WordEntry.nextReviewAt w > Scheduler.getEndOfDay now
  end.

(** The order of a session queue: by class, and by due instant within a
    class. *)
Definition urgencyLe {zone : TimeZone} (now : Z) (a b : WordEntry.t) : Prop :=
  let priority :=
    Scheduler.getPriority (Scheduler.getStartOfDay now) (Scheduler.getEndOfDay now) in
  priority a < priority b
  \/ (priority a = priority b
      /\ WordEntry.nextReviewAt a <= WordEntry.nextReviewAt b).

(** Entries of one class with one due instant: the entries the order does
    not tell apart. *)
Definition sameUrgency {zone : TimeZone} (now : Z) (priority due : Z)
    (w : WordEntry.t) : bool :=
  (Scheduler.getPriority (Scheduler.getStartOfDay now) (Scheduler.getEndOfDay now) w
   =? priority)
  && (WordEntry.nextReviewAt w =? due).

(** The day number of a date string YYYY-MM-DD, and "[today] is the calendar
    day immediately after [last]". *)
Definition dayNumber (date : string) : option Z :=
  JsDate.Day <$> JsDate.parse date.

Definition isNextDay (last today : string) : Prop :=
  exists d, dayNumber last = Some d /\ dayNumber today = Some (d + 1).

(** A study date as the store writes it ([getTodayDateString]): a string
    YYYY-MM-DD that names a date of the calendar. *)
Definition isStudyDate (date : string) : Prop := is_Some (JsDate.parse date).

(** The check, for one day of the 400-year cycle of the calendar, that the
    civil date of the day is a date of the calendar and has that day's
    number; [doe] counts the days from 0000-03-01. *)
Definition civilOk (doe : Z) : bool :=
  let z := doe - 719468 in
  let '(y, m, d) := JsDate.civilFromDays z in
  (1 <=? m) && (m <=? 12) && (1 <=? d) && (d <=? 31)
  && (d <=? JsDate.daysInMonth y (m - 1))
  && (JsDate.MakeDay y (m - 1) d =? z).

Fixpoint civilOkFrom (n : nat) (doe : Z) : bool :=
  match n with
  | O => true
  | S n' => civilOk doe && civilOkFrom n' (doe + 1)
  end.

(** The length of the months of the Gregorian calendar, [m] in 1..12. *)
Definition isLeapYear (y : Z) : bool :=
  (y mod 4 =? 0) && (negb (y mod 100 =? 0) || (y mod 400 =? 0)).

Definition gregorianDays (y m : Z) : Z :=
  if m =? 2 then (if isLeapYear y then 29 else 28)
  else if (m =? 4) || (m =? 6) || (m =? 9) || (m =? 11) then 30
  else 31.

(** A date of the calendar. *)
Definition isCalendarDate (y m d : Z) : Prop :=
  1 <= m <= 12 /\ 1 <= d <= gregorianDays y m.

(** The day number of the first day of the month [n], months counted from
    January of the year 0. *)
Definition monthStart (n : Z) : Z := JsDate.MakeDay 0 n 1.

(** The check, for one month of the 400-year cycle, that the month has the
    length the calendar gives it. *)
Definition monthOk (n : Z) : bool :=
  monthStart (n + 1) - monthStart n =? gregorianDays (n / 12) (n mod 12 + 1).

Fixpoint monthOkFrom (k : nat) (n : Z) : bool :=
  match k with
  | O => true
  | S k' => monthOk n && monthOkFrom k' (n + 1)
  end.

(** The copy of [word] that [handleForget] puts at the tail of the queue:
    [{ ...word, reviewStage, nextReviewAt, memoryStatus, lastReviewedAt }]
    with the four fields of the new progress [p]. *)
Definition refreshed (word : WordEntry.t) (p : WordProgress.t) : WordEntry.t :=
  {| WordEntry.id := WordEntry.id word;
     WordEntry.word := WordEntry.word word;
     WordEntry.meaning := WordEntry.meaning word;
     WordEntry.example := WordEntry.example word;
     WordEntry.addedDate := WordEntry.addedDate word;
     WordEntry.reviewStage := WordProgress.reviewStage p;
     WordEntry.nextReviewAt := WordProgress.nextReviewAt p;
     WordEntry.memoryStatus := WordProgress.memoryStatus p;
     WordEntry.lastReviewedAt := WordProgress.lastReviewedAt p |}.

(** The forgets among a sequence of gradings. *)
Definition forgets (gs : list (ProgressStore.Grade * Z)) : nat :=
  length (List.filter
            (fun g => match g.1 with
                      | ProgressStore.Forget => true
                      | ProgressStore.Remember => false
                      end) gs).

(** What [isValidProgressData] asks of a value: the top level of the
    snapshot. An array passes where only "a non-null object" is asked. *)
Definition nonNullObject (v : json) : Prop :=
  match v with
  | JObject _ | JArray _ => True
  | _ => False
  end.

Definition topLevelValid (v : json) : Prop :=
  exists props version items stats streakDays lastStudyDate dailyReviews settings,
    v = JObject props
    /\ Props.get "version" props = Some (JNumber version)
    /\ Props.get "progress" props = Some (JArray items)
    /\ Props.get "stats" props = Some (JObject stats)
    /\ Props.get "streakDays" stats = Some (JNumber streakDays)
    /\ Props.get "lastStudyDate" stats = Some (JString lastStudyDate)
    /\ Props.get "dailyReviews" stats = Some dailyReviews
    /\ nonNullObject dailyReviews
    /\ Props.get "settings" props = Some settings
    /\ nonNullObject settings.

(** A snapshot without the two properties that an export adds. *)
Definition stripExport (v : json) : json :=
  Js.deleteProp "exportVersion" (Js.deleteProp "exportedAt" v).

(** A storage that can be used and whose quota is never reached. *)
Definition roomy (st : LocalStorage.t) : Prop :=
  LocalStorage.usable st = true /\ forall items, LocalStorage.fits st items = true.

(** ** Worked example: Sunday 11 January 2026, 16:30:45 in UTC+8 *)

Module Example.
Definition now : Z := 1768120245123.
Definition todayStart : Z := 1768060800000.
Definition todayEnd : Z := 1768147199999.

Definition entry (id : string) (stage : ReviewStage) (due : Z)
    (status : MemoryStatus) : WordEntry.t :=
  {| WordEntry.id := id;
     WordEntry.word := id;
     WordEntry.meaning := "meaning of " +:+ id;
     WordEntry.example := None;
     WordEntry.addedDate := "2026-01-09";
     WordEntry.reviewStage := stage;
     WordEntry.nextReviewAt := due;
     WordEntry.memoryStatus := status;
     WordEntry.lastReviewedAt := None |}.

Definition overdue : WordEntry.t :=
  entry "overdue" Stage1 (todayStart - 86400000) learning.
Definition today : WordEntry.t :=
  entry "today" Stage1 (todayStart + 1000) learning.
Definition future : WordEntry.t :=
  entry "future" Stage0 (todayEnd + 86400000) new.
Definition known : WordEntry.t :=
  entry "known" Stage6 (todayStart - 1000) mastered.

(** A stored snapshot whose top level is as [isValidProgressData] asks,
    with a number for a progress record, an array for the daily counts
    and settings without a voice type:
    [{"version":1,"progress":[42],"stats":{"streakDays":0,
    "lastStudyDate":"","dailyReviews":[]},"settings":{}}] *)
Definition looseSnapshot : json :=
  JObject
    [("version", JNumber 1);
     ("progress", JArray [JNumber 42]);
     ("stats",
      JObject [("streakDays", JNumber 0);
               ("lastStudyDate", JString "");
               ("dailyReviews", JArray [])]);
     ("settings", JObject [])].

Definition storageWith (v : json) : LocalStorage.t :=
  LocalStorage.mk true (fun _ => true)
                  {[ ProgressService.STORAGE_KEY := JsonText v ]}.

(** A snapshot as the store saves it. *)
Definition snapshot : json :=
  JObject
    [("version", JNumber 1);
     ("progress",
      JArray [ToJson.wordProgress
                (WordProgress.mk "2026-01-09_today" Stage2 1768233600000
                                 learning (Some now))]);
     ("stats",
      JObject [("streakDays", JNumber 3);
               ("lastStudyDate", JString "2026-01-11");
               ("dailyReviews", JObject [("2026-01-11", JNumber 5)])]);
     ("settings", JObject [("voiceType", JString "en-GB")])].

(** The same without [stats.dailyReviews]. *)
Definition snapshotWithoutDailyReviews : json :=
  JObject
    [("version", JNumber 1);
     ("progress", JArray []);
     ("stats",
      JObject [("streakDays", JNumber 3);
               ("lastStudyDate", JString "2026-01-11")]);
     ("settings", JObject [("voiceType", JString "en-GB")])].
End Example.

(* ================================================================== *)
(** * Properties                                                      *)
(* ================================================================== *)

(** ** The day of an instant *)

Section DayFacts.
Context {zone : TimeZone}.

Lemma DAY_MS_value : Scheduler.DAY_MS = 86400000.
Proof. reflexivity. Qed.

(** [getStartOfDay] is the last local midnight at or before the instant. *)
Lemma getStartOfDay_spec (t : Z) :
  (Scheduler.getStartOfDay t + utcOffset) mod Scheduler.DAY_MS = 0
  /\ Scheduler.getStartOfDay t <= t < Scheduler.getStartOfDay t + Scheduler.DAY_MS.
Proof.
  unfold Scheduler.getStartOfDay, JsDate.setHours, JsDate.UTC, JsDate.MakeDate,
    JsDate.MakeTime, JsDate.Day, JsDate.LocalTime, JsDate.msPerDay.
  rewrite DAY_MS_value.
  pose proof (Z.div_mod (t + utcOffset) 86400000 ltac:(lia)) as Hdm.
  pose proof (Z.mod_pos_bound (t + utcOffset) 86400000 ltac:(lia)) as Hb.
  split.
  - replace ((t + utcOffset) / 86400000 * 86400000 + (0 * 3600000 + 0 * 60000 + 0 * 1000 + 0)
             - utcOffset + utcOffset)
      with ((t + utcOffset) / 86400000 * 86400000) by lia.
    apply Z.mod_mul. lia.
  - lia.
Qed.

Lemma getEndOfDay_spec (t : Z) :
  Scheduler.getEndOfDay t = Scheduler.getStartOfDay t + Scheduler.DAY_MS - 1.
Proof.
  unfold Scheduler.getEndOfDay, Scheduler.getStartOfDay, JsDate.setHours,
    JsDate.UTC, JsDate.MakeDate, JsDate.MakeTime.
  rewrite DAY_MS_value. lia.
Qed.

Lemma getStartOfDay_idem (t : Z) :
  Scheduler.getStartOfDay (Scheduler.getStartOfDay t) = Scheduler.getStartOfDay t.
Proof.
  unfold Scheduler.getStartOfDay, JsDate.setHours, JsDate.UTC, JsDate.MakeDate,
    JsDate.MakeTime, JsDate.Day, JsDate.LocalTime, JsDate.msPerDay.
  replace ((t + utcOffset) / 86400000 * 86400000
           + (0 * 3600000 + 0 * 60000 + 0 * 1000 + 0) - utcOffset + utcOffset)
    with ((t + utcOffset) / 86400000 * 86400000) by lia.
  rewrite Z.div_mul by lia. reflexivity.
Qed.
End DayFacts.

(** ** Stage transitions of the scheduler *)

Lemma stageNumber_range (s : ReviewStage) : 0 <= stageNumber s <= 6.
Proof. destruct s; simpl; lia. Qed.

Lemma asReviewStage_stageNumber (s : ReviewStage) :
  asReviewStage (stageNumber s) = s.
Proof. destruct s; reflexivity. Qed.

Lemma stageNumber_asReviewStage (n : Z) :
  0 <= n <= 6 -> stageNumber (asReviewStage n) = n.
Proof.
  intros Hn.
  assert (n = 0 \/ n = 1 \/ n = 2 \/ n = 3 \/ n = 4 \/ n = 5 \/ n = 6) as Hc by lia.
  destruct Hc as [->|[->|[->|[->|[->|[->| ->]]]]]]; reflexivity.
Qed.

Lemma REVIEW_INTERVALS_table :
  map REVIEW_INTERVALS [Stage0; Stage1; Stage2; Stage3; Stage4; Stage5; Stage6]
  = [1; 1; 2; 4; 7; 15; 30].
Proof. reflexivity. Qed.

Section SchedulerFacts.
Context {zone : TimeZone}.

(** C2. Remember at a stage s of 0..5 gives stage s+1, due at the start of
    today plus the interval of stage s+1, status learning; remember at
    stage 6 gives stage 6, status mastered and the due instant unchanged;
    both record the current instant as the last review. *)
Theorem handleRemember_transition (now : Z) (word : WordEntry.t) :
  let p := Scheduler.handleRemember now word in
  let s := stageNumber (WordEntry.reviewStage word) in
  (0 <= s <= 5 ->
     stageNumber (WordProgress.reviewStage p) = s + 1
     /\ WordProgress.nextReviewAt p
        = Scheduler.getStartOfDay now
          + REVIEW_INTERVALS (WordProgress.reviewStage p) * Scheduler.DAY_MS
     /\ WordProgress.memoryStatus p = learning)
  /\ (s = 6 ->
        WordProgress.reviewStage p = Stage6
        /\ WordProgress.memoryStatus p = mastered
        /\ WordProgress.nextReviewAt p = WordEntry.nextReviewAt word)
  /\ WordProgress.lastReviewedAt p = Some now
  /\ WordProgress.id p = WordEntry.id word.
Proof.
  unfold Scheduler.handleRemember, Scheduler.calculateNextReview.
  destruct (WordEntry.reviewStage word) eqn:Hs; simpl;
    repeat split; intros; try reflexivity; try lia.
Qed.

(** C3. Forget at any stage and status gives stage 1, due at the start of
    today plus the interval of stage 1 (one day), status learning. *)
Theorem handleForget_transition (now : Z) (word : WordEntry.t) :
  let p := Scheduler.handleForget now word in
  WordProgress.reviewStage p = Stage1
  /\ stageNumber (WordProgress.reviewStage p) = 1
  /\ WordProgress.nextReviewAt p
     = Scheduler.getStartOfDay now + REVIEW_INTERVALS Stage1 * Scheduler.DAY_MS
  /\ WordProgress.nextReviewAt p = Scheduler.getStartOfDay now + 1 * 86400000
  /\ WordProgress.memoryStatus p = learning
  /\ WordProgress.lastReviewedAt p = Some now
  /\ WordProgress.id p = WordEntry.id word.
Proof. repeat split. Qed.
End SchedulerFacts.

Lemma handleRemember_transition_witness :
  let word := WordEntry.mk "2026-01-11_test" "test" "a test" None "2026-01-11"
                           Stage2 1768060800000 learning None in
  let p := Scheduler.handleRemember (zone := zoneCST) 1768120245123 word in
  stageNumber (WordProgress.reviewStage p) = 3
  /\ WordProgress.nextReviewAt p
     = Scheduler.getStartOfDay (zone := zoneCST) 1768120245123
       + REVIEW_INTERVALS (WordProgress.reviewStage p) * Scheduler.DAY_MS
  /\ WordProgress.memoryStatus p = learning.
Proof.
  intros word p.
  destruct (handleRemember_transition (zone := zoneCST) 1768120245123 word)
    as [H _].
  apply H. simpl. lia.
Defined.

(** ** The catalog/progress merge *)

Lemma recordFor_Some (id : string) (progress : list WordProgress.t) p :
  recordFor id progress = Some p -> In p progress /\ WordProgress.id p = id.
Proof.
  induction progress as [|q rest IH]; simpl; [discriminate|].
  destruct (recordFor id rest) as [r|] eqn:Hr.
  - intros [= <-]. destruct (IH eq_refl) as [Hin Hid]. auto.
  - case_bool_decide as Hq; [|discriminate].
    intros [= <-]. auto.
Qed.

Lemma recordFor_None (id : string) (progress : list WordProgress.t) :
  recordFor id progress = None <->
  forall p, In p progress -> WordProgress.id p <> id.
Proof.
  induction progress as [|q rest IH]; simpl.
  - split; [intros _ p []|reflexivity].
  - destruct (recordFor id rest) as [r|] eqn:Hr.
    + split; [discriminate|]. intros H.
      destruct (recordFor_Some _ _ _ Hr) as [Hin Hid].
      exfalso. apply (H r); auto.
    + case_bool_decide as Hq.
      * split; [discriminate|]. intros H. exfalso. apply (H q); auto.
      * split; [|reflexivity]. intros _ p [<-|Hin]; [assumption|].
        apply IH; auto.
Qed.

(** With one record per id, [recordFor] finds the record of the list. *)
Lemma recordFor_NoDup (progress : list WordProgress.t) p :
  NoDup (map WordProgress.id progress) -> In p progress ->
  recordFor (WordProgress.id p) progress = Some p.
Proof.
  induction progress as [|q rest IH]; simpl; [intros _ []|].
  intros Hnd Hin. apply NoDup_cons in Hnd as [Hq Hnd].
  destruct Hin as [->|Hin].
  - assert (recordFor (WordProgress.id p) rest = None) as ->.
    { apply recordFor_None. intros r Hr Heq. apply Hq.
      rewrite <- Heq. apply list_elem_of_In, in_map, Hr. }
    rewrite bool_decide_eq_true_2; reflexivity.
  - rewrite (IH Hnd Hin). reflexivity.
Qed.

Lemma buildProgressMap_lookup (progress : list WordProgress.t) (id : string) :
  WordLoader.buildProgressMap progress !! id = recordFor id progress.
Proof.
  unfold WordLoader.buildProgressMap.
  assert (forall m : gmap string WordProgress.t,
             foldl (fun progressMap p => <[WordProgress.id p := p]> progressMap)
                   m progress !! id
             = match recordFor id progress with
               | Some q => Some q
               | None => m !! id
               end) as H.
  { induction progress as [|p rest IH]; intros m; simpl; [reflexivity|].
    rewrite IH. destruct (recordFor id rest); [reflexivity|].
    case_bool_decide as Hp.
    - subst id. apply lookup_insert_eq.
    - apply lookup_insert_ne, Hp. }
  rewrite H. destruct (recordFor id progress); [reflexivity|apply lookup_empty].
Qed.

Section MergeFacts.
Context {zone : TimeZone}.

(** A local midnight is the start of its own day. *)
Lemma getStartOfDay_ofLocalYMD (year month day : Z) :
  Scheduler.getStartOfDay (JsDate.ofLocalYMD year month day)
  = JsDate.ofLocalYMD year month day.
Proof.
  unfold Scheduler.getStartOfDay, JsDate.ofLocalYMD, JsDate.setHours,
    JsDate.UTC, JsDate.LocalTime, JsDate.MakeDate, JsDate.MakeTime, JsDate.Day,
    JsDate.msPerDay.
  set (n := JsDate.MakeDay _ month day).
  replace (n * 86400000 + (0 * 3600000 + 0 * 60000 + 0 * 1000 + 0)
           - utcOffset + utcOffset) with (n * 86400000) by lia.
  rewrite Z.div_mul by lia. reflexivity.
Qed.

Lemma calculateInitialReview_parse (addedDate : string) :
  Scheduler.calculateInitialReview addedDate = Scheduler.parseDateString addedDate.
Proof.
  unfold Scheduler.calculateInitialReview, Scheduler.parseDateString.
  destruct (JsDate.splitYMD addedDate) as [[[y m] d]|]; simpl; [|reflexivity].
  rewrite getStartOfDay_ofLocalYMD. reflexivity.
Qed.

Lemma mergeOne_mergedFrom (progress : list WordProgress.t) w e :
  WordLoader.mergeOne (WordLoader.buildProgressMap progress) w = Some e ->
  mergedFrom progress w e.
Proof.
  unfold WordLoader.mergeOne, mergedFrom. rewrite buildProgressMap_lookup.
  destruct (recordFor _ progress) as [p|].
  - intros [= <-]. simpl. repeat split.
  - unfold WordLoader.createWordEntry.
    rewrite calculateInitialReview_parse.
    destruct (Scheduler.parseDateString (DatedWord.date w)) as [t|] eqn:Ht;
      simpl; [|discriminate].
    intros [= <-]. simpl. repeat split.
    exists t. repeat split.
    pose proof (calculateInitialReview_parse (DatedWord.date w)) as Hc.
    unfold Scheduler.calculateInitialReview in Hc. rewrite Ht in Hc.
    simpl in Hc. congruence.
Qed.

Lemma mergeOne_is_Some (progressMap : gmap string WordProgress.t) w :
  is_Some (JsDate.splitYMD (DatedWord.date w)) ->
  is_Some (WordLoader.mergeOne progressMap w).
Proof.
  intros [[[y m] d] Hd]. unfold WordLoader.mergeOne.
  destruct (progressMap !! _); [eauto|].
  unfold WordLoader.createWordEntry, Scheduler.calculateInitialReview,
    Scheduler.parseDateString.
  rewrite Hd. simpl. eauto.
Qed.

(** C4. The merge gives one entry per catalog word, in order. An entry
    whose id (introduction date, "_", word text) has a record in the
    progress list takes stage, due instant, status and last review from
    that record; every other entry has stage 0, status new and is due at
    the start of its introduction day, so it is among the words to review
    on that very day. With an empty progress list every entry is of the
    second kind. *)
Theorem mergeWithProgress_correct
    (words : list DatedWord.t) (progress : list WordProgress.t) :
  Forall (fun w => is_Some (JsDate.splitYMD (DatedWord.date w))) words ->
  exists entries,
    WordLoader.mergeWithProgress words progress = Some entries
    /\ Forall2 (mergedFrom progress) words entries
    /\ (forall id, is_Some (recordFor id progress) <->
                   exists p, In p progress /\ WordProgress.id p = id)
    /\ (forall p, NoDup (map WordProgress.id progress) -> In p progress ->
                  recordFor (WordProgress.id p) progress = Some p)
    /\ (progress = [] ->
          Forall2 (fun w e =>
                     WordEntry.reviewStage e = Stage0
                     /\ WordEntry.memoryStatus e = new
                     /\ Scheduler.calculateInitialReview (DatedWord.date w)
                        = Some (WordEntry.nextReviewAt e)
                     /\ Scheduler.getStartOfDay (WordEntry.nextReviewAt e)
                        = WordEntry.nextReviewAt e) words entries)
    /\ (forall e now,
          In e entries -> WordEntry.memoryStatus e = new ->
          Scheduler.getStartOfDay now = WordEntry.nextReviewAt e ->
          Scheduler.getTodayReviewWords now [e] = [e]).
Proof.
  intros Hdates.
  destruct (mapM_is_Some_2
              (WordLoader.mergeOne (WordLoader.buildProgressMap progress)) words)
    as [entries Hentries].
  { eapply Forall_impl; [exact Hdates|]. intros w Hw. simpl.
    apply mergeOne_is_Some, Hw. }
  exists entries. split; [exact Hentries|].
  assert (Forall2 (mergedFrom progress) words entries) as Hmerged.
  { apply mapM_Some_1 in Hentries.
    eapply Forall2_impl; [exact Hentries|]. intros w e. apply mergeOne_mergedFrom. }
  split; [exact Hmerged|]. split; [|split; [|split; [|]]].
  - intros id. split.
    + intros [p Hp]. exists p. apply (recordFor_Some _ _ _ Hp).
    + intros (p & Hin & Hid). destruct (recordFor id progress) eqn:Hr; [eauto|].
      exfalso. rewrite recordFor_None in Hr. apply (Hr p Hin Hid).
  - intros p Hnd Hin. apply recordFor_NoDup; assumption.
  - intros ->. eapply Forall2_impl; [exact Hmerged|].
    intros w e (_ & _ & _ & _ & _ & Hdef). simpl in Hdef.
    destruct Hdef as (Hs & Hm & _ & t & Ht & Hstart & Heq).
    repeat split; try assumption.
    + rewrite calculateInitialReview_parse, Ht, Heq. reflexivity.
    + rewrite Heq at 1. symmetry. congruence.
  - intros e now _ Hnew Hday. unfold Scheduler.getTodayReviewWords. simpl.
    rewrite Hnew. simpl.
    rewrite getEndOfDay_spec, Hday, DAY_MS_value.
    destruct (Z.leb_spec (WordEntry.nextReviewAt e)
                         (WordEntry.nextReviewAt e + 86400000 - 1)); [reflexivity|lia].
Qed.
End MergeFacts.

Lemma mergeWithProgress_correct_witness :
  let a := DatedWord.mk (RawWord.mk "apple" "a fruit" None) "2026-01-11" in
  let b := DatedWord.mk (RawWord.mk "brave" "bold" (Some "Be brave.")) "2026-01-10" in
  let p := WordProgress.mk "2026-01-10_brave" Stage3 1768492800000 learning
                           (Some 1768120245123) in
  exists entries,
    WordLoader.mergeWithProgress (zone := zoneCST) [a; b] [p] = Some entries
    /\ Forall2 (mergedFrom (zone := zoneCST) [p]) [a; b] entries.
Proof.
  intros a b p.
  destruct (mergeWithProgress_correct (zone := zoneCST) [a; b] [p])
    as (entries & H1 & H2 & _).
  - repeat constructor; vm_compute; eauto.
  - exists entries. split; assumption.
Defined.

(** ** Sorting *)

Section SortFacts.
Context {A : Type} (compareFn : A -> A -> Z).

Lemma insert_Permutation (x : A) (l : list A) :
  Permutation (JsArray.insert compareFn x l) (x :: l).
Proof.
  induction l as [|y l IH]; simpl; [reflexivity|].
  destruct (compareFn x y <=? 0); [reflexivity|].
  rewrite IH. apply perm_swap.
Qed.

Lemma sort_Permutation (l : list A) :
  Permutation (JsArray.sort compareFn l) l.
Proof.
  induction l as [|x l IH]; simpl; [reflexivity|].
  rewrite insert_Permutation, IH. reflexivity.
Qed.

(** Stability: a class of elements that never strictly descend among
    themselves keeps its order. *)
Lemma insert_filter (P : A -> bool) (x : A) (l : list A) :
  (forall a b, P a = true -> P b = true -> compareFn a b <= 0) ->
  List.filter P (JsArray.insert compareFn x l) = List.filter P (x :: l).
Proof.
  intros HP. induction l as [|y l IH]; simpl; [reflexivity|].
  destruct (Z.leb_spec (compareFn x y) 0) as [Hle|Hgt]; [reflexivity|].
  simpl. rewrite IH. simpl.
  destruct (P x) eqn:Hx, (P y) eqn:Hy; try reflexivity.
  specialize (HP x y Hx Hy). lia.
Qed.

Lemma sort_filter (P : A -> bool) (l : list A) :
  (forall a b, P a = true -> P b = true -> compareFn a b <= 0) ->
  List.filter P (JsArray.sort compareFn l) = List.filter P l.
Proof.
  intros HP. induction l as [|x l IH]; simpl; [reflexivity|].
  rewrite insert_filter by exact HP. simpl. rewrite IH. reflexivity.
Qed.

(** Sortedness, for a comparator that is total and transitive. *)
Section Consistent.
Hypothesis compare_total :
  forall a b, 0 < compareFn a b -> compareFn b a <= 0.
Hypothesis compare_trans :
  forall a b c, compareFn a b <= 0 -> compareFn b c <= 0 -> compareFn a c <= 0.

Lemma insert_StronglySorted (x : A) (l : list A) :
  StronglySorted (fun a b => compareFn a b <= 0) l ->
  StronglySorted (fun a b => compareFn a b <= 0) (JsArray.insert compareFn x l).
Proof.
  induction 1 as [|y l Hl IH Hy]; simpl.
  - repeat constructor.
  - destruct (Z.leb_spec (compareFn x y) 0) as [Hle|Hgt].
    + constructor; [constructor; assumption|].
      constructor; [assumption|].
      eapply Forall_impl; [exact Hy|]. intros z Hz. simpl in *. eauto.
    + constructor; [assumption|].
      eapply Permutation_Forall; [symmetry; apply insert_Permutation|].
      constructor; [auto|assumption].
Qed.

Lemma sort_StronglySorted (l : list A) :
  StronglySorted (fun a b => compareFn a b <= 0) (JsArray.sort compareFn l).
Proof.
  induction l as [|x l IH]; simpl; [constructor|].
  apply insert_StronglySorted, IH.
Qed.
End Consistent.
End SortFacts.

(** The outcome does not depend on the sorting algorithm: with a total and
    transitive comparator there is one stable sorted arrangement of a list,
    and [JsArray.sort] yields it. *)
Section SortUnique.
Context {A : Type} (compareFn : A -> A -> Z).
Hypothesis compare_total :
  forall a b, 0 < compareFn a b -> compareFn b a <= 0.
Hypothesis compare_trans :
  forall a b c, compareFn a b <= 0 -> compareFn b c <= 0 -> compareFn a c <= 0.

Lemma compare_refl (a : A) : compareFn a a <= 0.
Proof.
  destruct (Z.leb_spec (compareFn a a) 0) as [H|H]; [exact H|].
  apply compare_total, H.
Qed.

Lemma sort_stable (x : A) (l : list A) :
  List.filter (sameRank compareFn x) (JsArray.sort compareFn l)
  = List.filter (sameRank compareFn x) l.
Proof.
  apply sort_filter. unfold sameRank. intros a b Ha Hb.
  apply andb_prop in Ha as [Ha1 Ha2]. apply andb_prop in Hb as [Hb1 Hb2].
  apply Z.leb_le in Ha1, Ha2, Hb1, Hb2. eauto.
Qed.

Lemma stable_sorted_unique (l1 l2 : list A) :
  StronglySorted (fun a b => compareFn a b <= 0) l1 ->
  StronglySorted (fun a b => compareFn a b <= 0) l2 ->
  Permutation l1 l2 ->
  (forall x, List.filter (sameRank compareFn x) l1
             = List.filter (sameRank compareFn x) l2) ->
  l1 = l2.
Proof.
  intros H1. revert l2.
  induction H1 as [|a l1 Hl1 IH Ha]; intros l2 H2 Hperm Hstable.
  - symmetry. apply Permutation_nil, Hperm.
  - destruct H2 as [|b l2 Hl2 Hb].
    { apply Permutation_sym, Permutation_nil in Hperm. discriminate. }
    assert (compareFn a b <= 0) as Hab.
    { assert (In b (a :: l1)) as [->|Hin]
          by (eapply Permutation_in; [symmetry; exact Hperm|left; reflexivity]).
      - apply compare_refl.
      - rewrite Forall_forall in Ha. apply Ha, list_elem_of_In, Hin. }
    assert (compareFn b a <= 0) as Hba.
    { assert (In a (b :: l2)) as [->|Hin]
          by (eapply Permutation_in; [exact Hperm|left; reflexivity]).
      - apply compare_refl.
      - rewrite Forall_forall in Hb. apply Hb, list_elem_of_In, Hin. }
    assert (a = b) as <-.
    { specialize (Hstable a). simpl in Hstable.
      pose proof (compare_refl a) as Haa.
      assert (sameRank compareFn a a = true) as Eaa.
      { unfold sameRank. apply Z.leb_le in Haa. rewrite Haa. reflexivity. }
      assert (sameRank compareFn a b = true) as Eab.
      { unfold sameRank. apply Z.leb_le in Hab, Hba. rewrite Hab, Hba.
        reflexivity. }
      rewrite Eaa, Eab in Hstable. congruence. }
    f_equal. apply IH.
    + exact Hl2.
    + eapply Permutation_cons_inv, Hperm.
    + intros x. specialize (Hstable x). simpl in Hstable.
      destruct (sameRank compareFn x a); congruence.
Qed.

Lemma sort_unique (l l' : list A) :
  Permutation l' l ->
  StronglySorted (fun a b => compareFn a b <= 0) l' ->
  (forall x, List.filter (sameRank compareFn x) l'
             = List.filter (sameRank compareFn x) l) ->
  l' = JsArray.sort compareFn l.
Proof.
  intros Hperm Hsorted Hstable. apply stable_sorted_unique.
  - exact Hsorted.
  - apply sort_StronglySorted; assumption.
  - rewrite Hperm. symmetry. apply sort_Permutation.
  - intros x. rewrite Hstable. symmetry. apply sort_stable.
Qed.
End SortUnique.

Lemma StronglySorted_weaken {A : Type} (R R' : A -> A -> Prop) (l : list A) :
  (forall a b, R a b -> R' a b) -> StronglySorted R l -> StronglySorted R' l.
Proof.
  intros HR. induction 1 as [|x l Hl IH Hx]; constructor; [assumption|].
  eapply Forall_impl; [exact Hx|]. intros b. apply HR.
Qed.

Section UrgencyFacts.
Context {zone : TimeZone}.

Lemma getPriority_range (lo hi : Z) (w : WordEntry.t) :
  0 <= Scheduler.getPriority lo hi w <= 2.
Proof.
  unfold Scheduler.getPriority.
  destruct (_ <? _); [lia|]. destruct (_ <=? _); lia.
Qed.

Lemma compareUrgency_le (now : Z) (a b : WordEntry.t) :
  Scheduler.compareUrgency (Scheduler.getStartOfDay now)
                           (Scheduler.getEndOfDay now) a b <= 0
  <-> urgencyLe now a b.
Proof.
  unfold Scheduler.compareUrgency, urgencyLe.
  destruct (Z.eqb_spec (Scheduler.getPriority (Scheduler.getStartOfDay now)
                          (Scheduler.getEndOfDay now) a)
                       (Scheduler.getPriority (Scheduler.getStartOfDay now)
                          (Scheduler.getEndOfDay now) b)); simpl; lia.
Qed.

(** Each entry is in exactly one class, the one whose rank the sort's
    priority is. *)
Lemma getPriority_class (now : Z) (w : WordEntry.t) (c : Urgency) :
  inUrgency now w c <->
  Scheduler.getPriority (Scheduler.getStartOfDay now) (Scheduler.getEndOfDay now) w
  = urgencyRank c.
Proof.
  pose proof (getEndOfDay_spec now) as He. rewrite DAY_MS_value in He.
  unfold Scheduler.getPriority, inUrgency.
  destruct (Z.ltb_spec (WordEntry.nextReviewAt w) (Scheduler.getStartOfDay now));
    [|destruct (Z.leb_spec (WordEntry.nextReviewAt w) (Scheduler.getEndOfDay now))];
    destruct c; simpl; lia.
Qed.

Lemma urgency_exists_unique (now : Z) (w : WordEntry.t) :
  exists c, inUrgency now w c /\ forall c', inUrgency now w c' -> c' = c.
Proof.
  pose proof (getPriority_range (Scheduler.getStartOfDay now)
                                (Scheduler.getEndOfDay now) w) as Hr.
  assert (exists c, Scheduler.getPriority (Scheduler.getStartOfDay now)
                      (Scheduler.getEndOfDay now) w = urgencyRank c) as [c Hc].
  { assert (Scheduler.getPriority (Scheduler.getStartOfDay now)
              (Scheduler.getEndOfDay now) w = 0
            \/ Scheduler.getPriority (Scheduler.getStartOfDay now)
                 (Scheduler.getEndOfDay now) w = 1
            \/ Scheduler.getPriority (Scheduler.getStartOfDay now)
                 (Scheduler.getEndOfDay now) w = 2) as [H|[H|H]] by lia;
      [exists Overdue|exists DueToday|exists Future]; exact H. }
  exists c. split; [apply getPriority_class, Hc|].
  intros c' Hc'. apply getPriority_class in Hc'. rewrite Hc in Hc'.
  destruct c, c'; simpl in Hc'; congruence.
Qed.

Lemma sortByUrgency_Permutation (now : Z) (words : list WordEntry.t) :
  Permutation (Scheduler.sortByUrgency now words) words.
Proof. apply sort_Permutation. Qed.

Lemma sortByUrgency_sorted (now : Z) (words : list WordEntry.t) :
  StronglySorted (urgencyLe now) (Scheduler.sortByUrgency now words).
Proof.
  unfold Scheduler.sortByUrgency.
  eapply StronglySorted_weaken; [|apply sort_StronglySorted].
  - intros a b Hab. apply compareUrgency_le, Hab.
  - intros a b Hab. apply compareUrgency_le.
    assert (~ urgencyLe now a b) as Hn by (rewrite <- compareUrgency_le; lia).
    unfold urgencyLe in *. lia.
  - intros a b c. rewrite !compareUrgency_le. unfold urgencyLe. lia.
Qed.

Lemma sortByUrgency_stable (now : Z) (words : list WordEntry.t) (priority due : Z) :
  List.filter (sameUrgency now priority due) (Scheduler.sortByUrgency now words)
  = List.filter (sameUrgency now priority due) words.
Proof.
  apply sort_filter. intros a b Ha Hb. apply compareUrgency_le.
  unfold sameUrgency in Ha, Hb.
  apply andb_prop in Ha as [Ha1 Ha2]. apply andb_prop in Hb as [Hb1 Hb2].
  unfold urgencyLe. lia.
Qed.
End UrgencyFacts.

Section UrgencyClaims.
Context {zone : TimeZone}.

Lemma urgencyLe_antisym_ranked (now : Z) (a b : WordEntry.t) (ca cb : Urgency) :
  inUrgency now a ca -> inUrgency now b cb ->
  urgencyLe now a b -> urgencyLe now b a -> ca = cb.
Proof.
  rewrite !getPriority_class. unfold urgencyLe. intros Ha Hb Hab Hba.
  assert (urgencyRank ca = urgencyRank cb) as Hr by lia.
  destruct ca, cb; simpl in Hr; congruence.
Qed.

Lemma overdue_today_future_sorted (now : Z) (y d f : WordEntry.t) :
  inUrgency now y Overdue -> inUrgency now d DueToday -> inUrgency now f Future ->
  StronglySorted (urgencyLe now) [y; d; f].
Proof.
  rewrite !getPriority_class. simpl. intros Hy Hd Hf.
  repeat constructor; unfold urgencyLe; lia.
Qed.

(** C6. Relative to [now] every entry is in exactly one of the classes
    overdue, due today and future; [sortByUrgency] orders its input by
    class in that order and by due instant within a class, and keeps the
    input order of entries of one class with one due instant. Entries due
    yesterday, today and tomorrow come out in that order. *)
Theorem sortByUrgency_order (now : Z) (words : list WordEntry.t) :
  (forall w, exists c, inUrgency now w c
                       /\ forall c', inUrgency now w c' -> c' = c)
  /\ (forall w c,
        inUrgency now w c <->
        Scheduler.getPriority (Scheduler.getStartOfDay now)
                              (Scheduler.getEndOfDay now) w = urgencyRank c)
  /\ StronglySorted (urgencyLe now) (Scheduler.sortByUrgency now words)
  /\ (forall priority due,
        List.filter (sameUrgency now priority due)
                    (Scheduler.sortByUrgency now words)
        = List.filter (sameUrgency now priority due) words)
  /\ (forall y d f,
        inUrgency now y Overdue -> inUrgency now d DueToday ->
        inUrgency now f Future ->
        Permutation words [y; d; f] ->
        Scheduler.sortByUrgency now words = [y; d; f]).
Proof.
  split; [intros w; apply urgency_exists_unique|].
  split; [intros w c; apply getPriority_class|].
  split; [apply sortByUrgency_sorted|].
  split; [intros priority due; apply sortByUrgency_stable|].
  intros y d f Hy Hd Hf Hperm.
  apply (StronglySorted_unique_strong (urgencyLe now)).
  - intros x1 x2 H1 H2 H12 H21.
    assert (forall x, x ∈ [y; d; f] -> x = y \/ x = d \/ x = f) as Hcases.
    { intros x. rewrite !elem_of_cons, elem_of_nil. tauto. }
    rewrite (sortByUrgency_Permutation now words), Hperm in H1.
    destruct (Hcases _ H1) as [->|[->| ->]], (Hcases _ H2) as [->|[->| ->]];
      try reflexivity; exfalso;
      match goal with
      | Ha : inUrgency now ?a ?ca, Hb : inUrgency now ?b ?cb,
        Hab : urgencyLe now ?a ?b, Hba : urgencyLe now ?b ?a |- _ =>
          pose proof (urgencyLe_antisym_ranked now a b ca cb Ha Hb Hab Hba);
          discriminate
      end.
  - apply sortByUrgency_sorted.
  - apply overdue_today_future_sorted; assumption.
  - rewrite <- Hperm. apply sortByUrgency_Permutation.
Qed.

(** C10. [sortByUrgency] returns a permutation of its input: the same
    entries, each as often as before, mastered ones included; a session
    started on a list has exactly the entries of that list in its queue.
    The array returned is a new one, the array passed is as it was. *)
Theorem sortByUrgency_permutes (now : Z) (words : list WordEntry.t) :
  Permutation (Scheduler.sortByUrgency now words) words
  /\ length (Scheduler.sortByUrgency now words) = length words
  /\ (forall w, In w (Scheduler.sortByUrgency now words) <-> In w words)
  /\ (forall P : WordEntry.t -> bool,
        Permutation (List.filter P (Scheduler.sortByUrgency now words))
                    (List.filter P words))
  /\ (forall st,
        Permutation (ProgressStore.reviewQueue
                       (ProgressStore.startReview now words st)) words
        /\ ProgressStore.currentReviewIndex
             (ProgressStore.startReview now words st) = 0%nat)
  /\ (forall (h : gmap positive (list WordEntry.t)) (a : positive),
        h !! a = Some words ->
        exists r h',
          ArrayRefs.sortByUrgency now a h = Some (r, h')
          /\ r <> a
          /\ h !! r = None
          /\ h' !! a = Some words
          /\ h' !! r = Some (Scheduler.sortByUrgency now words)
          /\ forall b, b <> r -> h' !! b = h !! b).
Proof.
  pose proof (sortByUrgency_Permutation now words) as Hperm.
  split; [exact Hperm|].
  split; [apply Permutation_length, Hperm|].
  split.
  { intros w. split; apply Permutation_in; [exact Hperm|symmetry; exact Hperm]. }
  split.
  { intros P. clear Hperm. unfold Scheduler.sortByUrgency.
    generalize (Scheduler.compareUrgency (Scheduler.getStartOfDay now)
                                         (Scheduler.getEndOfDay now)).
    intros cmp. induction words as [|x l IH]; simpl; [reflexivity|].
    transitivity (List.filter P (x :: JsArray.sort cmp l)).
    - generalize (JsArray.sort cmp l). intros k.
      induction k as [|y k IHk]; simpl; [reflexivity|].
      destruct (cmp x y <=? 0); [reflexivity|]. simpl.
      destruct (P y) eqn:Hy.
      + rewrite IHk. simpl. destruct (P x); [apply perm_swap|reflexivity].
      + rewrite IHk. simpl. reflexivity.
    - simpl. destruct (P x); [apply perm_skip|]; exact IH. }
  split.
  { intros st. split; [exact Hperm|reflexivity]. }
  intros h a Ha.
  assert (h !! fresh (dom h) = None) as Hfresh.
  { apply not_elem_of_dom, is_fresh. }
  assert (fresh (dom h) <> a) as Hne.
  { intros Heq. rewrite Heq in Hfresh. congruence. }
  exists (fresh (dom h)),
    (<[fresh (dom h) := Scheduler.sortByUrgency now words]>
       (<[fresh (dom h) := words]> h)).
  split.
  { unfold ArrayRefs.sortByUrgency, ArrayRefs.spreadCopy, ArrayRefs.sort.
    rewrite Ha. simpl. rewrite lookup_insert_eq. reflexivity. }
  split; [exact Hne|]. split; [exact Hfresh|].
  split; [rewrite !lookup_insert_ne by exact Hne; exact Ha|].
  split; [apply lookup_insert_eq|].
  intros b Hb. rewrite !lookup_insert_ne by congruence. reflexivity.
Qed.
End UrgencyClaims.

Lemma sortByUrgency_order_witness :
  Scheduler.sortByUrgency (zone := zoneCST) Example.now
    [Example.future; Example.overdue; Example.today]
  = [Example.overdue; Example.today; Example.future].
Proof.
  destruct (sortByUrgency_order (zone := zoneCST) Example.now
              [Example.future; Example.overdue; Example.today])
    as (_ & _ & _ & _ & H).
  apply H.
  - vm_compute. reflexivity.
  - vm_compute. split; discriminate.
  - vm_compute. reflexivity.
  - apply (Permutation_cons_append [Example.overdue; Example.today] Example.future).
Defined.

Lemma sortByUrgency_permutes_witness :
  exists r h',
    ArrayRefs.sortByUrgency (zone := zoneCST) Example.now 1%positive
      {[ 1%positive := [Example.known; Example.future; Example.overdue] ]}
    = Some (r, h')
    /\ r <> 1%positive
    /\ h' !! 1%positive = Some [Example.known; Example.future; Example.overdue]
    /\ h' !! r = Some [Example.overdue; Example.known; Example.future].
Proof.
  destruct (sortByUrgency_permutes (zone := zoneCST) Example.now
              [Example.known; Example.future; Example.overdue])
    as (_ & _ & _ & _ & _ & H).
  destruct (H {[ 1%positive := [Example.known; Example.future; Example.overdue] ]}
              1%positive) as (r & h' & H1 & H2 & _ & H4 & H5 & _).
  - apply lookup_singleton_eq.
  - exists r, h'. repeat split; assumption.
Defined.

(** ** The study streak *)

Lemma parse_Day (s : string) (t : Z) :
  JsDate.parse s = Some t -> t = JsDate.Day t * 86400000.
Proof.
  unfold JsDate.parse. destruct (JsDate.splitYMD s) as [[[y m] d]|]; simpl;
    [|discriminate].
  destruct (_ && _); [|discriminate].
  intros [= <-]. unfold JsDate.MakeDate, JsDate.Day, JsDate.msPerDay.
  rewrite Z.add_0_r, Z.div_mul by lia. reflexivity.
Qed.

Lemma parse_empty : JsDate.parse "" = None.
Proof. reflexivity. Qed.

(** The test [diffDays === 1] of both [updateStreakDays]. *)
Lemma diffDays_isNextDay (last today : string) :
  (t2 ← JsDate.parse today; t1 ← JsDate.parse last;
   Some ((t2 - t1) / (24 * 60 * 60 * 1000))) = Some 1
  <-> isNextDay last today.
Proof.
  unfold isNextDay, dayNumber.
  destruct (JsDate.parse today) as [t2|] eqn:H2; simpl.
  - destruct (JsDate.parse last) as [t1|] eqn:H1; simpl.
    + apply parse_Day in H1, H2.
      replace (24 * 60 * 60 * 1000) with 86400000 by reflexivity.
      assert ((t2 - t1) / 86400000 = JsDate.Day t2 - JsDate.Day t1) as ->.
      { rewrite H1, H2 at 1.
        replace (JsDate.Day t2 * 86400000 - JsDate.Day t1 * 86400000)
          with ((JsDate.Day t2 - JsDate.Day t1) * 86400000) by lia.
        apply Z.div_mul. lia. }
      split.
      * intros [= H]. exists (JsDate.Day t1). split; [reflexivity|]. f_equal. lia.
      * intros (d & [= Hd1] & [= Hd2]). f_equal. lia.
    + split; [discriminate|]. intros (d & Hd & _). discriminate.
  - split; [discriminate|]. intros (d & _ & Hd). discriminate.
Qed.

Lemma isNextDay_neq (last today : string) :
  isNextDay last today -> last <> "" /\ last <> today.
Proof.
  intros (d & H1 & H2). split.
  - intros ->. discriminate.
  - intros ->. rewrite H1 in H2. injection H2. lia.
Qed.

(** ** The calendar: the date string of an instant reads back as its day *)

Lemma civilOk_era : civilOkFrom (Z.to_nat 146097) 0 = true.
Proof. vm_compute. reflexivity. Qed.

Lemma civilOkFrom_all (n : nat) (first doe : Z) :
  civilOkFrom n first = true ->
  first <= doe < first + Z.of_nat n -> civilOk doe = true.
Proof.
  revert first. induction n as [|n IH]; intros first; simpl; [lia|].
  intros [Hfirst Hrest]%andb_prop Hdoe.
  destruct (decide (doe = first)) as [->|Hne]; [exact Hfirst|].
  apply (IH (first + 1)); [exact Hrest|lia].
Qed.

Lemma daysFromCivil_shift (y m d k : Z) :
  JsDate.daysFromCivil (y + 400 * k) m d = JsDate.daysFromCivil y m d + 146097 * k.
Proof.
  unfold JsDate.daysFromCivil.
  set (c := if m <=? 2 then 1 else 0).
  replace (if m <=? 2 then y + 400 * k - 1 else y + 400 * k) with (y - c + k * 400)
    by (subst c; destruct (m <=? 2); lia).
  replace (if m <=? 2 then y - 1 else y) with (y - c)
    by (subst c; destruct (m <=? 2); lia).
  rewrite Z.div_add by lia.
  set (e := (y - c) / 400).
  replace (y - c + k * 400 - (e + k) * 400) with (y - c - e * 400) by lia.
  cbv zeta. lia.
Qed.

Lemma MakeDay_shift (y month date k : Z) :
  JsDate.MakeDay (y + 400 * k) month date = JsDate.MakeDay y month date + 146097 * k.
Proof.
  unfold JsDate.MakeDay.
  replace (y + 400 * k + month / 12) with (y + month / 12 + 400 * k) by lia.
  rewrite daysFromCivil_shift. lia.
Qed.

Lemma daysInMonth_shift (y month k : Z) :
  JsDate.daysInMonth (y + 400 * k) month = JsDate.daysInMonth y month.
Proof. unfold JsDate.daysInMonth. rewrite !MakeDay_shift. lia. Qed.

Lemma civilFromDays_shift (z k : Z) :
  JsDate.civilFromDays (z + 146097 * k)
  = let '(y, m, d) := JsDate.civilFromDays z in (y + 400 * k, m, d).
Proof.
  unfold JsDate.civilFromDays.
  replace (z + 146097 * k + 719468) with (z + 719468 + k * 146097) by lia.
  rewrite Z.div_add by lia.
  set (era := (z + 719468) / 146097).
  replace (z + 719468 + k * 146097 - (era + k) * 146097)
    with (z + 719468 - era * 146097) by lia.
  set (doe := z + 719468 - era * 146097).
  cbv zeta. destruct (_ <=? 2); f_equal; f_equal; lia.
Qed.

Lemma civilFromDays_valid (z : Z) :
  let '(y, m, d) := JsDate.civilFromDays z in
  1 <= m <= 12 /\ 1 <= d <= 31 /\ d <= JsDate.daysInMonth y (m - 1)
  /\ JsDate.MakeDay y (m - 1) d = z.
Proof.
  set (era := (z + 719468) / 146097).
  set (doe := (z + 719468) mod 146097).
  assert (z = doe - 719468 + 146097 * era) as Hz.
  { subst era doe. pose proof (Z.div_mod (z + 719468) 146097). lia. }
  assert (0 <= doe < 146097) as Hdoe by (apply Z.mod_pos_bound; lia).
  clearbody era doe. subst z.
  pose proof (civilOkFrom_all _ 0 doe civilOk_era) as Hok.
  rewrite Z2Nat.id in Hok by lia. specialize (Hok ltac:(lia)).
  rewrite civilFromDays_shift. unfold civilOk in Hok.
  destruct (JsDate.civilFromDays (doe - 719468)) as [[y m] d].
  rewrite !andb_true_iff in Hok.
  destruct Hok as (((((H1 & H2) & H3) & H4) & H5) & H6).
  rewrite daysInMonth_shift, MakeDay_shift. lia.
Qed.

Lemma digitValue_digitChar (z : Z) :
  JsDate.digitValue (JsDate.digitChar z) = Some (z mod 10).
Proof.
  unfold JsDate.digitChar.
  pose proof (Z.mod_pos_bound z 10 ltac:(lia)) as Hb.
  assert (z mod 10 = 0 \/ z mod 10 = 1 \/ z mod 10 = 2 \/ z mod 10 = 3
          \/ z mod 10 = 4 \/ z mod 10 = 5 \/ z mod 10 = 6 \/ z mod 10 = 7
          \/ z mod 10 = 8 \/ z mod 10 = 9) as Hc by lia.
  destruct Hc as [->|[->|[->|[->|[->|[->|[->|[->|[->| ->]]]]]]]]];
    reflexivity.
Qed.

Lemma splitYMD_chars (c1 c2 c3 c4 c5 c6 c7 c8 : ascii) :
  JsDate.splitYMD
    (String c1 (String c2 (String c3 (String c4 (String "-"
       (String c5 (String c6 (String "-" (String c7 (String c8 ""))))))))))
  = (a ← JsDate.digitValue c1; b ← JsDate.digitValue c2;
     c ← JsDate.digitValue c3; d ← JsDate.digitValue c4;
     e ← JsDate.digitValue c5; f ← JsDate.digitValue c6;
     g ← JsDate.digitValue c7; h ← JsDate.digitValue c8;
     Some (1000 * a + 100 * b + 10 * c + d, 10 * e + f, 10 * g + h)).
Proof. reflexivity. Qed.

Lemma pad_date (y m d : Z) :
  JsDate.pad 4 y +:+ "-" +:+ JsDate.pad 2 m +:+ "-" +:+ JsDate.pad 2 d
  = String (JsDate.digitChar (y / 10 / 10 / 10))
      (String (JsDate.digitChar (y / 10 / 10))
         (String (JsDate.digitChar (y / 10))
            (String (JsDate.digitChar y)
               (String "-"
                  (String (JsDate.digitChar (m / 10))
                     (String (JsDate.digitChar m)
                        (String "-"
                           (String (JsDate.digitChar (d / 10))
                              (String (JsDate.digitChar d) ""))))))))).
Proof. reflexivity. Qed.

Lemma splitYMD_pad (y m d : Z) :
  0 <= y <= 9999 -> 0 <= m <= 99 -> 0 <= d <= 99 ->
  JsDate.splitYMD
    (JsDate.pad 4 y +:+ "-" +:+ JsDate.pad 2 m +:+ "-" +:+ JsDate.pad 2 d)
  = Some (y, m, d).
Proof.
  intros Hy Hm Hd. rewrite pad_date, splitYMD_chars, !digitValue_digitChar.
  simpl. f_equal. f_equal; [f_equal|]; Z.to_euclidean_division_equations; lia.
Qed.

Lemma parse_toISODate (t : Z) :
  0 <= (JsDate.civilFromDays (JsDate.Day t)).1.1 <= 9999 ->
  JsDate.parse (JsDate.toISODate t) = Some (JsDate.Day t * JsDate.msPerDay).
Proof.
  intros Hyear. unfold JsDate.toISODate, JsDate.parse.
  pose proof (civilFromDays_valid (JsDate.Day t)) as Hvalid.
  destruct (JsDate.civilFromDays (JsDate.Day t)) as [[y m] d]. simpl in Hyear.
  destruct Hvalid as (Hm & Hd & Hdim & Hday).
  assert ((0 <=? y) && (y <=? 9999) = true) as ->.
  { apply andb_true_iff. split; apply Z.leb_le; lia. }
  rewrite splitYMD_pad by lia. simpl.
  assert ((1 <=? m) && (m <=? 12) && (1 <=? d)
          && (d <=? JsDate.daysInMonth y (m - 1)) = true) as ->.
  { rewrite !andb_true_iff. repeat split; apply Z.leb_le; lia. }
  rewrite Hday. unfold JsDate.MakeDate. f_equal. lia.
Qed.

Lemma toISODate_Day (t : Z) :
  JsDate.toISODate t = JsDate.toISODate (JsDate.Day t * JsDate.msPerDay).
Proof.
  unfold JsDate.toISODate, JsDate.Day at 2, JsDate.msPerDay.
  rewrite Z.div_mul by lia. reflexivity.
Qed.

(** For an instant of the years 0000 to 9999. *)
Lemma dayNumber_toISODate (t : Z) :
  0 <= (JsDate.civilFromDays (JsDate.Day t)).1.1 <= 9999 ->
  dayNumber (JsDate.toISODate t) = Some (JsDate.Day t).
Proof.
  intros Hyear. unfold dayNumber. rewrite (parse_toISODate t Hyear). simpl.
  f_equal. unfold JsDate.Day at 1, JsDate.msPerDay. apply Z.div_mul. lia.
Qed.

(** C7. For study dates as the store writes them, strings YYYY-MM-DD that
    name a date of the calendar (the last study date may also be empty, for
    the first study): the streak grows by one exactly when the study date is
    the calendar day after the last study date; it is set to 1 on the first
    study (no last study date) and on every other gap; a study on the last
    study date itself changes nothing. The service's copy of the function
    does the same on [data.stats]. *)
Theorem updateStreakDays_streak (today : string) (st : ProgressStore.State) :
  isStudyDate today ->
  ProgressStore.lastStudyDate st = ""
  \/ isStudyDate (ProgressStore.lastStudyDate st) ->
  let st' := ProgressStore.updateStreakDays today st in
  let last := ProgressStore.lastStudyDate st in
  (isNextDay last today ->
     ProgressStore.streakDays st' = ProgressStore.streakDays st + 1
     /\ ProgressStore.lastStudyDate st' = today)
  /\ (last = "" ->
        ProgressStore.streakDays st' = 1
        /\ ProgressStore.lastStudyDate st' = today)
  /\ (last <> "" -> last = today -> st' = st)
  /\ (last <> today -> ~ isNextDay last today ->
        ProgressStore.streakDays st' = 1
        /\ ProgressStore.lastStudyDate st' = today)
  /\ (forall d1 d2,
        dayNumber last = Some d1 -> dayNumber today = Some d2 -> d1 + 1 < d2 ->
        ProgressStore.streakDays st' = 1
        /\ ProgressStore.lastStudyDate st' = today)
  /\ (0 < ProgressStore.streakDays st ->
        (ProgressStore.streakDays st' = ProgressStore.streakDays st + 1
         <-> isNextDay last today))
  /\ ((last <> "" -> 0 < ProgressStore.streakDays st) ->
        0 < ProgressStore.streakDays st')
  /\ (ProgressStore.progressList st' = ProgressStore.progressList st
      /\ ProgressStore.dailyReviews st' = ProgressStore.dailyReviews st
      /\ ProgressStore.reviewQueue st' = ProgressStore.reviewQueue st
      /\ ProgressStore.currentReviewIndex st' = ProgressStore.currentReviewIndex st
      /\ ProgressStore.todayReviewedCount st' = ProgressStore.todayReviewedCount st
      /\ ProgressStore.localStorage st' = ProgressStore.localStorage st)
  /\ (forall data,
        ProgressData.streakDays (ProgressData.stats_ data)
        = ProgressStore.streakDays st ->
        ProgressData.lastStudyDate (ProgressData.stats_ data) = last ->
        let data' := ProgressService.updateStreakDays data today in
        ProgressData.streakDays (ProgressData.stats_ data')
        = ProgressStore.streakDays st'
        /\ ProgressData.lastStudyDate (ProgressData.stats_ data')
           = ProgressStore.lastStudyDate st'
        /\ ProgressData.dailyReviews (ProgressData.stats_ data')
           = ProgressData.dailyReviews (ProgressData.stats_ data)
        /\ ProgressData.version data' = ProgressData.version data
        /\ ProgressData.progress data' = ProgressData.progress data
        /\ ProgressData.settings data' = ProgressData.settings data).
Proof.
  intros _ _ st' last.
  assert (Hcases :
    (last = "" /\ ProgressStore.streakDays st' = 1
     /\ ProgressStore.lastStudyDate st' = today)
    \/ (last <> "" /\ last = today /\ st' = st)
    \/ (last <> "" /\ last <> today /\ isNextDay last today
        /\ ProgressStore.streakDays st' = ProgressStore.streakDays st + 1
        /\ ProgressStore.lastStudyDate st' = today)
    \/ (last <> "" /\ last <> today /\ ~ isNextDay last today
        /\ ProgressStore.streakDays st' = 1
        /\ ProgressStore.lastStudyDate st' = today)).
  { subst st' last. unfold ProgressStore.updateStreakDays.
    case_bool_decide as H1; [left; auto|].
    case_bool_decide as H2; [right; left; auto|].
    right; right.
    case_bool_decide as H3.
    - left. apply diffDays_isNextDay in H3. auto.
    - right. rewrite diffDays_isNextDay in H3. auto. }
  assert (Hother :
    ProgressStore.progressList st' = ProgressStore.progressList st
    /\ ProgressStore.dailyReviews st' = ProgressStore.dailyReviews st
    /\ ProgressStore.reviewQueue st' = ProgressStore.reviewQueue st
    /\ ProgressStore.currentReviewIndex st' = ProgressStore.currentReviewIndex st
    /\ ProgressStore.todayReviewedCount st' = ProgressStore.todayReviewedCount st
    /\ ProgressStore.localStorage st' = ProgressStore.localStorage st).
  { subst st'. unfold ProgressStore.updateStreakDays.
    repeat case_bool_decide; repeat split. }
  split; [|split; [|split; [|split; [|split; [|split; [|split; [|split]]]]]]].
  - intros Hn. destruct (isNextDay_neq _ _ Hn) as [Ha Hb].
    destruct Hcases as [(? & _)|[(_ & ? & _)|[(_ & _ & _ & ?)|(_ & _ & ? & _)]]];
      tauto.
  - intros He.
    destruct Hcases as [(_ & ?)|[(? & _)|[(? & _)|(? & _)]]]; tauto.
  - intros Ha Hb.
    destruct Hcases as [(? & _)|[(_ & _ & ?)|[(_ & ? & _)|(_ & ? & _)]]]; tauto.
  - intros Ha Hb.
    destruct Hcases as [(_ & ?)|[(_ & ? & _)|[(_ & _ & ? & _)|(_ & _ & _ & ?)]]];
      tauto.
  - intros d1 d2 Hd1 Hd2 Hgap.
    assert (~ isNextDay last today) as Hn.
    { intros (d & Hd & Hd'). rewrite Hd1 in Hd. rewrite Hd2 in Hd'.
      injection Hd. injection Hd'. lia. }
    assert (last <> today) as Hne.
    { intros Heq. rewrite Heq, Hd2 in Hd1. injection Hd1. lia. }
    destruct Hcases as [(_ & ?)|[(_ & ? & _)|[(_ & _ & ? & _)|(_ & _ & _ & ?)]]];
      tauto.
  - intros Hpos.
    destruct Hcases as [(He & Hs & _)|[(_ & He & Hs)|[(_ & _ & Hn & Hs & _)
                                                    |(_ & _ & Hn & Hs & _)]]].
    + split; [lia|]. intros Hn. destruct (isNextDay_neq _ _ Hn). tauto.
    + rewrite Hs. split; [lia|]. intros Hn. destruct (isNextDay_neq _ _ Hn).
      tauto.
    + tauto.
    + split; [lia|tauto].
  - intros Hinv.
    destruct Hcases as [(_ & Hs & _)|[(Hne & _ & Hs)|[(Hne & _ & _ & Hs & _)
                                                    |(_ & _ & _ & Hs & _)]]].
    + lia.
    + rewrite Hs. auto.
    + specialize (Hinv Hne). lia.
    + lia.
  - exact Hother.
  - intros data Hstreak Hlast. simpl.
    subst st' last. unfold ProgressService.updateStreakDays,
      ProgressStore.updateStreakDays.
    rewrite Hlast, Hstreak.
    repeat case_bool_decide; simpl; repeat split; auto.
Qed.

Lemma updateStreakDays_streak_witness :
  let st := ProgressStore.mkState [] 1 "2026-01-31" [("2026-01-31", 3)] [] 0 0
              (LocalStorage.mk true (fun _ => true) ∅) in
  ProgressStore.streakDays (ProgressStore.updateStreakDays "2026-02-01" st) = 2
  /\ ProgressStore.lastStudyDate (ProgressStore.updateStreakDays "2026-02-01" st)
     = "2026-02-01".
Proof.
  intros st.
  destruct (updateStreakDays_streak "2026-02-01" st) as [H _].
  - vm_compute. eexists. reflexivity.
  - right. vm_compute. eexists. reflexivity.
  - apply H. exists 20484. split; vm_compute; reflexivity.
Defined.

(** The three cases of the specification, on 10, 11 and 12 January 2026. *)
Example streak_day_after_day :
  let st0 := ProgressStore.mkState [] 0 "" [] [] 0 0
               (LocalStorage.mk true (fun _ => true) ∅) in
  let st1 := ProgressStore.updateStreakDays "2026-01-10" st0 in
  ProgressStore.streakDays st1 = 1
  /\ ProgressStore.streakDays (ProgressStore.updateStreakDays "2026-01-11" st1) = 2
  /\ ProgressStore.streakDays (ProgressStore.updateStreakDays "2026-01-12" st1) = 1
  /\ ProgressStore.updateStreakDays "2026-01-10" st1 = st1.
Proof. vm_compute. repeat split. Qed.

(** The four cases of the store's [updateStreakDays]. *)
Lemma updateStreakDays_cases (today : string) (st : ProgressStore.State) :
  let st' := ProgressStore.updateStreakDays today st in
  let last := ProgressStore.lastStudyDate st in
  (last = "" /\ ProgressStore.streakDays st' = 1)
  \/ (last <> "" /\ last = today /\ st' = st)
  \/ (last <> "" /\ last <> today /\ isNextDay last today
      /\ ProgressStore.streakDays st' = ProgressStore.streakDays st + 1)
  \/ (last <> "" /\ last <> today /\ ~ isNextDay last today
      /\ ProgressStore.streakDays st' = 1).
Proof.
  unfold ProgressStore.updateStreakDays.
  case_bool_decide as H1; [left; auto|].
  case_bool_decide as H2; [right; left; auto|].
  right; right.
  case_bool_decide as H3.
  - left. apply diffDays_isNextDay in H3. auto.
  - right. rewrite diffDays_isNextDay in H3. auto.
Qed.

Lemma updateStreakDays_last (today : string) (st : ProgressStore.State) :
  ProgressStore.lastStudyDate (ProgressStore.updateStreakDays today st) = today.
Proof.
  unfold ProgressStore.updateStreakDays.
  repeat case_bool_decide; simpl; congruence.
Qed.

(** X1. Gradings at two instants of the years 0000 to 9999 (in UTC, as the
    store reads the date): the streak grows by one over consecutive days,
    stays within a day, and restarts at 1 over a longer gap. *)
Lemma updateStats_streak_over_days (now1 now2 : Z) (st : ProgressStore.State) :
  0 <= (JsDate.civilFromDays (JsDate.Day now1)).1.1 <= 9999 ->
  0 <= (JsDate.civilFromDays (JsDate.Day now2)).1.1 <= 9999 ->
  let st1 := ProgressStore.updateStats now1 st in
  let st2 := ProgressStore.updateStats now2 st1 in
  (JsDate.Day now2 = JsDate.Day now1 + 1 ->
     ProgressStore.streakDays st2 = ProgressStore.streakDays st1 + 1)
  /\ (JsDate.Day now2 = JsDate.Day now1 ->
        ProgressStore.streakDays st2 = ProgressStore.streakDays st1)
  /\ (JsDate.Day now1 + 1 < JsDate.Day now2 ->
        ProgressStore.streakDays st2 = 1).
Proof.
  intros Hy1 Hy2 st1 st2.
  pose proof (dayNumber_toISODate now1 Hy1) as Hd1.
  pose proof (dayNumber_toISODate now2 Hy2) as Hd2.
  assert (ProgressStore.lastStudyDate st1 = JsDate.toISODate now1) as Hlast.
  { apply updateStreakDays_last. }
  set (count := default 0 (Props.get (JsDate.toISODate now2)
                             (ProgressStore.dailyReviews st1)) + 1).
  set (inner := ProgressStore.set_todayReviewedCount count
                  (ProgressStore.set_dailyReviews
                     (Props.set (JsDate.toISODate now2) count
                                (ProgressStore.dailyReviews st1)) st1)).
  change st2 with (ProgressStore.updateStreakDays (JsDate.toISODate now2) inner).
  clear st2.
  assert (ProgressStore.lastStudyDate inner = JsDate.toISODate now1) as Hlast'
    by exact Hlast.
  assert (ProgressStore.streakDays inner = ProgressStore.streakDays st1) as Hstreak
    by reflexivity.
  assert (isNextDay (JsDate.toISODate now1) (JsDate.toISODate now2)
          <-> JsDate.Day now2 = JsDate.Day now1 + 1) as Hnext.
  { unfold isNextDay. rewrite Hd1, Hd2. split.
    - intros (d & [= <-] & [= Hd]). exact Hd.
    - intros ->. eauto. }
  assert (JsDate.toISODate now1 = JsDate.toISODate now2
          <-> JsDate.Day now2 = JsDate.Day now1) as Hsame.
  { split.
    - intros Heq. rewrite Heq, Hd2 in Hd1. congruence.
    - intros Hday. rewrite (toISODate_Day now1), (toISODate_Day now2), Hday.
      reflexivity. }
  assert (JsDate.toISODate now1 <> "") as Hne.
  { intros He. rewrite He in Hd1. discriminate. }
  pose proof (updateStreakDays_cases (JsDate.toISODate now2) inner) as Hcases.
  cbv zeta in Hcases. rewrite Hlast', Hstreak in Hcases.
  destruct Hcases as [(He & _)|[(_ & He & Hst)|[(_ & _ & Hn & Hs)|(_ & Hd & Hn & Hs)]]].
  - contradiction.
  - apply Hsame in He. rewrite Hst, Hstreak. repeat split; intros; lia.
  - apply Hnext in Hn. rewrite Hs. repeat split; intros; lia.
  - rewrite Hnext in Hn. rewrite Hsame in Hd. rewrite Hs.
    repeat split; intros; lia.
Qed.

(** ** The review session *)

Section SessionFacts.
Context {zone : TimeZone}.

Lemma currentWord_None (st : ProgressStore.State) :
  ProgressStore.currentWord st = None
  <-> ProgressStore.reviewQueue st = []
      \/ (length (ProgressStore.reviewQueue st)
          <= ProgressStore.currentReviewIndex st)%nat.
Proof.
  unfold ProgressStore.currentWord.
  destruct (Nat.eqb_spec (length (ProgressStore.reviewQueue st)) 0) as [H0|H0].
  - split; [|reflexivity]. intros _. left.
    destruct (ProgressStore.reviewQueue st); [reflexivity|discriminate].
  - destruct (Nat.leb_spec (length (ProgressStore.reviewQueue st))
                           (ProgressStore.currentReviewIndex st)) as [Hle|Hlt].
    + split; [auto|reflexivity].
    + split.
      * intros Hn. apply lookup_ge_None in Hn. lia.
      * intros [Hq|Hle]; [rewrite Hq in H0; simpl in H0; lia|lia].
Qed.

Lemma currentWord_Some (st : ProgressStore.State) (word : WordEntry.t) :
  ProgressStore.currentWord st = Some word
  <-> ProgressStore.reviewQueue st !! ProgressStore.currentReviewIndex st
      = Some word.
Proof.
  unfold ProgressStore.currentWord.
  destruct (Nat.eqb_spec (length (ProgressStore.reviewQueue st)) 0) as [H0|H0].
  - split; [discriminate|]. intros H. apply lookup_lt_Some in H. lia.
  - destruct (Nat.leb_spec (length (ProgressStore.reviewQueue st))
                           (ProgressStore.currentReviewIndex st)) as [Hle|Hlt].
    + split; [discriminate|]. intros H. apply lookup_lt_Some in H. lia.
    + reflexivity.
Qed.

Lemma currentWord_in_range (st : ProgressStore.State) :
  (ProgressStore.currentReviewIndex st
   < length (ProgressStore.reviewQueue st))%nat ->
  exists word, ProgressStore.currentWord st = Some word.
Proof.
  intros Hlt. destruct (lookup_lt_is_Some_2 _ _ Hlt) as [word Hw].
  exists word. apply currentWord_Some, Hw.
Qed.

(** What the bookkeeping of a grading leaves alone. *)
Lemma bookkeeping_frame (now : Z) (p : WordProgress.t) (st : ProgressStore.State) :
  let st' :=
    (ProgressStore.saveProgress
       (ProgressStore.updateStats now (ProgressStore.updateProgressList p st))).2 in
  ProgressStore.reviewQueue st' = ProgressStore.reviewQueue st
  /\ ProgressStore.currentReviewIndex st' = ProgressStore.currentReviewIndex st.
Proof.
  unfold ProgressStore.saveProgress.
  destruct (ProgressService.getSettings _ _) as [settings storage].
  destruct (ProgressService.save _ _ _) as [saved storage'].
  unfold ProgressStore.updateStats, ProgressStore.updateStreakDays,
    ProgressStore.updateProgressList.
  destruct (ProgressStore.findIndex _ _); simpl;
    repeat case_bool_decide; simpl; auto.
Qed.

Lemma handleRemember_Some (now : Z) (st : ProgressStore.State) (word : WordEntry.t) :
  ProgressStore.currentWord st = Some word ->
  (ProgressStore.handleRemember now st).1 = Some (Scheduler.handleRemember now word)
  /\ ProgressStore.reviewQueue (ProgressStore.handleRemember now st).2
     = ProgressStore.reviewQueue st
  /\ ProgressStore.currentReviewIndex (ProgressStore.handleRemember now st).2
     = S (ProgressStore.currentReviewIndex st).
Proof.
  intros Hw. unfold ProgressStore.handleRemember. rewrite Hw.
  pose proof (bookkeeping_frame now (Scheduler.handleRemember now word) st)
    as [Hq Hi].
  destruct (ProgressStore.saveProgress _) as [saved st1]. simpl in *.
  rewrite Hq, Hi. auto.
Qed.

Lemma handleForget_Some (now : Z) (st : ProgressStore.State) (word : WordEntry.t) :
  ProgressStore.currentWord st = Some word ->
  (ProgressStore.handleForget now st).1 = Some (Scheduler.handleForget now word)
  /\ ProgressStore.reviewQueue (ProgressStore.handleForget now st).2
     = ProgressStore.reviewQueue st
       ++ [refreshed word (Scheduler.handleForget now word)]
  /\ ProgressStore.currentReviewIndex (ProgressStore.handleForget now st).2
     = S (ProgressStore.currentReviewIndex st).
Proof.
  intros Hw. unfold ProgressStore.handleForget. rewrite Hw.
  pose proof (bookkeeping_frame now (Scheduler.handleForget now word) st)
    as [Hq Hi].
  destruct (ProgressStore.saveProgress _) as [saved st1]. simpl in *.
  rewrite Hq, Hi. auto.
Qed.

Lemma grading_None (now : Z) (st : ProgressStore.State) :
  ProgressStore.currentWord st = None ->
  ProgressStore.handleRemember now st = (None, st)
  /\ ProgressStore.handleForget now st = (None, st).
Proof.
  intros Hw. unfold ProgressStore.handleRemember, ProgressStore.handleForget.
  rewrite Hw. auto.
Qed.

(** One grading: in range the cursor moves on by one and a forget lengthens
    the queue by one; out of range nothing changes. *)
Lemma grade_step (g : ProgressStore.Grade) (now : Z) (st : ProgressStore.State) :
  let st' := ProgressStore.grade g now st in
  let len := length (ProgressStore.reviewQueue st) in
  let idx := ProgressStore.currentReviewIndex st in
  ((idx < len)%nat ->
     ProgressStore.currentReviewIndex st' = S idx
     /\ length (ProgressStore.reviewQueue st')
        = match g with
          | ProgressStore.Forget => S len
          | ProgressStore.Remember => len
          end)
  /\ ((len <= idx)%nat -> st' = st)
  /\ (idx <= ProgressStore.currentReviewIndex st')%nat
  /\ ProgressStore.reviewQueue st `prefix_of` ProgressStore.reviewQueue st'.
Proof.
  intros st' len idx. subst st' len idx.
  destruct (ProgressStore.currentWord st) as [word|] eqn:Hw.
  - assert (ProgressStore.currentReviewIndex st
            < length (ProgressStore.reviewQueue st))%nat as Hlt.
    { apply currentWord_Some in Hw. apply lookup_lt_Some in Hw. exact Hw. }
    destruct g; simpl.
    + destruct (handleRemember_Some now st word Hw) as (_ & Hq & Hi).
      rewrite Hq, Hi. repeat split; try lia. reflexivity.
    + destruct (handleForget_Some now st word Hw) as (_ & Hq & Hi).
      rewrite Hq, Hi, length_app. simpl. repeat split; try lia.
      apply prefix_app_r. reflexivity.
  - destruct (grading_None now st Hw) as [Hr Hf].
    assert (ProgressStore.grade g now st = st) as ->.
    { destruct g; simpl; [rewrite Hr|rewrite Hf]; reflexivity. }
    assert (length (ProgressStore.reviewQueue st)
            <= ProgressStore.currentReviewIndex st)%nat as Hle.
    { apply currentWord_None in Hw as [Hq|Hle]; [rewrite Hq; simpl; lia|lia]. }
    repeat split; intros; try lia; reflexivity.
Qed.

Lemma gradeAll_monotone (gs : list (ProgressStore.Grade * Z))
    (st : ProgressStore.State) :
  (ProgressStore.currentReviewIndex st
   <= ProgressStore.currentReviewIndex (ProgressStore.gradeAll gs st))%nat
  /\ ProgressStore.reviewQueue st
     `prefix_of` ProgressStore.reviewQueue (ProgressStore.gradeAll gs st).
Proof.
  revert st. induction gs as [|[g now] gs IH]; intros st; simpl.
  - split; [lia|reflexivity].
  - destruct (IH (ProgressStore.grade g now st)) as [Hi Hq].
    destruct (grade_step g now st) as (_ & _ & Hi' & Hq').
    split; [simpl in *; lia|]. etransitivity; eassumption.
Qed.

(** While every grading finds a word, the cursor counts the gradings and
    the queue has grown by the forgets. *)
Lemma gradeAll_counts (gs : list (ProgressStore.Grade * Z))
    (st : ProgressStore.State) :
  (ProgressStore.currentReviewIndex st + length gs
   <= length (ProgressStore.reviewQueue st))%nat ->
  ProgressStore.currentReviewIndex (ProgressStore.gradeAll gs st)
  = (ProgressStore.currentReviewIndex st + length gs)%nat
  /\ length (ProgressStore.reviewQueue (ProgressStore.gradeAll gs st))
     = (length (ProgressStore.reviewQueue st) + forgets gs)%nat.
Proof.
  revert st. induction gs as [|[g now] gs IH]; intros st Hlen; simpl in *.
  - unfold forgets. simpl. split; lia.
  - destruct (grade_step g now st) as (Hstep & _).
    destruct Hstep as [Hi Hq]; [lia|].
    destruct (IH (ProgressStore.grade g now st)) as [Hi' Hq'].
    { rewrite Hi, Hq. destruct g; lia. }
    rewrite Hi', Hq', Hi, Hq. unfold forgets. simpl.
    destruct g; simpl; split; lia.
Qed.
End SessionFacts.

Section SessionClaims.
Context {zone : TimeZone}.

Lemma isReviewComplete_spec (st : ProgressStore.State) :
  ProgressStore.isReviewComplete st = true
  <-> (0 < length (ProgressStore.reviewQueue st)
       <= ProgressStore.currentReviewIndex st)%nat.
Proof.
  unfold ProgressStore.isReviewComplete.
  rewrite andb_true_iff, Nat.ltb_lt, Nat.leb_le. reflexivity.
Qed.

(** C9. With the cursor out of range, that is with an empty queue or the
    cursor at or beyond the queue's length (no session, or a complete
    one), remember and forget both return null and leave the whole state
    as it was: queue, cursor, progress list, statistics and storage. *)
Theorem grading_out_of_range (now : Z) (st : ProgressStore.State) :
  let outOfRange :=
    ProgressStore.reviewQueue st = []
    \/ (length (ProgressStore.reviewQueue st)
        <= ProgressStore.currentReviewIndex st)%nat in
  (outOfRange <-> ProgressStore.currentWord st = None)
  /\ (ProgressStore.isReviewComplete st = true -> outOfRange)
  /\ (outOfRange ->
        ProgressStore.handleRemember now st = (None, st)
        /\ ProgressStore.handleForget now st = (None, st)).
Proof.
  intros outOfRange. subst outOfRange.
  split; [symmetry; apply currentWord_None|].
  split.
  - intros Hc. apply isReviewComplete_spec in Hc. right. lia.
  - intros Ho. apply grading_None, currentWord_None, Ho.
Qed.

(** The session of the specification: two entries, the first two gradings
    are forgets. *)
Lemma two_forgets (s0 : ProgressStore.State) (t1 t2 : Z) :
  length (ProgressStore.reviewQueue s0) = 2%nat ->
  ProgressStore.currentReviewIndex s0 = 0%nat ->
  let s1 := ProgressStore.grade ProgressStore.Forget t1 s0 in
  let s2 := ProgressStore.grade ProgressStore.Forget t2 s1 in
  length (ProgressStore.reviewQueue s2) = 4%nat
  /\ ProgressStore.currentReviewIndex s2 = 2%nat
  /\ ProgressStore.isReviewComplete s0 = false
  /\ ProgressStore.isReviewComplete s1 = false
  /\ ProgressStore.isReviewComplete s2 = false
  /\ forall g3 t3 g4 t4,
       let s3 := ProgressStore.grade g3 t3 s2 in
       let s4 := ProgressStore.grade g4 t4 s3 in
       ProgressStore.isReviewComplete s3 = false
       /\ (ProgressStore.isReviewComplete s4 = true
           <-> g3 = ProgressStore.Remember /\ g4 = ProgressStore.Remember)
       /\ (g3 = ProgressStore.Remember -> g4 = ProgressStore.Remember ->
           length (ProgressStore.reviewQueue s4) = 4%nat
           /\ ProgressStore.currentReviewIndex s4 = 4%nat).
Proof.
  intros Hlen Hidx s1 s2.
  destruct (grade_step ProgressStore.Forget t1 s0) as ([Hi1 Hq1] & _); [lia|].
  fold s1 in Hi1, Hq1.
  destruct (grade_step ProgressStore.Forget t2 s1) as ([Hi2 Hq2] & _); [lia|].
  fold s2 in Hi2, Hq2.
  assert (forall st, ProgressStore.isReviewComplete st = false
                     <-> ~ (0 < length (ProgressStore.reviewQueue st)
                            <= ProgressStore.currentReviewIndex st)%nat) as Hnc.
  { intros st. rewrite <- isReviewComplete_spec.
    destruct (ProgressStore.isReviewComplete st); split; congruence. }
  split; [lia|]. split; [lia|].
  split; [apply Hnc; lia|]. split; [apply Hnc; lia|]. split; [apply Hnc; lia|].
  intros g3 t3 g4 t4 s3 s4.
  destruct (grade_step g3 t3 s2) as ([Hi3 Hq3] & _); [lia|].
  fold s3 in Hi3, Hq3.
  destruct (grade_step g4 t4 s3) as ([Hi4 Hq4] & _); [destruct g3; lia|].
  fold s4 in Hi4, Hq4.
  split; [apply Hnc; destruct g3; lia|].
  split.
  - rewrite isReviewComplete_spec.
    destruct g3, g4; split; try lia; try tauto;
      intros [? ?]; discriminate.
  - intros -> ->. lia.
Qed.

(** C1. Forget on the current entry puts a copy of it, with the stage, due
    instant, status and review instant of the forget transition, at the
    tail of the queue and moves the cursor on by one. Under gradings the
    cursor never moves back and the queue only grows at its tail. A
    session on two entries whose first two gradings are forgets has a
    queue of four entries, is not complete after fewer than four gradings,
    and is complete after four exactly when the other two remember. *)
Theorem handleForget_requeues (now : Z) (st : ProgressStore.State)
    (word : WordEntry.t) :
  ProgressStore.currentWord st = Some word ->
  let p := Scheduler.handleForget now word in
  let st' := (ProgressStore.handleForget now st).2 in
  (ProgressStore.handleForget now st).1 = Some p
  /\ ProgressStore.reviewQueue st'
     = ProgressStore.reviewQueue st ++ [refreshed word p]
  /\ (WordEntry.id (refreshed word p) = WordEntry.id word
      /\ WordEntry.word (refreshed word p) = WordEntry.word word
      /\ WordEntry.reviewStage (refreshed word p) = Stage1
      /\ WordEntry.nextReviewAt (refreshed word p)
         = Scheduler.getStartOfDay now + 1 * Scheduler.DAY_MS
      /\ WordEntry.memoryStatus (refreshed word p) = learning
      /\ WordEntry.lastReviewedAt (refreshed word p) = Some now)
  /\ length (ProgressStore.reviewQueue st')
     = S (length (ProgressStore.reviewQueue st))
  /\ ProgressStore.currentReviewIndex st'
     = S (ProgressStore.currentReviewIndex st)
  /\ (forall gs s,
        (ProgressStore.currentReviewIndex s
         <= ProgressStore.currentReviewIndex (ProgressStore.gradeAll gs s))%nat
        /\ ProgressStore.reviewQueue s
           `prefix_of` ProgressStore.reviewQueue (ProgressStore.gradeAll gs s))
  /\ (forall a b s t0 t1 t2,
        let s0 := ProgressStore.startReview t0 [a; b] s in
        let s1 := ProgressStore.grade ProgressStore.Forget t1 s0 in
        let s2 := ProgressStore.grade ProgressStore.Forget t2 s1 in
        length (ProgressStore.reviewQueue s2) = 4%nat
        /\ ProgressStore.currentReviewIndex s2 = 2%nat
        /\ ProgressStore.isReviewComplete s0 = false
        /\ ProgressStore.isReviewComplete s1 = false
        /\ ProgressStore.isReviewComplete s2 = false
        /\ forall g3 t3 g4 t4,
             let s3 := ProgressStore.grade g3 t3 s2 in
             let s4 := ProgressStore.grade g4 t4 s3 in
             ProgressStore.isReviewComplete s3 = false
             /\ (ProgressStore.isReviewComplete s4 = true
                 <-> g3 = ProgressStore.Remember /\ g4 = ProgressStore.Remember)
             /\ (g3 = ProgressStore.Remember -> g4 = ProgressStore.Remember ->
                 length (ProgressStore.reviewQueue s4) = 4%nat
                 /\ ProgressStore.currentReviewIndex s4 = 4%nat)).
Proof.
  intros Hw p st'. subst p st'.
  destruct (handleForget_Some now st word Hw) as (Hr & Hq & Hi).
  split; [exact Hr|]. split; [exact Hq|].
  split; [repeat split|].
  split; [rewrite Hq, length_app; simpl; lia|].
  split; [exact Hi|].
  split; [intros gs s; apply gradeAll_monotone|].
  intros a b s t0 t1 t2. apply two_forgets.
  - simpl. apply (Permutation_length (sortByUrgency_Permutation t0 [a; b])).
  - reflexivity.
Qed.
End SessionClaims.

Lemma grading_out_of_range_witness :
  let st := ProgressStore.mkState [] 0 "" [] [Example.today] 1 0
              (LocalStorage.mk true (fun _ => true) ∅) in
  ProgressStore.handleRemember (zone := zoneCST) Example.now st = (None, st)
  /\ ProgressStore.handleForget (zone := zoneCST) Example.now st = (None, st).
Proof.
  intros st.
  destruct (grading_out_of_range (zone := zoneCST) Example.now st) as (_ & _ & H).
  apply H. right. simpl. lia.
Defined.

Lemma handleForget_requeues_witness :
  let st := ProgressStore.startReview (zone := zoneCST) Example.now
              [Example.today; Example.overdue]
              (ProgressStore.mkState [] 0 "" [] [] 0 0
                 (LocalStorage.mk true (fun _ => true) ∅)) in
  let st' := (ProgressStore.handleForget (zone := zoneCST) Example.now st).2 in
  ProgressStore.reviewQueue st'
  = [Example.overdue; Example.today;
     refreshed Example.overdue
       (Scheduler.handleForget (zone := zoneCST) Example.now Example.overdue)]
  /\ ProgressStore.currentReviewIndex st' = 1%nat.
Proof.
  intros st st'.
  destruct (handleForget_requeues (zone := zoneCST) Example.now st Example.overdue)
    as (_ & Hq & _ & _ & Hi & _).
  - reflexivity.
  - split; [exact Hq|exact Hi].
Defined.

(** ** Properties of objects *)

Section PropsFacts.
Context {V : Type}.
Implicit Types (o : list (string * V)) (key : string).

Lemma get_set_eq key (v : V) o : Props.get key (Props.set key v o) = Some v.
Proof.
  induction o as [|[k x] o IH]; simpl.
  - rewrite decide_True; reflexivity.
  - destruct (decide (k = key)) as [->|Hk]; simpl.
    + rewrite decide_True; reflexivity.
    + rewrite decide_False by exact Hk. exact IH.
Qed.

Lemma get_set_ne key key' (v : V) o :
  key <> key' -> Props.get key' (Props.set key v o) = Props.get key' o.
Proof.
  intros Hne. induction o as [|[k x] o IH]; simpl.
  - rewrite decide_False by exact Hne. reflexivity.
  - destruct (decide (k = key)) as [->|Hk]; simpl.
    + rewrite !decide_False by exact Hne. reflexivity.
    + destruct (decide (k = key')); [reflexivity|exact IH].
Qed.

Lemma get_delete_eq key o : Props.get key (Props.delete key o) = None.
Proof.
  induction o as [|[k x] o IH]; simpl; [reflexivity|].
  case_bool_decide as Hk; simpl; [exact IH|].
  rewrite decide_False by exact Hk. exact IH.
Qed.

Lemma get_delete_ne key key' o :
  key <> key' -> Props.get key' (Props.delete key o) = Props.get key' o.
Proof.
  intros Hne. induction o as [|[k x] o IH]; simpl; [reflexivity|].
  case_bool_decide as Hk; simpl in *.
  - subst k. rewrite decide_False by exact Hne. exact IH.
  - destruct (decide (k = key')); [reflexivity|exact IH].
Qed.

Lemma delete_set_eq key (v : V) o :
  Props.delete key (Props.set key v o) = Props.delete key o.
Proof.
  induction o as [|[k x] o IH]; simpl.
  - rewrite bool_decide_eq_true_2; reflexivity.
  - destruct (decide (k = key)) as [->|Hk]; simpl.
    + rewrite bool_decide_eq_true_2 by reflexivity. reflexivity.
    + rewrite bool_decide_eq_false_2 by exact Hk. simpl. rewrite IH. reflexivity.
Qed.

Lemma delete_set_ne key key' (v : V) o :
  key <> key' ->
  Props.delete key (Props.set key' v o) = Props.set key' v (Props.delete key o).
Proof.
  intros Hne. induction o as [|[k x] o IH]; simpl.
  - rewrite bool_decide_eq_false_2 by congruence. reflexivity.
  - destruct (decide (k = key')) as [->|Hk]; simpl.
    + rewrite bool_decide_eq_false_2 by congruence. simpl.
      rewrite decide_True; reflexivity.
    + case_bool_decide as Hk'; simpl; [exact IH|].
      rewrite decide_False by exact Hk. rewrite IH. reflexivity.
Qed.

Lemma delete_absent key o :
  Props.get key o = None -> Props.delete key o = o.
Proof.
  induction o as [|[k x] o IH]; simpl; [reflexivity|].
  destruct (decide (k = key)) as [->|Hk]; [discriminate|].
  intros Hg. rewrite bool_decide_eq_false_2 by exact Hk. simpl.
  rewrite (IH Hg). reflexivity.
Qed.
End PropsFacts.

(** An array has no property named by a key that does not start with a
    digit, its [length] apart. *)
Lemma indexString_digit (i : nat) :
  exists c rest, Js.indexString i = String c rest
                 /\ is_Some (JsDate.digitValue c).
Proof.
  unfold Js.indexString.
  destruct (Nat.to_uint i); simpl; eexists _, _; (split; [reflexivity|]);
    vm_compute; eauto.
Qed.

Lemma get_imap_index_None (key : string) (f : nat -> nat) (items : list json) :
  (forall c rest, key = String c rest -> JsDate.digitValue c = None) ->
  Props.get key (imap (fun i x => (Js.indexString (f i), x)) items) = None.
Proof.
  intros Hkey. revert f.
  induction items as [|x items IH]; intros f; [reflexivity|].
  simpl. destruct (decide (Js.indexString (f 0%nat) = key)) as [He|_].
  - exfalso. destruct (indexString_digit (f 0%nat)) as (c & rest & Hs & [z Hz]).
    rewrite He in Hs. rewrite (Hkey c rest Hs) in Hz. discriminate.
  - apply (IH (fun i => f (S i))).
Qed.

Lemma get_indexed_None (key : string) (items : list json) :
  (forall c rest, key = String c rest -> JsDate.digitValue c = None) ->
  Props.get key (Js.indexed items) = None.
Proof. apply (get_imap_index_None key (fun i => i)). Qed.

(** ** The validation of a snapshot *)

Lemma guard_true (b r : bool) :
  (if b then false else r) = true <-> b = false /\ r = true.
Proof. destruct b; split; intros; try tauto; try discriminate. destruct H; discriminate. Qed.

Lemma non_null_object_test (x : option json) :
  negb (Js.truthy x) || negb (bool_decide (Js.typeof x = TypeObject)) = false
  <-> exists v, x = Some v /\ nonNullObject v.
Proof.
  destruct x as [[| b | n | s | items | props]|]; simpl; split;
    try discriminate; try (intros (v & [= <-] & []));
    try (intros (v & Hv & _); discriminate);
    try (intros _; eexists; split; [reflexivity|exact I]);
    try reflexivity.
  - destruct b; discriminate.
  - destruct (n =? 0); discriminate.
  - case_bool_decide; discriminate.
Qed.

Lemma number_test (x : option json) :
  negb (bool_decide (Js.typeof x = TypeNumber)) = false
  <-> exists n, x = Some (JNumber n).
Proof.
  destruct x as [[| b | n | s | items | props]|]; simpl; split;
    try discriminate; try (intros (m & Hm); discriminate); eauto.
Qed.

Lemma string_test (x : option json) :
  negb (bool_decide (Js.typeof x = TypeString)) = false
  <-> exists s, x = Some (JString s).
Proof.
  destruct x as [[| b | n | s | items | props]|]; simpl; split;
    try discriminate; try (intros (m & Hm); discriminate); eauto.
Qed.

Lemma array_test (x : option json) :
  negb (Js.isArray x) = false <-> exists items, x = Some (JArray items).
Proof.
  destruct x as [[| b | n | s | items | props]|]; simpl; split;
    try discriminate; try (intros (m & Hm); discriminate); eauto.
Qed.

(** Among the non-null objects only a plain object has a property named by
    a word. *)
Lemma getProp_word (v : json) (key : string) (x : json) :
  nonNullObject v ->
  key <> "length" ->
  (forall c rest, key = String c rest -> JsDate.digitValue c = None) ->
  Js.getProp v key = Some x ->
  exists props, v = JObject props /\ Props.get key props = Some x.
Proof.
  destruct v as [| b | n | s | items | props]; simpl; try contradiction.
  - intros _ Hlen Hkey. rewrite decide_False by exact Hlen.
    rewrite get_indexed_None by exact Hkey. discriminate.
  - intros _ _ _ Hx. eauto.
Qed.

Ltac word_key :=
  first [ discriminate
        | let c := fresh in let rest := fresh in let H := fresh in
          intros c rest H; injection H as <- _; reflexivity ].

Lemma isValidProgressData_topLevel (v : json) :
  ProgressService.isValidProgressData v = true <-> topLevelValid v.
Proof.
  unfold ProgressService.isValidProgressData, topLevelValid.
  rewrite !guard_true, non_null_object_test, number_test, array_test,
    non_null_object_test, number_test, string_test, !non_null_object_test.
  split.
  - intros ((x & [= <-] & Hv) & (version & Hversion) & (items & Hitems)
            & (stats & Hstats & Hs) & (streakDays & Hstreak)
            & (lastStudyDate & Hlast) & (dailyReviews & Hdaily & Hd)
            & (settings & Hsettings & Hset) & _).
    destruct (getProp_word v "version" _ Hv ltac:(word_key) ltac:(word_key) Hversion)
      as (props & -> & Hversion').
    cbn [Js.getProp] in Hitems, Hstats, Hsettings, Hstreak, Hlast, Hdaily.
    rewrite Hstats in Hstreak, Hlast, Hdaily.
    cbn [Js.prop mbind option_bind] in Hstreak, Hlast, Hdaily.
    destruct (getProp_word stats "streakDays" _ Hs ltac:(word_key)
                ltac:(word_key) Hstreak) as (sprops & -> & Hstreak').
    cbn [Js.getProp] in Hlast, Hdaily.
    exists props, version, items, sprops, streakDays, lastStudyDate,
      dailyReviews, settings.
    repeat split; assumption.
  - intros (props & version & items & stats & streakDays & lastStudyDate
            & dailyReviews & settings & -> & Hversion & Hitems & Hstats
            & Hstreak & Hlast & Hdaily & Hd & Hsettings & Hset).
    simpl. rewrite Hversion, Hitems, Hstats, Hsettings. simpl.
    rewrite Hstreak, Hlast, Hdaily.
    repeat split; eauto; eexists; (split; [reflexivity|exact I]).
Qed.

(** A snapshot of the schema passes the validation. *)
Lemma schema_topLevelValid (v : json) :
  Schema.snapshot v = true -> topLevelValid v.
Proof.
  unfold Schema.snapshot, Schema.stats, Schema.settings, topLevelValid.
  rewrite !andb_true_iff.
  intros ((((Hobj & Hversion) & Hprogress) & ((Hstats & Hstreak) & Hlast) & Hdaily)
          & Hsettings & _).
  destruct v as [| | | | |props]; try discriminate. simpl in *.
  destruct (Props.get "version" props) as [[]|] eqn:E1; try discriminate.
  destruct (Props.get "progress" props) as [[]|] eqn:E2; try discriminate.
  destruct (Props.get "stats" props) as [[| | | | |stats]|] eqn:E3;
    try discriminate.
  destruct (Props.get "settings" props) as [[| | | | |settings]|] eqn:E4;
    try discriminate.
  simpl in *.
  destruct (Props.get "streakDays" stats) as [[]|] eqn:E5; try discriminate.
  destruct (Props.get "lastStudyDate" stats) as [[]|] eqn:E6; try discriminate.
  destruct (Props.get "dailyReviews" stats) as [[]|] eqn:E7; try discriminate.
  do 8 eexists. repeat split; reflexivity || eassumption || exact I.
Qed.

(** ** Loading and saving *)

Lemma isStorageAvailable_roomy (st : LocalStorage.t) :
  roomy st ->
  ProgressService.isStorageAvailable st
  = (true, LocalStorage.mk (LocalStorage.usable st) (LocalStorage.fits st)
                           (delete ProgressService.testKey (LocalStorage.items st))).
Proof.
  intros [Hu Hf]. unfold ProgressService.isStorageAvailable,
    LocalStorage.setItem, LocalStorage.removeItem.
  rewrite Hu, Hf. simpl. rewrite delete_insert_eq. reflexivity.
Qed.

Lemma isStorageAvailable_true (st st' : LocalStorage.t) :
  ProgressService.isStorageAvailable st = (true, st') ->
  LocalStorage.usable st' = true
  /\ LocalStorage.items st' = delete ProgressService.testKey (LocalStorage.items st).
Proof.
  unfold ProgressService.isStorageAvailable, LocalStorage.setItem,
    LocalStorage.removeItem.
  destruct (LocalStorage.usable st) eqn:Hu; simpl; [|discriminate].
  destruct (LocalStorage.fits st _); simpl; [|discriminate].
  intros [= <-]. simpl. rewrite delete_insert_eq. auto.
Qed.

Lemma isStorageAvailable_exact (st : LocalStorage.t) :
  ProgressService.isStorageAvailable st
  = if LocalStorage.usable st
       && LocalStorage.fits st
            (<[ProgressService.testKey := PlainText ProgressService.testKey]>
               (LocalStorage.items st))
    then (true, LocalStorage.mk (LocalStorage.usable st) (LocalStorage.fits st)
                  (delete ProgressService.testKey (LocalStorage.items st)))
    else (false, st).
Proof.
  unfold ProgressService.isStorageAvailable, LocalStorage.setItem,
    LocalStorage.removeItem.
  destruct (LocalStorage.usable st) eqn:Hu; simpl; [|reflexivity].
  destruct (LocalStorage.fits st _); simpl; [|reflexivity].
  rewrite delete_insert_eq. reflexivity.
Qed.

Section LoadFacts.
Variable storageKey : string.

(** [load], case by case: the probe, the item, its reading, the check. *)
Lemma load_exact (st : LocalStorage.t) :
  (ProgressService.load storageKey st).1
  = if LocalStorage.usable st
       && LocalStorage.fits st
            (<[ProgressService.testKey := PlainText ProgressService.testKey]>
               (LocalStorage.items st))
    then
      if bool_decide (storageKey = ProgressService.testKey) then None
      else
        match LocalStorage.items st !! storageKey with
        | Some (JsonText v) =>
            if ProgressService.isValidProgressData v then Some v else None
        | _ => None
        end
    else None.
Proof.
  unfold ProgressService.load. rewrite isStorageAvailable_exact.
  destruct (LocalStorage.usable st) eqn:Hu; simpl; [|reflexivity].
  destruct (LocalStorage.fits st _); simpl; [|reflexivity].
  unfold LocalStorage.getItem. simpl.
  case_bool_decide as Hk.
  - rewrite Hk, lookup_delete_eq. reflexivity.
  - rewrite lookup_delete_ne by congruence.
    destruct (LocalStorage.items st !! storageKey) as [[v|x]|]; simpl;
      try reflexivity.
    + destruct (ProgressService.isValidProgressData v); reflexivity.
    + case_bool_decide; reflexivity.
Qed.

Lemma load_Some (st : LocalStorage.t) (v : json) :
  (ProgressService.load storageKey st).1 = Some v ->
  storageKey <> ProgressService.testKey
  /\ LocalStorage.items st !! storageKey = Some (JsonText v)
  /\ ProgressService.isValidProgressData v = true.
Proof.
  unfold ProgressService.load.
  destruct (ProgressService.isStorageAvailable st) as [[] st'] eqn:Ha; simpl;
    [|discriminate].
  apply isStorageAvailable_true in Ha as [Hu Hi].
  unfold LocalStorage.getItem. rewrite Hu, Hi.
  destruct (decide (storageKey = ProgressService.testKey)) as [->|Hne].
  { rewrite lookup_delete_eq. discriminate. }
  rewrite lookup_delete_ne by congruence.
  destruct (LocalStorage.items st !! storageKey) as [[data|s]|]; simpl;
    try discriminate.
  - destruct (ProgressService.isValidProgressData data) eqn:Hv; simpl;
      [|discriminate].
    intros [= <-]. auto.
  - case_bool_decide; discriminate.
Qed.

Lemma load_roomy (st : LocalStorage.t) (v : json) :
  storageKey <> ProgressService.testKey ->
  roomy st ->
  LocalStorage.items st !! storageKey = Some (JsonText v) ->
  ProgressService.isValidProgressData v = true ->
  (ProgressService.load storageKey st).1 = Some v.
Proof.
  intros Hne Hr Hi Hv. unfold ProgressService.load.
  rewrite (isStorageAvailable_roomy st Hr). simpl.
  unfold LocalStorage.getItem. simpl. destruct Hr as [-> _].
  rewrite lookup_delete_ne by congruence. rewrite Hi. simpl.
  rewrite Hv. reflexivity.
Qed.

Lemma save_roomy (data : json) (st : LocalStorage.t) :
  roomy st ->
  ProgressService.save storageKey data st
  = (true,
     LocalStorage.mk (LocalStorage.usable st) (LocalStorage.fits st)
       (<[storageKey := JsonText data]>
          (delete ProgressService.testKey (LocalStorage.items st)))).
Proof.
  intros Hr. unfold ProgressService.save.
  rewrite (isStorageAvailable_roomy st Hr). simpl.
  unfold LocalStorage.setItem. simpl. destruct Hr as [-> ->]. reflexivity.
Qed.

(** C5, amended. [load] returns either null or the stored value itself. It
    returns the stored value exactly when the storage can be used and takes
    the item of the probe that [load] writes first, the key of the service
    is not the key of the probe, and the top level of the stored snapshot is
    in order: an object with a number [version], an array [progress], an
    object [stats] with a number [streakDays], a string [lastStudyDate] and
    a non-null object [dailyReviews], and a non-null object [settings]. In
    every other case it returns null: so for a storage that is full or
    cannot be used, and for a snapshot without [stats.dailyReviews]. Every
    snapshot of the schema has its top level in order. *)
Theorem load_top_level (st : LocalStorage.t) :
  (forall v,
      (ProgressService.load storageKey st).1 = Some v
      <-> LocalStorage.usable st = true
          /\ LocalStorage.fits st
               (<[ProgressService.testKey := PlainText ProgressService.testKey]>
                  (LocalStorage.items st)) = true
          /\ storageKey <> ProgressService.testKey
          /\ LocalStorage.items st !! storageKey = Some (JsonText v)
          /\ topLevelValid v)
  /\ (LocalStorage.usable st = false
      \/ LocalStorage.fits st
           (<[ProgressService.testKey := PlainText ProgressService.testKey]>
              (LocalStorage.items st)) = false ->
      (ProgressService.load storageKey st).1 = None)
  /\ (forall v,
        LocalStorage.items st !! storageKey = Some (JsonText v) ->
        ~ topLevelValid v ->
        (ProgressService.load storageKey st).1 = None)
  /\ (forall v,
        LocalStorage.items st !! storageKey = Some (JsonText v) ->
        Js.prop (Js.getProp v "stats") "dailyReviews" = None ->
        (ProgressService.load storageKey st).1 = None)
  /\ (forall v, Schema.snapshot v = true -> topLevelValid v).
Proof.
  assert (forall v,
             (ProgressService.load storageKey st).1 = Some v
             <-> LocalStorage.usable st = true
                 /\ LocalStorage.fits st
                      (<[ProgressService.testKey
                         := PlainText ProgressService.testKey]>
                         (LocalStorage.items st)) = true
                 /\ storageKey <> ProgressService.testKey
                 /\ LocalStorage.items st !! storageKey = Some (JsonText v)
                 /\ topLevelValid v) as Hexact.
  { intros v. rewrite load_exact, <- isValidProgressData_topLevel.
    destruct (LocalStorage.usable st); simpl;
      [|split; [discriminate|intros (? & _); discriminate]].
    destruct (LocalStorage.fits st _); simpl;
      [|split; [discriminate|intros (_ & ? & _); discriminate]].
    case_bool_decide as Hk;
      [split; [discriminate|intros (_ & _ & ? & _); contradiction]|].
    destruct (LocalStorage.items st !! storageKey) as [[w|x]|];
      try (split; [discriminate|intros (_ & _ & _ & ? & _); discriminate]).
    destruct (ProgressService.isValidProgressData w) eqn:Hw.
    - split.
      + intros [= <-]. auto.
      + intros (_ & _ & _ & [= <-] & _). reflexivity.
    - split; [discriminate|].
      intros (_ & _ & _ & [= <-] & Hv). congruence. }
  assert (forall v,
             LocalStorage.items st !! storageKey = Some (JsonText v) ->
             ~ topLevelValid v ->
             (ProgressService.load storageKey st).1 = None) as Hinvalid.
  { intros v Hi Hn.
    destruct ((ProgressService.load storageKey st).1) as [v'|] eqn:Hl;
      [|reflexivity].
    destruct (proj1 (Hexact v') eq_refl) as (_ & _ & _ & Hi' & Hv).
    rewrite Hi in Hi'. injection Hi' as <-. contradiction. }
  split; [|split; [|split; [|split]]].
  - exact Hexact.
  - intros Hfull. rewrite load_exact.
    destruct Hfull as [-> | ->]; [reflexivity|].
    rewrite andb_false_r. reflexivity.
  - exact Hinvalid.
  - intros v Hi Hd. apply (Hinvalid v Hi).
    intros (props & version & items & stats & streakDays & lastStudyDate
            & dailyReviews & settings & -> & _ & _ & Hstats & _ & _ & Hdaily & _).
    simpl in Hd. rewrite Hstats in Hd. simpl in Hd. congruence.
  - apply schema_topLevelValid.
Qed.
End LoadFacts.

(** C5 as stated fails: the snapshot [Example.looseSnapshot] is loaded although
    it is not of the schema. *)
Lemma load_loose_snapshot :
  (ProgressService.load ProgressService.STORAGE_KEY
     (Example.storageWith Example.looseSnapshot)).1
  = Some Example.looseSnapshot
  /\ Schema.snapshot Example.looseSnapshot = false.
Proof. split; vm_compute; reflexivity. Qed.

Lemma load_top_level_witness :
  (ProgressService.load ProgressService.STORAGE_KEY
     (Example.storageWith Example.snapshotWithoutDailyReviews)).1 = None
  /\ (ProgressService.load ProgressService.STORAGE_KEY
        (Example.storageWith Example.snapshot)).1 = Some Example.snapshot.
Proof.
  split.
  - destruct (load_top_level ProgressService.STORAGE_KEY
                (Example.storageWith Example.snapshotWithoutDailyReviews))
      as (_ & _ & _ & H & _).
    apply (H Example.snapshotWithoutDailyReviews); vm_compute; reflexivity.
  - destruct (load_top_level ProgressService.STORAGE_KEY
                (Example.storageWith Example.snapshot))
      as (H & _).
    apply H. split; [reflexivity|]. split; [reflexivity|].
    split; [discriminate|]. split; [vm_compute; reflexivity|].
    apply schema_topLevelValid. vm_compute. reflexivity.
Defined.

(** ** Export and import *)

Lemma topLevelValid_ext (props props' : list (string * json)) :
  Props.get "version" props' = Props.get "version" props ->
  Props.get "progress" props' = Props.get "progress" props ->
  Props.get "stats" props' = Props.get "stats" props ->
  Props.get "settings" props' = Props.get "settings" props ->
  topLevelValid (JObject props) -> topLevelValid (JObject props').
Proof.
  intros H1 H2 H3 H4
    (q & version & items & stats & streakDays & lastStudyDate
     & dailyReviews & settings & [= <-] & Hrest).
  exists props', version, items, stats, streakDays, lastStudyDate,
    dailyReviews, settings.
  rewrite H1, H2, H3, H4. split; [reflexivity|exact Hrest].
Qed.

Lemma stripExport_get (props : list (string * json)) (key : string) :
  key <> "exportedAt" -> key <> "exportVersion" ->
  Js.getProp (stripExport (JObject props)) key = Props.get key props.
Proof.
  intros H1 H2. unfold stripExport. simpl.
  rewrite !get_delete_ne by congruence. reflexivity.
Qed.

Lemma stripExport_valid (v : json) :
  topLevelValid v -> topLevelValid (stripExport v).
Proof.
  intros Hv. pose proof Hv as (props & _ & _ & _ & _ & _ & _ & _ & -> & _).
  unfold stripExport. simpl.
  apply (topLevelValid_ext props); try (rewrite !get_delete_ne by discriminate;
                                        reflexivity).
  exact Hv.
Qed.

(** Stripping what the export added gives the stripped original. *)
Lemma stripExport_exported (props : list (string * json)) (a b : json) :
  stripExport
    (JObject (Props.set "exportVersion" b (Props.set "exportedAt" a props)))
  = stripExport (JObject props).
Proof.
  unfold stripExport. simpl.
  rewrite (delete_set_ne "exportedAt" "exportVersion") by discriminate.
  rewrite delete_set_eq, delete_set_eq. reflexivity.
Qed.

Lemma stripExport_id (v : json) :
  Js.getProp v "exportedAt" = None -> Js.getProp v "exportVersion" = None ->
  nonNullObject v -> stripExport v = v.
Proof.
  destruct v as [| | | | items|props]; simpl; try contradiction; try reflexivity.
  intros H1 H2 _. unfold stripExport. simpl.
  rewrite (delete_absent "exportedAt") by exact H1.
  rewrite (delete_absent "exportVersion") by exact H2. reflexivity.
Qed.

Lemma importData_stripped (storageKey : string) (text : text) (st : LocalStorage.t)
    (data : json) :
  JSON.parse text = Some data -> data <> JNull ->
  ProgressService.importData storageKey text st
  = if negb (ProgressService.isValidProgressData (stripExport data))
    then (mkImportResult false MsgInvalidFormat, st)
    else
      let '(saved, st') := ProgressService.save storageKey (stripExport data) st in
      if saved
      then (mkImportResult true
              (MsgImported (ProgressService.progressLength (stripExport data))),
            st')
      else (mkImportResult false MsgSaveFailed, st').
Proof.
  intros Hp Hn. unfold ProgressService.importData. rewrite Hp.
  destruct data; try reflexivity. congruence.
Qed.

Section TransferFacts.
Variables exportKey importKey : string.

(** C8. The export of a store that holds a valid snapshot can be imported
    into any store that accepts writes: the import succeeds, and the store
    then holds the original snapshot without the two properties
    [exportedAt] and [exportVersion], hence with the same progress list
    and statistics; it is the original itself when that had neither
    property. An import of a text that does not parse, of [null], or of a
    value that does not pass the validation once the two properties are
    removed fails and leaves the storage as it was. *)
Theorem export_import_roundtrip (now : Z) :
  (forall (source target : LocalStorage.t) (v : json),
      (ProgressService.load exportKey source).1 = Some v ->
      importKey <> ProgressService.testKey ->
      roomy target ->
      exists exported doc,
        (ProgressService.exportData exportKey now source).1 = Some exported
        /\ JSON.parse exported = Some doc
        /\ Js.getProp doc "exportedAt" = Some (JNumber now)
        /\ Js.getProp doc "exportVersion"
           = Some (JNumber ProgressService.CURRENT_VERSION)
        /\ (ProgressService.importData importKey exported target).1
           = mkImportResult true
               (MsgImported (ProgressService.progressLength v))
        /\ (ProgressService.load importKey
              (ProgressService.importData importKey exported target).2).1
           = Some (stripExport v)
        /\ Js.getProp (stripExport v) "progress" = Js.getProp v "progress"
        /\ Js.getProp (stripExport v) "stats" = Js.getProp v "stats"
        /\ Js.getProp (stripExport v) "version" = Js.getProp v "version"
        /\ Js.getProp (stripExport v) "settings" = Js.getProp v "settings"
        /\ Js.getProp (stripExport v) "exportedAt" = None
        /\ Js.getProp (stripExport v) "exportVersion" = None
        /\ (Js.getProp v "exportedAt" = None ->
            Js.getProp v "exportVersion" = None -> stripExport v = v))
  /\ (forall (text : text) (target : LocalStorage.t),
        JSON.parse text = None
        \/ JSON.parse text = Some JNull
        \/ (exists data, JSON.parse text = Some data
                         /\ ~ topLevelValid (stripExport data)) ->
        success (ProgressService.importData importKey text target).1 = false
        /\ (ProgressService.importData importKey text target).2 = target).
Proof.
  split.
  - intros source target v Hload Hkey Hroom.
    pose proof (load_Some exportKey source v Hload) as (_ & _ & Hvalid).
    pose proof Hvalid as Htop. apply isValidProgressData_topLevel in Htop.
    pose proof Htop as (props & _ & _ & _ & _ & _ & _ & _ & -> & _).
    set (doc := JObject (Props.set "exportVersion"
                           (JNumber ProgressService.CURRENT_VERSION)
                           (Props.set "exportedAt" (JNumber now) props))).
    exists (JsonText doc), doc.
    assert ((ProgressService.exportData exportKey now source).1
            = Some (JsonText doc)) as Hexport.
    { unfold ProgressService.exportData.
      destruct (ProgressService.load exportKey source) as [data st'].
      simpl in Hload. subst data. reflexivity. }
    assert (ProgressService.isValidProgressData (stripExport (JObject props))
            = true) as Hstripped.
    { apply isValidProgressData_topLevel, stripExport_valid, Htop. }
    assert (ProgressService.importData importKey (JsonText doc) target
            = (mkImportResult true
                 (MsgImported (ProgressService.progressLength (JObject props))),
               LocalStorage.mk (LocalStorage.usable target)
                 (LocalStorage.fits target)
                 (<[importKey := JsonText (stripExport (JObject props))]>
                    (delete ProgressService.testKey (LocalStorage.items target)))))
      as Himport.
    { rewrite (importData_stripped importKey (JsonText doc) target doc eq_refl)
        by discriminate.
      unfold doc. rewrite stripExport_exported, Hstripped. simpl negb. cbv iota.
      rewrite (save_roomy importKey _ target Hroom).
      f_equal. f_equal. f_equal.
      unfold ProgressService.progressLength.
      rewrite stripExport_get by discriminate. reflexivity. }
    split; [exact Hexport|]. split; [reflexivity|].
    split. { unfold doc. simpl. rewrite get_set_ne by discriminate.
             apply get_set_eq. }
    split. { unfold doc. simpl. apply get_set_eq. }
    split; [rewrite Himport; reflexivity|].
    split.
    { rewrite Himport. simpl. apply load_roomy.
      - exact Hkey.
      - destruct Hroom as [Hu Hf]. split; [exact Hu|exact Hf].
      - simpl. apply lookup_insert_eq.
      - exact Hstripped. }
    split; [apply stripExport_get; discriminate|].
    split; [apply stripExport_get; discriminate|].
    split; [apply stripExport_get; discriminate|].
    split; [apply stripExport_get; discriminate|].
    split.
    { unfold stripExport. simpl.
      rewrite get_delete_ne by discriminate. apply get_delete_eq. }
    split; [unfold stripExport; simpl; apply get_delete_eq|].
    intros H1 H2. apply stripExport_id; [exact H1|exact H2|exact I].
  - intros text target [Hp|[Hp|(data & Hp & Hinvalid)]].
    + unfold ProgressService.importData. rewrite Hp. auto.
    + unfold ProgressService.importData. rewrite Hp. auto.
    + assert (data = JNull \/ data <> JNull) as [->|Hn]
        by (destruct data; (left; reflexivity) || (right; discriminate)).
      * unfold ProgressService.importData. rewrite Hp. auto.
      * rewrite (importData_stripped importKey text target data Hp Hn).
        destruct (ProgressService.isValidProgressData (stripExport data)) eqn:Hv.
        { apply isValidProgressData_topLevel in Hv. contradiction. }
        simpl. auto.
Qed.
End TransferFacts.

Lemma export_import_roundtrip_witness :
  exists exported,
    (ProgressService.exportData ProgressService.STORAGE_KEY Example.now
       (Example.storageWith Example.snapshot)).1 = Some exported
    /\ (ProgressService.load "other-device"
          (ProgressService.importData "other-device" exported
             (LocalStorage.mk true (fun _ => true) ∅)).2).1
       = Some Example.snapshot.
Proof.
  destruct (export_import_roundtrip ProgressService.STORAGE_KEY "other-device"
              Example.now) as [H _].
  destruct (H (Example.storageWith Example.snapshot)
              (LocalStorage.mk true (fun _ => true) ∅) Example.snapshot)
    as (exported & doc & H1 & _ & _ & _ & _ & H6 & _).
  - vm_compute. reflexivity.
  - discriminate.
  - split; reflexivity.
  - exists exported. split; [exact H1|exact H6].
Defined.

(** ** The calendar: months and the civil date of a day number *)

Lemma monthOk_cycle : monthOkFrom (Z.to_nat 4800) 0 = true.
Proof. vm_compute. reflexivity. Qed.

Lemma monthOkFrom_all (k : nat) (first n : Z) :
  monthOkFrom k first = true ->
  first <= n < first + Z.of_nat k -> monthOk n = true.
Proof.
  revert first. induction k as [|k IH]; intros first; simpl; [lia|].
  intros [Hfirst Hrest]%andb_prop Hn.
  destruct (decide (n = first)) as [->|Hne]; [exact Hfirst|].
  apply (IH (first + 1)); [exact Hrest|lia].
Qed.

Lemma MakeDay_monthStart (year month date : Z) :
  JsDate.MakeDay year month date = monthStart (12 * year + month) + date - 1.
Proof.
  unfold monthStart, JsDate.MakeDay.
  replace (12 * year + month) with (month + year * 12) by lia.
  rewrite Z.div_add, Z.mod_add by lia.
  replace (0 + (month / 12 + year)) with (year + month / 12) by lia. lia.
Qed.

Lemma monthStart_shift (n k : Z) :
  monthStart (n + 4800 * k) = monthStart n + 146097 * k.
Proof.
  unfold monthStart, JsDate.MakeDay.
  replace (n + 4800 * k) with (n + (400 * k) * 12) by lia.
  rewrite Z.div_add, Z.mod_add by lia.
  replace (0 + (n / 12 + 400 * k)) with (0 + n / 12 + 400 * k) by lia.
  rewrite daysFromCivil_shift. lia.
Qed.

Lemma isLeapYear_shift (y k : Z) : isLeapYear (y + 400 * k) = isLeapYear y.
Proof.
  unfold isLeapYear.
  replace (y + 400 * k) with (y + (100 * k) * 4) at 1 by lia.
  replace (y + 400 * k) with (y + (4 * k) * 100) at 1 by lia.
  replace (y + 400 * k) with (y + k * 400) by lia.
  rewrite !Z.mod_add by lia. reflexivity.
Qed.

Lemma gregorianDays_shift (y m k : Z) :
  gregorianDays (y + 400 * k) m = gregorianDays y m.
Proof. unfold gregorianDays. rewrite isLeapYear_shift. reflexivity. Qed.

(** Every month has the length the calendar gives it. *)
Lemma monthStart_succ (n : Z) :
  monthStart (n + 1) - monthStart n = gregorianDays (n / 12) (n mod 12 + 1).
Proof.
  set (k := n / 4800). set (r := n mod 4800).
  assert (n = r + 4800 * k) as Hn.
  { subst k r. pose proof (Z.div_mod n 4800). lia. }
  assert (0 <= r < 4800) as Hr by (apply Z.mod_pos_bound; lia).
  clearbody k r. subst n.
  replace (r + 4800 * k + 1) with (r + 1 + 4800 * k) by lia.
  rewrite !monthStart_shift.
  replace (r + 4800 * k) with (r + (400 * k) * 12) by lia.
  rewrite Z.div_add, Z.mod_add by lia.
  rewrite gregorianDays_shift.
  pose proof (monthOkFrom_all _ 0 r monthOk_cycle) as Hok.
  rewrite Z2Nat.id in Hok by lia. specialize (Hok ltac:(lia)).
  unfold monthOk in Hok. apply Z.eqb_eq in Hok. lia.
Qed.

Lemma gregorianDays_range (y m : Z) : 28 <= gregorianDays y m <= 31.
Proof.
  unfold gregorianDays.
  destruct (m =? 2); [destruct (isLeapYear y); lia|].
  destruct (_ || _); lia.
Qed.

Lemma daysInMonth_gregorian (y m : Z) :
  1 <= m <= 12 -> JsDate.daysInMonth y (m - 1) = gregorianDays y m.
Proof.
  intros Hm. unfold JsDate.daysInMonth. rewrite !MakeDay_monthStart.
  replace (12 * y + (m - 1 + 1)) with (12 * y + (m - 1) + 1) by lia.
  pose proof (monthStart_succ (12 * y + (m - 1))) as Hs.
  replace (12 * y + (m - 1)) with (m - 1 + y * 12) in Hs at 3 4 by lia.
  rewrite Z.div_add, Z.mod_add in Hs by lia.
  rewrite Z.div_small, Z.mod_small in Hs by lia.
  replace (0 + y) with y in Hs by lia.
  replace (m - 1 + 1) with m in Hs by lia. lia.
Qed.

Lemma monthStart_lt (n n' : Z) : n < n' -> monthStart n + 28 <= monthStart n'.
Proof.
  intros Hlt.
  assert (forall k : nat, monthStart n + 28 <= monthStart (n + 1 + Z.of_nat k))
    as Hk.
  { induction k as [|k IH].
    - pose proof (monthStart_succ n). pose proof (gregorianDays_range (n / 12)
                                                    (n mod 12 + 1)).
      replace (n + 1 + Z.of_nat 0) with (n + 1) by lia. lia.
    - pose proof (monthStart_succ (n + 1 + Z.of_nat k)) as Hs.
      pose proof (gregorianDays_range ((n + 1 + Z.of_nat k) / 12)
                                      ((n + 1 + Z.of_nat k) mod 12 + 1)).
      replace (n + 1 + Z.of_nat (S k)) with (n + 1 + Z.of_nat k + 1) by lia.
      lia. }
  specialize (Hk (Z.to_nat (n' - n - 1))).
  replace (n + 1 + Z.of_nat (Z.to_nat (n' - n - 1))) with n' in Hk by lia.
  exact Hk.
Qed.

(** A day number is the number of one calendar date only. *)
Lemma MakeDay_inj (y m d y' m' d' : Z) :
  isCalendarDate y m d -> isCalendarDate y' m' d' ->
  JsDate.MakeDay y (m - 1) d = JsDate.MakeDay y' (m' - 1) d' ->
  y = y' /\ m = m' /\ d = d'.
Proof.
  intros [Hm Hd] [Hm' Hd']. rewrite !MakeDay_monthStart. intros Heq.
  pose proof (monthStart_succ (12 * y + (m - 1))) as Hs.
  pose proof (monthStart_succ (12 * y' + (m' - 1))) as Hs'.
  replace (12 * y + (m - 1)) with (m - 1 + y * 12) in Hs at 3 4 by lia.
  replace (12 * y' + (m' - 1)) with (m' - 1 + y' * 12) in Hs' at 3 4 by lia.
  rewrite Z.div_add, Z.mod_add, Z.div_small, Z.mod_small in Hs, Hs' by lia.
  replace (0 + y) with y in Hs by lia.
  replace (0 + y') with y' in Hs' by lia.
  replace (m - 1 + 1) with m in Hs by lia.
  replace (m' - 1 + 1) with m' in Hs' by lia.
  assert (12 * y + (m - 1) = 12 * y' + (m' - 1)) as Hn.
  { destruct (Z.lt_trichotomy (12 * y + (m - 1)) (12 * y' + (m' - 1)))
      as [Hlt|[He|Hgt]]; [|exact He|].
    - pose proof (monthStart_lt _ _ Hlt).
      assert (12 * y + (m - 1) + 1 <= 12 * y' + (m' - 1)) as Hle by lia.
      destruct (Z.eq_dec (12 * y + (m - 1) + 1) (12 * y' + (m' - 1))) as [He|Hne].
      + rewrite <- He in Heq. lia.
      + pose proof (monthStart_lt (12 * y + (m - 1) + 1) (12 * y' + (m' - 1))
                      ltac:(lia)). lia.
    - pose proof (monthStart_lt _ _ Hgt).
      destruct (Z.eq_dec (12 * y' + (m' - 1) + 1) (12 * y + (m - 1))) as [He|Hne].
      + rewrite <- He in Heq. lia.
      + pose proof (monthStart_lt (12 * y' + (m' - 1) + 1) (12 * y + (m - 1))
                      ltac:(lia)). lia. }
  rewrite Hn in Heq. lia.
Qed.

Lemma civilFromDays_calendar (z : Z) :
  let '(y, m, d) := JsDate.civilFromDays z in
  isCalendarDate y m d /\ JsDate.MakeDay y (m - 1) d = z.
Proof.
  pose proof (civilFromDays_valid z) as H.
  destruct (JsDate.civilFromDays z) as [[y m] d].
  destruct H as (Hm & Hd & Hdim & Hz).
  rewrite daysInMonth_gregorian in Hdim by exact Hm.
  unfold isCalendarDate. auto with zarith.
Qed.

(** The civil date of the day number of a calendar date is that date. *)
Lemma civilFromDays_MakeDay (y m d : Z) :
  isCalendarDate y m d ->
  JsDate.civilFromDays (JsDate.MakeDay y (m - 1) d) = (y, m, d).
Proof.
  intros Hdate.
  pose proof (civilFromDays_calendar (JsDate.MakeDay y (m - 1) d)) as H.
  destruct (JsDate.civilFromDays _) as [[y' m'] d'].
  destruct H as [Hdate' Heq].
  destruct (MakeDay_inj _ _ _ _ _ _ Hdate' Hdate Heq) as (-> & -> & ->).
  reflexivity.
Qed.

(** ** Dates of catalog files *)

Lemma digitValue_range (c : ascii) (v : Z) :
  JsDate.digitValue c = Some v -> 0 <= v <= 9.
Proof.
  unfold JsDate.digitValue.
  destruct (Z.leb_spec 48 (Z.of_nat (nat_of_ascii c))); simpl; [|discriminate].
  destruct (Z.leb_spec (Z.of_nat (nat_of_ascii c)) 57); simpl; [|discriminate].
  intros [= <-]. lia.
Qed.

Lemma splitYMD_range (s : string) (y m d : Z) :
  JsDate.splitYMD s = Some (y, m, d) ->
  0 <= y <= 9999 /\ 0 <= m <= 99 /\ 0 <= d <= 99.
Proof.
  unfold JsDate.splitYMD.
  destruct (list_ascii_of_string s) as [|c1 l]; [discriminate|].
  destruct l as [|c2 l]; [discriminate|].
  destruct l as [|c3 l]; [discriminate|].
  destruct l as [|c4 l]; [discriminate|].
  destruct l as [|c5 l]; [discriminate|].
  destruct c5 as [[] [] [] [] [] [] [] []]; try discriminate.
  destruct l as [|c6 l]; [discriminate|].
  destruct l as [|c7 l]; [discriminate|].
  destruct l as [|c8 l]; [discriminate|].
  destruct c8 as [[] [] [] [] [] [] [] []]; try discriminate.
  destruct l as [|c9 l]; [discriminate|].
  destruct l as [|c10 l]; [discriminate|].
  destruct l as [|c11 l]; [|discriminate].
  destruct (JsDate.digitValue c1) as [v1|] eqn:H1; [|discriminate].
  destruct (JsDate.digitValue c2) as [v2|] eqn:H2; [|discriminate].
  destruct (JsDate.digitValue c3) as [v3|] eqn:H3; [|discriminate].
  destruct (JsDate.digitValue c4) as [v4|] eqn:H4; [|discriminate].
  destruct (JsDate.digitValue c6) as [v6|] eqn:H6; [|discriminate].
  destruct (JsDate.digitValue c7) as [v7|] eqn:H7; [|discriminate].
  destruct (JsDate.digitValue c9) as [v9|] eqn:H9; [|discriminate].
  destruct (JsDate.digitValue c10) as [v10|] eqn:H10; [|discriminate].
  apply digitValue_range in H1, H2, H3, H4, H6, H7, H9, H10.
  simpl. intros [= <- <- <-]. lia.
Qed.

Section DateFacts.
Context {zone : TimeZone}.

Lemma Day_MakeDate (day : Z) : JsDate.Day (JsDate.MakeDate day 0) = day.
Proof.
  unfold JsDate.Day, JsDate.MakeDate, JsDate.msPerDay.
  rewrite Z.add_0_r. apply Z.div_mul. lia.
Qed.

(** The local calendar date of [new Date(year, month, day)]. *)
Lemma ofLocalYMD_civil (year month day : Z) :
  JsDate.civilFromDays (JsDate.Day (JsDate.LocalTime
                                      (JsDate.ofLocalYMD year month day)))
  = JsDate.civilFromDays
      (JsDate.MakeDay (if (0 <=? year) && (year <=? 99) then 1900 + year
                       else year) month day).
Proof.
  unfold JsDate.ofLocalYMD, JsDate.LocalTime, JsDate.UTC, JsDate.MakeTime.
  set (n := JsDate.MakeDay _ month day).
  replace (JsDate.MakeDate n (0 * 3600000 + 0 * 60000 + 0 * 1000 + 0)
           - utcOffset + utcOffset) with (JsDate.MakeDate n 0)
    by (unfold JsDate.MakeDate; lia).
  rewrite Day_MakeDate. reflexivity.
Qed.

Lemma isValidDateFormat_split (s : string) (y m d : Z) :
  JsDate.splitYMD s = Some (y, m, d) ->
  WordLoader.isValidDateFormat s = true <-> 100 <= y /\ isCalendarDate y m d.
Proof.
  intros Hs. pose proof (splitYMD_range s y m d Hs) as (Hy & Hm & Hd).
  unfold WordLoader.isValidDateFormat. rewrite Hs.
  unfold JsDate.getFullYear, JsDate.getMonth, JsDate.getDate.
  rewrite ofLocalYMD_civil.
  set (yr := if (0 <=? y) && (y <=? 99) then 1900 + y else y).
  pose proof (civilFromDays_calendar (JsDate.MakeDay yr (m - 1) d)) as Hc.
  destruct (JsDate.civilFromDays (JsDate.MakeDay yr (m - 1) d))
    as [[y' m'] d'] eqn:Hcivil.
  destruct Hc as [Hdate' Hday]. simpl.
  rewrite !andb_true_iff, !Z.eqb_eq. split.
  - intros [[Hy' Hm'] Hd']. assert (m' = m) as -> by lia. subst y' d'.
    split; [|exact Hdate'].
    destruct (Z.leb_spec 0 y); [|lia].
    destruct (Z.leb_spec y 99) as [Hle|]; [|lia]. exfalso.
    subst yr. simpl in Hday.
    rewrite !MakeDay_monthStart in Hday.
    pose proof (monthStart_lt (12 * y + (m - 1)) (12 * (1900 + y) + (m - 1))
                  ltac:(lia)). lia.
  - intros [Hy' Hdate].
    assert (yr = y) as Hyr.
    { subst yr. destruct (Z.leb_spec 0 y); [|reflexivity].
      destruct (Z.leb_spec y 99); [lia|reflexivity]. }
    rewrite Hyr in Hcivil. rewrite (civilFromDays_MakeDay y m d Hdate) in Hcivil.
    injection Hcivil as <- <- <-. lia.
Qed.

Lemma isValidDateFormat_parts (s : string) :
  WordLoader.isValidDateFormat s = true ->
  exists y m d,
    JsDate.splitYMD s = Some (y, m, d) /\ 100 <= y /\ isCalendarDate y m d.
Proof.
  intros Hv. destruct (JsDate.splitYMD s) as [[[y m] d]|] eqn:Hs.
  - exists y, m, d. split; [reflexivity|].
    apply (isValidDateFormat_split s y m d Hs), Hv.
  - unfold WordLoader.isValidDateFormat in Hv. rewrite Hs in Hv. discriminate.
Qed.

(** X2. [isValidDateFormat] accepts exactly the strings YYYY-MM-DD that name a
    date of the calendar in a year from 0100 on: a month 1..12 and a day
    that the month has, leap years counted. *)
Theorem isValidDateFormat_calendar (s : string) :
  WordLoader.isValidDateFormat s = true
  <-> exists y m d,
        JsDate.splitYMD s = Some (y, m, d) /\ 100 <= y /\ isCalendarDate y m d.
Proof.
  split.
  - apply isValidDateFormat_parts.
  - intros (y & m & d & Hs & Hrest).
    apply (isValidDateFormat_split s y m d Hs), Hrest.
Qed.

(** X3. The date [parseDateString] gives for a date string that
    [isValidDateFormat] accepts is the local midnight of that date. *)
Theorem parseDateString_valid (s : string) :
  WordLoader.isValidDateFormat s = true ->
  exists t y m d,
    JsDate.splitYMD s = Some (y, m, d)
    /\ Scheduler.parseDateString s = Some t
    /\ Scheduler.calculateInitialReview s = Some t
    /\ Scheduler.getStartOfDay t = t
    /\ JsDate.getFullYear t = y
    /\ JsDate.getMonth t = m - 1
    /\ JsDate.getDate t = d
    /\ t = JsDate.MakeDay y (m - 1) d * 86400000 - utcOffset.
Proof.
  intros Hv. apply isValidDateFormat_parts in Hv
    as (y & m & d & Hs & Hy & Hdate).
  exists (JsDate.ofLocalYMD y (m - 1) d), y, m, d.
  assert ((if (0 <=? y) && (y <=? 99) then 1900 + y else y) = y) as Hyr.
  { destruct (Z.leb_spec 0 y); [|reflexivity].
    destruct (Z.leb_spec y 99); [lia|reflexivity]. }
  split; [exact Hs|].
  split; [unfold Scheduler.parseDateString; rewrite Hs; reflexivity|].
  split.
  { rewrite calculateInitialReview_parse. unfold Scheduler.parseDateString.
    rewrite Hs. reflexivity. }
  split; [apply getStartOfDay_ofLocalYMD|].
  unfold JsDate.getFullYear, JsDate.getMonth, JsDate.getDate.
  rewrite ofLocalYMD_civil, Hyr, (civilFromDays_MakeDay y m d Hdate). simpl.
  repeat split; try lia.
  unfold JsDate.ofLocalYMD, JsDate.UTC, JsDate.MakeDate, JsDate.MakeTime,
    JsDate.msPerDay. rewrite Hyr. lia.
Qed.
End DateFacts.

Lemma parseDateString_valid_witness :
  Scheduler.parseDateString (zone := zoneCST) "2024-02-29" = Some 1709136000000
  /\ Scheduler.getStartOfDay (zone := zoneCST) 1709136000000 = 1709136000000.
Proof.
  destruct (parseDateString_valid (zone := zoneCST) "2024-02-29")
    as (t & y & m & d & Hs & Hp & _ & Hstart & _).
  - vm_compute. reflexivity.
  - assert (t = 1709136000000) as ->.
    { vm_compute in Hp. congruence. }
    split; [exact Hp|exact Hstart].
Defined.

(** ** The day of an instant, and the instants of the scheduler *)

Section ScheduleFacts.
Context {zone : TimeZone}.

Lemma getStartOfDay_unique (t start : Z) :
  (start + utcOffset) mod 86400000 = 0 -> start <= t < start + 86400000 ->
  Scheduler.getStartOfDay t = start.
Proof.
  intros Hmid Hin.
  unfold Scheduler.getStartOfDay, JsDate.setHours, JsDate.UTC, JsDate.MakeDate,
    JsDate.MakeTime, JsDate.Day, JsDate.LocalTime, JsDate.msPerDay.
  apply Z.mod_divide in Hmid as [k Hk]; [|lia].
  assert ((t + utcOffset) / 86400000 = k) as ->.
  { symmetry. apply (Z.div_unique _ _ _ (t - start)); lia. }
  lia.
Qed.

Lemma getStartOfDay_same (t t' : Z) :
  Scheduler.getStartOfDay t' = Scheduler.getStartOfDay t
  <-> Scheduler.getStartOfDay t <= t' <= Scheduler.getEndOfDay t.
Proof.
  pose proof (getStartOfDay_spec t) as [Hmid Hin].
  pose proof (getEndOfDay_spec t) as Hend.
  pose proof (getStartOfDay_spec t') as [Hmid' Hin'].
  rewrite DAY_MS_value in *. split.
  - intros Heq. lia.
  - intros Hb. apply getStartOfDay_unique; [exact Hmid|lia].
Qed.

Lemma getEndOfDay_same (t t' : Z) :
  Scheduler.getEndOfDay t' = Scheduler.getEndOfDay t
  <-> Scheduler.getStartOfDay t' = Scheduler.getStartOfDay t.
Proof.
  pose proof (getEndOfDay_spec t) as Hend.
  pose proof (getEndOfDay_spec t') as Hend'.
  rewrite DAY_MS_value in *. lia.
Qed.

Lemma getStartOfDay_mono (t t' : Z) :
  t <= t' -> Scheduler.getStartOfDay t <= Scheduler.getStartOfDay t'.
Proof.
  intros Hle.
  pose proof (getStartOfDay_spec t) as [Hmid Hin].
  pose proof (getStartOfDay_spec t') as [Hmid' Hin'].
  rewrite DAY_MS_value in *.
  destruct (Z.le_gt_cases (Scheduler.getStartOfDay t)
                          (Scheduler.getStartOfDay t')) as [H|H]; [exact H|].
  exfalso.
  apply Z.mod_divide in Hmid as [k Hk]; [|lia].
  apply Z.mod_divide in Hmid' as [k' Hk']; [|lia].
  assert (k' < k) by lia. lia.
Qed.

Lemma getStartOfDay_le_end (t : Z) :
  Scheduler.getStartOfDay t <= t <= Scheduler.getEndOfDay t.
Proof.
  pose proof (getStartOfDay_spec t) as [Hmid Hin].
  pose proof (getEndOfDay_spec t) as Hend.
  rewrite DAY_MS_value in *. lia.
Qed.

(** X4. An instant lies between the start and the end of its day, the start is
    a local midnight, the end is the last millisecond before the next, the
    instants with the same start (or the same end) of day are those in
    between, and a later instant never has an earlier start of day. *)
Theorem day_bracket (t : Z) :
  Scheduler.getStartOfDay t <= t <= Scheduler.getEndOfDay t
  /\ (Scheduler.getStartOfDay t + utcOffset) mod 86400000 = 0
  /\ Scheduler.getEndOfDay t = Scheduler.getStartOfDay t + 86399999
  /\ (forall t',
        Scheduler.getStartOfDay t' = Scheduler.getStartOfDay t
        <-> Scheduler.getStartOfDay t <= t' <= Scheduler.getEndOfDay t)
  /\ (forall t',
        Scheduler.getEndOfDay t' = Scheduler.getEndOfDay t
        <-> Scheduler.getStartOfDay t' = Scheduler.getStartOfDay t)
  /\ (forall t', t <= t' ->
                 Scheduler.getStartOfDay t <= Scheduler.getStartOfDay t').
Proof.
  pose proof (getStartOfDay_spec t) as [Hmid Hin].
  pose proof (getEndOfDay_spec t) as Hend.
  rewrite DAY_MS_value in *.
  split; [lia|]. split; [exact Hmid|]. split; [lia|].
  split; [|split].
  - intros t'. apply getStartOfDay_same.
  - intros t'. apply getEndOfDay_same.
  - intros t'. apply getStartOfDay_mono.
Qed.

(** X5. In a zone of fixed offset (every local day has 24 hours): the
    instant of the next review is a local midnight after the end of the
    base day, a whole number of days (1, 1, 2, 4, 7, 15 or 30) after its
    start; a higher stage or a later base never gives an earlier review. *)
Theorem calculateNextReview_later (stage : ReviewStage) (baseTime : Z) :
  let next := Scheduler.calculateNextReview stage baseTime in
  Scheduler.getEndOfDay baseTime < next
  /\ Scheduler.getStartOfDay next = next
  /\ next = Scheduler.getStartOfDay baseTime + REVIEW_INTERVALS stage * 86400000
  /\ 1 <= REVIEW_INTERVALS stage <= 30
  /\ (forall stage', stageNumber stage <= stageNumber stage' ->
                     next <= Scheduler.calculateNextReview stage' baseTime)
  /\ (forall baseTime', baseTime <= baseTime' ->
                        next <= Scheduler.calculateNextReview stage baseTime').
Proof.
  intros next. subst next. unfold Scheduler.calculateNextReview.
  pose proof (getStartOfDay_spec baseTime) as [Hmid Hin].
  pose proof (getEndOfDay_spec baseTime) as Hend.
  rewrite DAY_MS_value in *.
  assert (1 <= REVIEW_INTERVALS stage <= 30) as Hr by (destruct stage; simpl; lia).
  split; [lia|]. split.
  { apply getStartOfDay_unique; [|lia].
    replace (Scheduler.getStartOfDay baseTime + REVIEW_INTERVALS stage * 86400000
             + utcOffset)
      with (Scheduler.getStartOfDay baseTime + utcOffset
            + REVIEW_INTERVALS stage * 86400000) by lia.
    rewrite Z.mod_add by lia. exact Hmid. }
  split; [reflexivity|]. split; [exact Hr|]. split.
  - intros stage' Hs.
    assert (REVIEW_INTERVALS stage <= REVIEW_INTERVALS stage')
      by (destruct stage, stage'; simpl in *; lia).
    lia.
  - intros baseTime' Hle.
    pose proof (getStartOfDay_mono _ _ Hle). lia.
Qed.

Lemma getTodayReviewWords_In (now : Z) (words : list WordEntry.t) (w : WordEntry.t) :
  In w (Scheduler.getTodayReviewWords now words)
  <-> In w words /\ WordEntry.memoryStatus w <> mastered
      /\ WordEntry.nextReviewAt w <= Scheduler.getEndOfDay now.
Proof.
  unfold Scheduler.getTodayReviewWords. rewrite filter_In.
  destruct (decide (WordEntry.memoryStatus w = mastered)) as [Hm|Hm].
  - split; [intros [_ ?]; discriminate|tauto].
  - rewrite Z.leb_le. tauto.
Qed.

Lemma filter_sublist {A : Type} (P : A -> bool) (l : list A) :
  sublist (List.filter P l) l.
Proof.
  induction l as [|x l IH]; simpl; [constructor|].
  destruct (P x); [apply sublist_skip, IH|apply sublist_cons, IH].
Qed.

Lemma filter_filter_same {A : Type} (P : A -> bool) (l : list A) :
  List.filter P (List.filter P l) = List.filter P l.
Proof.
  induction l as [|x l IH]; simpl; [reflexivity|].
  destruct (P x) eqn:Hx; simpl; [rewrite Hx, IH|rewrite IH]; reflexivity.
Qed.

(** X6. The words to review today are the words that are not mastered and are
    overdue or due today, in the order of the list; a mastered word is left
    out whatever its due instant, and so is a word due after today. *)
Theorem getTodayReviewWords_due (now : Z) (words : list WordEntry.t) :
  (forall w,
      In w (Scheduler.getTodayReviewWords now words)
      <-> In w words /\ WordEntry.memoryStatus w <> mastered
          /\ (inUrgency now w Overdue \/ inUrgency now w DueToday))
  /\ sublist (Scheduler.getTodayReviewWords now words) words
  /\ Scheduler.getTodayReviewWords now (Scheduler.getTodayReviewWords now words)
     = Scheduler.getTodayReviewWords now words
  /\ (forall now',
        Scheduler.getStartOfDay now' = Scheduler.getStartOfDay now ->
        Scheduler.getTodayReviewWords now' words
        = Scheduler.getTodayReviewWords now words).
Proof.
  split; [|split; [|split]].
  - intros w. rewrite getTodayReviewWords_In. simpl.
    pose proof (getStartOfDay_le_end now) as Hb.
    split; intros (Hin & Hm & Hd); (split; [exact Hin|split; [exact Hm|lia]]).
  - apply filter_sublist.
  - apply filter_filter_same.
  - intros now' Hday. unfold Scheduler.getTodayReviewWords.
    rewrite (proj2 (getEndOfDay_same now now') Hday). reflexivity.
Qed.
End ScheduleFacts.

(** ** The order of a session does not depend on the clock *)

Lemma insert_ext {A : Type} (f g : A -> A -> Z) (x : A) (l : list A) :
  (forall a b, (f a b <=? 0) = (g a b <=? 0)) ->
  JsArray.insert f x l = JsArray.insert g x l.
Proof.
  intros Hfg. induction l as [|y l IH]; simpl; [reflexivity|].
  rewrite Hfg, IH. reflexivity.
Qed.

Lemma sort_ext {A : Type} (f g : A -> A -> Z) (l : list A) :
  (forall a b, (f a b <=? 0) = (g a b <=? 0)) ->
  JsArray.sort f l = JsArray.sort g l.
Proof.
  intros Hfg. induction l as [|x l IH]; [reflexivity|].
  change (JsArray.insert f x (JsArray.sort f l)
          = JsArray.insert g x (JsArray.sort g l)).
  rewrite IH. apply insert_ext, Hfg.
Qed.

Lemma compareUrgency_sign (lo hi : Z) (a b : WordEntry.t) :
  lo <= hi + 1 ->
  (Scheduler.compareUrgency lo hi a b <=? 0)
  = (WordEntry.nextReviewAt a - WordEntry.nextReviewAt b <=? 0).
Proof.
  intros Hlh. unfold Scheduler.compareUrgency, Scheduler.getPriority.
  destruct (Z.ltb_spec (WordEntry.nextReviewAt a) lo);
    destruct (Z.ltb_spec (WordEntry.nextReviewAt b) lo);
    destruct (Z.leb_spec (WordEntry.nextReviewAt a) hi);
    destruct (Z.leb_spec (WordEntry.nextReviewAt b) hi);
    simpl; try reflexivity;
    match goal with
    | |- ?l = (?x <=? 0) => destruct (Z.leb_spec x 0); simpl; lia
    end.
Qed.

Section SessionOrder.
Context {zone : TimeZone}.

Lemma sortByUrgency_due (now : Z) (words : list WordEntry.t) :
  Scheduler.sortByUrgency now words
  = JsArray.sort (fun a b => WordEntry.nextReviewAt a - WordEntry.nextReviewAt b)
                 words.
Proof.
  unfold Scheduler.sortByUrgency. apply sort_ext. intros a b.
  apply compareUrgency_sign.
  pose proof (getStartOfDay_le_end now). lia.
Qed.

Lemma sortByUrgency_ascending (now : Z) (words : list WordEntry.t) :
  StronglySorted (fun a b => WordEntry.nextReviewAt a <= WordEntry.nextReviewAt b)
                 (Scheduler.sortByUrgency now words).
Proof.
  rewrite sortByUrgency_due.
  eapply StronglySorted_weaken; [|apply sort_StronglySorted].
  - intros a b Hab. simpl in Hab. lia.
  - intros a b Hab. lia.
  - intros a b c Hab Hbc. lia.
Qed.

(** X7. The three urgency classes add nothing to the order: the queue is the
    stable sort of the words by due instant alone, so it ascends by due
    instant and is the same at whatever instant it is built. *)
Theorem sortByUrgency_clock_free (now : Z) (words : list WordEntry.t) :
  Scheduler.sortByUrgency now words
  = JsArray.sort (fun a b => WordEntry.nextReviewAt a - WordEntry.nextReviewAt b)
                 words
  /\ StronglySorted
       (fun a b => WordEntry.nextReviewAt a <= WordEntry.nextReviewAt b)
       (Scheduler.sortByUrgency now words)
  /\ (forall now', Scheduler.sortByUrgency now' words
                   = Scheduler.sortByUrgency now words).
Proof.
  split; [apply sortByUrgency_due|]. split; [apply sortByUrgency_ascending|].
  intros now'. rewrite !sortByUrgency_due. reflexivity.
Qed.

(** X8. A session started from today's words: the queue is a rearrangement of
    the words that are due, ascending by due instant, with the cursor on the
    word that is due first; with no word due there is no current word and
    the session does not count as complete. *)
Theorem startReview_today (now : Z) (words : list WordEntry.t)
    (st : ProgressStore.State) :
  let due := Scheduler.getTodayReviewWords now words in
  let st' := ProgressStore.startReview now due st in
  Permutation (ProgressStore.reviewQueue st') due
  /\ ProgressStore.currentReviewIndex st' = 0%nat
  /\ Forall (fun w => WordEntry.memoryStatus w <> mastered
                      /\ WordEntry.nextReviewAt w <= Scheduler.getEndOfDay now)
            (ProgressStore.reviewQueue st')
  /\ ProgressStore.reviewProgress st'
     = ProgressStore.mkReviewProgress 1 (Z.of_nat (length due))
                                      (Z.of_nat (length due))
  /\ ProgressStore.hasMoreWords st' = negb (bool_decide (due = []))
  /\ ProgressStore.isReviewComplete st' = false
  /\ match due with
     | [] => ProgressStore.currentWord st' = None
     | _ :: _ =>
         exists w, ProgressStore.currentWord st' = Some w /\ In w due
                   /\ Forall (fun w' => WordEntry.nextReviewAt w
                                        <= WordEntry.nextReviewAt w') due
     end.
Proof.
  intros due st'.
  assert (Permutation (ProgressStore.reviewQueue st') due) as Hperm
    by apply sortByUrgency_Permutation.
  assert (length (ProgressStore.reviewQueue st') = length due) as Hlen
    by (apply Permutation_length, Hperm).
  assert (ProgressStore.currentReviewIndex st' = 0%nat) as Hidx by reflexivity.
  split; [exact Hperm|]. split; [exact Hidx|]. split.
  { eapply Permutation_Forall; [symmetry; exact Hperm|].
    apply Forall_forall. intros w Hw. apply list_elem_of_In in Hw.
    apply getTodayReviewWords_In in Hw. tauto. }
  split.
  { unfold ProgressStore.reviewProgress. rewrite Hlen, Hidx. f_equal; lia. }
  split.
  { unfold ProgressStore.hasMoreWords. rewrite Hlen, Hidx.
    destruct due; reflexivity. }
  split.
  { unfold ProgressStore.isReviewComplete. rewrite Hlen, Hidx.
    destruct due; reflexivity. }
  destruct due as [|d due'] eqn:Hdue.
  - apply currentWord_None. left.
    destruct (ProgressStore.reviewQueue st'); [reflexivity|discriminate].
  - destruct (ProgressStore.reviewQueue st') as [|w q] eqn:Hq; [discriminate|].
    exists w. split.
    { apply currentWord_Some. rewrite Hidx, Hq. reflexivity. }
    assert (In w (d :: due')) as Hin.
    { eapply Permutation_in; [exact Hperm|]. left. reflexivity. }
    split; [exact Hin|].
    eapply Permutation_Forall; [exact Hperm|].
    pose proof (sortByUrgency_ascending now (d :: due')) as Hs.
    change (Scheduler.sortByUrgency now (d :: due'))
      with (ProgressStore.reviewQueue st') in Hs.
    rewrite Hq in Hs. inversion Hs as [|? ? Hs' Hall]; subst.
    constructor; [lia|exact Hall].
Qed.
End SessionOrder.

(** ** The vocabulary list after a grading *)

Lemma vocabulary_findIndex (id : string) (words : list WordEntry.t) :
  match VocabularyStore.findIndex id words with
  | Some i =>
      exists v, words !! i = Some v
                /\ VocabularyStore.getWordById id words = Some v
                /\ WordEntry.id v = id
  | None => VocabularyStore.getWordById id words = None
  end.
Proof.
  unfold VocabularyStore.getWordById.
  induction words as [|w words IH]; simpl; [reflexivity|].
  case_bool_decide as Hw; simpl.
  - exists w. auto.
  - destruct (VocabularyStore.findIndex id words) as [i|]; simpl; exact IH.
Qed.

Lemma getWordById_id (id : string) (words : list WordEntry.t) (v : WordEntry.t) :
  VocabularyStore.getWordById id words = Some v -> WordEntry.id v = id /\ In v words.
Proof.
  unfold VocabularyStore.getWordById. intros H.
  apply find_some in H as [Hin Hid]. apply bool_decide_eq_true in Hid. auto.
Qed.

Lemma updateWord_get (u : WordEntry.t) (words : list WordEntry.t) (id : string) :
  VocabularyStore.getWordById id (VocabularyStore.updateWord u words)
  = if bool_decide (id = WordEntry.id u)
    then match VocabularyStore.getWordById id words with
         | Some _ => Some u
         | None => None
         end
    else VocabularyStore.getWordById id words.
Proof.
  unfold VocabularyStore.updateWord, VocabularyStore.getWordById.
  induction words as [|w words IH]; simpl.
  - case_bool_decide; reflexivity.
  - destruct (decide (id = WordEntry.id u)) as [->|Hne].
    + rewrite (bool_decide_true (WordEntry.id u = WordEntry.id u)) in *
        by reflexivity.
      case_bool_decide as Hw; simpl.
      * rewrite bool_decide_true by reflexivity. reflexivity.
      * destruct (VocabularyStore.findIndex (WordEntry.id u) words) as [i|];
          simpl in *; rewrite bool_decide_false by exact Hw; exact IH.
    + rewrite (bool_decide_false (id = WordEntry.id u)) in * by exact Hne.
      case_bool_decide as Hw; simpl.
      * rewrite bool_decide_false by congruence.
        rewrite bool_decide_false by congruence. reflexivity.
      * destruct (VocabularyStore.findIndex (WordEntry.id u) words) as [i|];
          simpl in *.
        -- destruct (bool_decide (WordEntry.id w = id)); [reflexivity|exact IH].
        -- reflexivity.
Qed.

Lemma updateWord_ids (u : WordEntry.t) (words : list WordEntry.t) :
  map WordEntry.id (VocabularyStore.updateWord u words) = map WordEntry.id words.
Proof.
  unfold VocabularyStore.updateWord.
  induction words as [|w words IH]; simpl; [reflexivity|].
  case_bool_decide as Hw; simpl; [congruence|].
  destruct (VocabularyStore.findIndex (WordEntry.id u) words) as [i|]; simpl in *;
    [rewrite IH|]; reflexivity.
Qed.

Lemma distinct_ids_lookup (words : list WordEntry.t) (i j : nat)
    (v w : WordEntry.t) :
  NoDup (map WordEntry.id words) ->
  words !! i = Some v -> words !! j = Some w ->
  WordEntry.id v = WordEntry.id w -> i = j.
Proof.
  revert i j. induction words as [|x words IH]; intros i j Hnd Hi Hj Heq;
    [discriminate|].
  simpl in Hnd. apply NoDup_cons in Hnd as [Hx Hnd].
  assert (forall k u, words !! k = Some u -> WordEntry.id u <> WordEntry.id x)
    as Hother.
  { intros k u Hk Hu. apply Hx. rewrite <- Hu.
    apply list_elem_of_In, in_map, list_elem_of_In.
    apply (list_elem_of_lookup_2 _ k), Hk. }
  destruct i as [|i], j as [|j]; simpl in Hi, Hj.
  - reflexivity.
  - injection Hi as <-. exfalso. apply (Hother j w Hj). congruence.
  - injection Hj as <-. exfalso. apply (Hother i v Hi). congruence.
  - f_equal. apply (IH i j Hnd Hi Hj Heq).
Qed.

Section GradedWord.
Context {zone : TimeZone}.

Lemma calculateNextReview_after (stage : ReviewStage) (t : Z) :
  Scheduler.getEndOfDay t < Scheduler.calculateNextReview stage t.
Proof.
  unfold Scheduler.calculateNextReview.
  pose proof (getEndOfDay_spec t) as Hend. rewrite DAY_MS_value in *.
  assert (1 <= REVIEW_INTERVALS stage) by (destruct stage; simpl; lia). lia.
Qed.

Lemma handleRemember_result (now : Z) (word : WordEntry.t) :
  let p := Scheduler.handleRemember now word in
  WordProgress.id p = WordEntry.id word
  /\ (WordProgress.memoryStatus p = mastered
      \/ Scheduler.getEndOfDay now < WordProgress.nextReviewAt p).
Proof.
  unfold Scheduler.handleRemember.
  destruct (decide (WordEntry.reviewStage word = Stage6)); simpl.
  - auto.
  - split; [reflexivity|]. right. apply calculateNextReview_after.
Qed.

Lemma handleForget_result (now : Z) (word : WordEntry.t) :
  let p := Scheduler.handleForget now word in
  WordProgress.id p = WordEntry.id word
  /\ (WordProgress.memoryStatus p = mastered
      \/ Scheduler.getEndOfDay now < WordProgress.nextReviewAt p).
Proof.
  simpl. split; [reflexivity|]. right. apply calculateNextReview_after.
Qed.

(** X9. In a zone of fixed offset, with a vocabulary of one word per id:
    when the review page grades the current word of the session, the word
    of the vocabulary with that id is replaced, where it stands, by the copy
    with the new stage, due instant, status and review instant, and every
    other word stays as it is and where it is; the words to review at any
    instant of the same local day are then the words that were to review
    before, other than the graded one. *)
Theorem graded_word_leaves_today (g : ProgressStore.Grade) (now : Z)
    (st : ProgressStore.State) (words : list WordEntry.t)
    (word v : WordEntry.t) :
  ProgressStore.currentWord st = Some word ->
  VocabularyStore.getWordById (WordEntry.id word) words = Some v ->
  NoDup (map WordEntry.id words) ->
  let page :=
    match g with
    | ProgressStore.Remember => ReviewPage.handleRemember now (st, words)
    | ProgressStore.Forget => ReviewPage.handleForget now (st, words)
    end in
  let p :=
    match g with
    | ProgressStore.Remember => Scheduler.handleRemember now word
    | ProgressStore.Forget => Scheduler.handleForget now word
    end in
  page.1 = ProgressStore.grade g now st
  /\ (exists i, words !! i = Some v /\ page.2 = <[i := refreshed v p]> words)
  /\ VocabularyStore.getWordById (WordEntry.id word) page.2 = Some (refreshed v p)
  /\ (forall id, id <> WordEntry.id word ->
        VocabularyStore.getWordById id page.2
        = VocabularyStore.getWordById id words)
  /\ map WordEntry.id page.2 = map WordEntry.id words
  /\ (forall now' w,
        Scheduler.getStartOfDay now' = Scheduler.getStartOfDay now ->
        In w (Scheduler.getTodayReviewWords now' page.2)
        <-> In w (Scheduler.getTodayReviewWords now' words)
            /\ WordEntry.id w <> WordEntry.id word).
Proof.
  intros Hcur Hv Hnd page p.
  assert (WordProgress.id p = WordEntry.id word
          /\ (WordProgress.memoryStatus p = mastered
              \/ Scheduler.getEndOfDay now < WordProgress.nextReviewAt p))
    as [Hid Hlate].
  { destruct g; [apply handleRemember_result|apply handleForget_result]. }
  assert (page = (ProgressStore.grade g now st,
                  VocabularyStore.updateWord (refreshed v p) words)) as ->.
  { subst page p. destruct g; simpl.
    - unfold ReviewPage.handleRemember. simpl.
      destruct (handleRemember_Some now st word Hcur) as (Hr & _).
      destruct (ProgressStore.handleRemember now st) as [r s']. simpl in *.
      subst r. unfold ReviewPage.syncWord. rewrite Hid, Hv. reflexivity.
    - unfold ReviewPage.handleForget. simpl.
      destruct (handleForget_Some now st word Hcur) as (Hr & _).
      destruct (ProgressStore.handleForget now st) as [r s']. simpl in *.
      subst r. unfold ReviewPage.syncWord. simpl. rewrite Hv. reflexivity. }
  simpl. apply getWordById_id in Hv as Hv'. destruct Hv' as [Hvid _].
  assert (exists i, words !! i = Some v
                    /\ VocabularyStore.updateWord (refreshed v p) words
                       = <[i := refreshed v p]> words) as (i & Hi & Hupd).
  { unfold VocabularyStore.updateWord. simpl. rewrite Hvid.
    pose proof (vocabulary_findIndex (WordEntry.id word) words) as Hf.
    destruct (VocabularyStore.findIndex (WordEntry.id word) words) as [i|].
    - destruct Hf as (v0 & Hi & Hg & _). rewrite Hv in Hg. injection Hg as <-.
      exists i. split; [exact Hi|reflexivity].
    - rewrite Hv in Hf. discriminate. }
  split; [reflexivity|]. split; [exists i; split; assumption|]. split.
  { rewrite updateWord_get. simpl. rewrite Hvid.
    rewrite bool_decide_true by reflexivity. rewrite Hv. reflexivity. }
  split.
  { intros id Hne. rewrite updateWord_get. simpl. rewrite Hvid.
    rewrite bool_decide_false by exact Hne. reflexivity. }
  split; [apply updateWord_ids|].
  intros now' w Hday. rewrite Hupd, !getTodayReviewWords_In.
  rewrite (proj2 (getEndOfDay_same now now') Hday).
  split.
  - intros (Hin & Hm & Hd).
    apply list_elem_of_In, list_elem_of_lookup in Hin as [j Hj].
    apply list_lookup_insert_Some in Hj as [(_ & <- & _)|(Hne & Hj)].
    + simpl in Hm, Hd. destruct Hlate as [Hl|Hl]; [contradiction|lia].
    + split.
      * split; [|split; assumption].
        apply list_elem_of_In, list_elem_of_lookup. exists j. exact Hj.
      * intros Hw. apply Hne.
        apply (distinct_ids_lookup words i j v w Hnd Hi Hj). congruence.
  - intros ((Hin & Hm & Hd) & Hw). split; [|split; assumption].
    apply list_elem_of_In, list_elem_of_lookup in Hin as [j Hj].
    apply list_elem_of_In, list_elem_of_lookup. exists j.
    rewrite list_lookup_insert_ne; [exact Hj|].
    intros <-. rewrite Hi in Hj. injection Hj as <-. congruence.
Qed.
End GradedWord.

(** ** The cursor of a session and the count of what is left *)

Section CursorFacts.
Context {zone : TimeZone}.

Lemma grade_within (g : ProgressStore.Grade) (now : Z) (st : ProgressStore.State) :
  (ProgressStore.currentReviewIndex st
   <= length (ProgressStore.reviewQueue st))%nat ->
  (ProgressStore.currentReviewIndex (ProgressStore.grade g now st)
   <= length (ProgressStore.reviewQueue (ProgressStore.grade g now st)))%nat.
Proof.
  intros Hok. destruct (grade_step g now st) as (Hin & Hout & _).
  destruct (Nat.lt_ge_cases (ProgressStore.currentReviewIndex st)
                            (length (ProgressStore.reviewQueue st))) as [Hlt|Hge].
  - destruct (Hin Hlt) as [-> ->]. destruct g; lia.
  - rewrite (Hout Hge). exact Hok.
Qed.

Lemma gradeAll_within (gs : list (ProgressStore.Grade * Z))
    (st : ProgressStore.State) :
  (ProgressStore.currentReviewIndex st
   <= length (ProgressStore.reviewQueue st))%nat ->
  (ProgressStore.currentReviewIndex (ProgressStore.gradeAll gs st)
   <= length (ProgressStore.reviewQueue (ProgressStore.gradeAll gs st)))%nat.
Proof.
  revert st. induction gs as [|[g now] gs IH]; intros st Hok; [exact Hok|].
  apply (IH (ProgressStore.grade g now st)), grade_within, Hok.
Qed.

(** X10. The cursor never passes the end of the queue: from a state where it is
    within the queue, no action of the store takes it beyond, so the number
    of words left is never negative. *)
Theorem cursor_within_queue (now : Z) (words : list WordEntry.t)
    (gs : list (ProgressStore.Grade * Z)) (st : ProgressStore.State) :
  (ProgressStore.currentReviewIndex st
   <= length (ProgressStore.reviewQueue st))%nat ->
  let within st' :=
    (ProgressStore.currentReviewIndex st'
     <= length (ProgressStore.reviewQueue st'))%nat
    /\ 0 <= ProgressStore.remaining (ProgressStore.reviewProgress st') in
  within (ProgressStore.startReview now words st)
  /\ within (ProgressStore.handleRemember now st).2
  /\ within (ProgressStore.handleForget now st).2
  /\ within (ProgressStore.gradeAll gs st)
  /\ within (ProgressStore.skipCurrentWord st)
  /\ within (ProgressStore.restartReview st)
  /\ within (ProgressStore.resetProgress st).2
  /\ within (ProgressStore.updateStats now st)
  /\ within (ProgressStore.saveProgress st).2
  /\ match ProgressStore.loadProgress now st with
     | Some st' => within st'
     | None => True
     end.
Proof.
  intros Hok within.
  assert (forall st', (ProgressStore.currentReviewIndex st'
                       <= length (ProgressStore.reviewQueue st'))%nat ->
                      within st') as Hw.
  { intros st' H. split; [exact H|]. simpl. lia. }
  split. { apply Hw. simpl. lia. }
  split. { apply Hw, (grade_within ProgressStore.Remember now st Hok). }
  split. { apply Hw, (grade_within ProgressStore.Forget now st Hok). }
  split. { apply Hw, gradeAll_within, Hok. }
  split.
  { apply Hw. unfold ProgressStore.skipCurrentWord, ProgressStore.hasMoreWords.
    destruct (Nat.ltb_spec (ProgressStore.currentReviewIndex st)
                           (length (ProgressStore.reviewQueue st)));
      simpl; lia. }
  split. { apply Hw. simpl. lia. }
  split.
  { apply Hw. unfold ProgressStore.resetProgress.
    destruct (ProgressService.reset _ _) as [[] storage]; simpl; lia. }
  split.
  { apply Hw. unfold ProgressStore.updateStats, ProgressStore.updateStreakDays.
    repeat case_bool_decide; simpl; exact Hok. }
  split.
  { apply Hw. unfold ProgressStore.saveProgress.
    destruct (ProgressService.getSettings _ _) as [settings storage].
    destruct (ProgressService.save _ _ _) as [saved storage']. exact Hok. }
  unfold ProgressStore.loadProgress.
  destruct (ProgressService.load _ _) as [[data|] storage]; simpl.
  - destruct (FromJson.progressData data); simpl; [|exact I].
    apply Hw. exact Hok.
  - apply Hw. exact Hok.
Qed.

Lemma found_in_range (st : ProgressStore.State) :
  ProgressStore.currentWord st <> None ->
  (ProgressStore.currentReviewIndex st
   < length (ProgressStore.reviewQueue st))%nat.
Proof.
  intros H. destruct (ProgressStore.currentWord st) as [w|] eqn:Hw;
    [|contradiction].
  apply currentWord_Some in Hw. apply lookup_lt_Some in Hw. exact Hw.
Qed.

(** Gradings that each find a current word, the words that a forget put
    back included. *)
Lemma gradeAll_found_counts (gs : list (ProgressStore.Grade * Z))
    (st : ProgressStore.State) :
  (forall k, (k < length gs)%nat ->
             ProgressStore.currentWord (ProgressStore.gradeAll (take k gs) st)
             <> None) ->
  ProgressStore.currentReviewIndex (ProgressStore.gradeAll gs st)
  = (ProgressStore.currentReviewIndex st + length gs)%nat
  /\ length (ProgressStore.reviewQueue (ProgressStore.gradeAll gs st))
     = (length (ProgressStore.reviewQueue st) + forgets gs)%nat
  /\ match gs with
     | [] => True
     | _ :: _ =>
         (ProgressStore.currentReviewIndex (ProgressStore.gradeAll gs st)
          <= length (ProgressStore.reviewQueue (ProgressStore.gradeAll gs st)))%nat
     end.
Proof.
  revert st. induction gs as [|[g now] gs IH]; intros st Hfound.
  - simpl. unfold forgets. simpl. repeat split; lia.
  - pose proof (found_in_range st (Hfound 0%nat ltac:(simpl; lia))) as Hlt.
    destruct (grade_step g now st) as (Hstep & _ & _ & _).
    destruct (Hstep Hlt) as [Hi Hq].
    destruct (IH (ProgressStore.grade g now st)) as (IHi & IHq & IHw).
    { intros k Hk. apply (Hfound (S k)). simpl. lia. }
    change (ProgressStore.gradeAll ((g, now) :: gs) st)
      with (ProgressStore.gradeAll gs (ProgressStore.grade g now st)).
    assert (forgets ((g, now) :: gs)
            = (match g with
               | ProgressStore.Forget => 1
               | ProgressStore.Remember => 0
               end + forgets gs)%nat) as Hf
      by (unfold forgets; destruct g; reflexivity).
    rewrite IHi, IHq, Hi, Hq, Hf. simpl length.
    split; [lia|]. split; [destruct g; lia|].
    destruct gs as [|g' gs'].
    + unfold forgets. simpl. destruct g; lia.
    + rewrite IHi, IHq, Hi, Hq in IHw. destruct g; simpl in *; lia.
Qed.

(** X11. While every grading finds a current word (the words that a forget
    put back included), a remember takes one off the words left and a forget
    leaves their number as it was: the position grows by the number of
    gradings and the total by the number of forgets. After at least one
    such grading the session is complete exactly when no word is left; and
    if the gradings did not go past the end of the queue as it was before
    them, exactly when they reached that end and none of them was a
    forget. *)
Theorem reviewProgress_counts (gs : list (ProgressStore.Grade * Z))
    (st : ProgressStore.State) :
  (forall k, (k < length gs)%nat ->
             ProgressStore.currentWord (ProgressStore.gradeAll (take k gs) st)
             <> None) ->
  let before := ProgressStore.reviewProgress st in
  let after := ProgressStore.reviewProgress (ProgressStore.gradeAll gs st) in
  ProgressStore.current after
  = ProgressStore.current before + Z.of_nat (length gs)
  /\ ProgressStore.total after
     = ProgressStore.total before + Z.of_nat (forgets gs)
  /\ ProgressStore.remaining after
     = ProgressStore.remaining before
       - (Z.of_nat (length gs) - Z.of_nat (forgets gs))
  /\ match gs with
     | [] => True
     | _ :: _ =>
         0 <= ProgressStore.remaining after
         /\ (ProgressStore.isReviewComplete (ProgressStore.gradeAll gs st) = true
             <-> ProgressStore.remaining after = 0)
     end
  /\ ((ProgressStore.currentReviewIndex st + length gs
       <= length (ProgressStore.reviewQueue st))%nat ->
      (ProgressStore.isReviewComplete (ProgressStore.gradeAll gs st) = true
       <-> (0 < length (ProgressStore.reviewQueue st))%nat
           /\ forgets gs = 0%nat
           /\ (ProgressStore.currentReviewIndex st + length gs
               = length (ProgressStore.reviewQueue st))%nat)).
Proof.
  intros Hfound before after.
  destruct (gradeAll_found_counts gs st Hfound) as (Hi & Hq & Hw).
  assert (ProgressStore.isReviewComplete (ProgressStore.gradeAll gs st) = true
          <-> (0 < length (ProgressStore.reviewQueue st) + forgets gs)%nat
              /\ (length (ProgressStore.reviewQueue st) + forgets gs
                  <= ProgressStore.currentReviewIndex st + length gs)%nat)
    as Hc.
  { unfold ProgressStore.isReviewComplete. rewrite Hi, Hq.
    rewrite andb_true_iff, Nat.ltb_lt, Nat.leb_le. reflexivity. }
  subst before after. unfold ProgressStore.reviewProgress. simpl.
  rewrite Hi, Hq.
  split; [lia|]. split; [lia|]. split; [lia|]. split.
  - destruct gs as [|g gs']; [exact I|].
    rewrite Hi, Hq in Hw.
    pose proof (found_in_range st (Hfound 0%nat ltac:(simpl; lia))) as Hlt.
    split; [lia|]. rewrite Hc. lia.
  - intros Hin. rewrite Hc. lia.
Qed.
End CursorFacts.

(** ** The progress list *)

Lemma progress_findIndex (id : string) (l : list WordProgress.t) :
  match ProgressStore.findIndex id l with
  | Some i =>
      exists q, l !! i = Some q /\ WordProgress.id q = id
                /\ List.find (fun p => bool_decide (WordProgress.id p = id)) l
                   = Some q
  | None => List.find (fun p => bool_decide (WordProgress.id p = id)) l = None
  end.
Proof.
  induction l as [|q l IH]; simpl; [reflexivity|].
  case_bool_decide as Hq; simpl.
  - exists q. auto.
  - destruct (ProgressStore.findIndex id l) as [i|]; simpl; exact IH.
Qed.

Lemma updateProgressList_find (p : WordProgress.t) (st : ProgressStore.State)
    (id : string) :
  ProgressStore.getWordProgress id (ProgressStore.updateProgressList p st)
  = if bool_decide (id = WordProgress.id p) then Some p
    else ProgressStore.getWordProgress id st.
Proof.
  unfold ProgressStore.getWordProgress, ProgressStore.updateProgressList.
  destruct st as [l a b c d e f g]. simpl.
  induction l as [|q l IH]; simpl.
  - rewrite (bool_decide_ext (WordProgress.id p = id) (id = WordProgress.id p))
      by (split; congruence).
    case_bool_decide; reflexivity.
  - destruct (decide (id = WordProgress.id p)) as [->|Hne].
    + rewrite (bool_decide_true (WordProgress.id p = WordProgress.id p)) in *
        by reflexivity.
      case_bool_decide as Hq; simpl.
      * rewrite bool_decide_true by reflexivity. reflexivity.
      * destruct (ProgressStore.findIndex (WordProgress.id p) l) as [i|];
          simpl in *; rewrite bool_decide_false by exact Hq; exact IH.
    + rewrite (bool_decide_false (id = WordProgress.id p)) in * by exact Hne.
      case_bool_decide as Hq; simpl.
      * rewrite bool_decide_false by congruence.
        rewrite bool_decide_false by congruence. reflexivity.
      * destruct (ProgressStore.findIndex (WordProgress.id p) l) as [i|];
          simpl in *;
          (destruct (bool_decide (WordProgress.id q = id)); [reflexivity|exact IH]).
Qed.

Lemma updateProgressList_ids (p : WordProgress.t) (st : ProgressStore.State) :
  map WordProgress.id
      (ProgressStore.progressList (ProgressStore.updateProgressList p st))
  = match ProgressStore.getWordProgress (WordProgress.id p) st with
    | Some _ => map WordProgress.id (ProgressStore.progressList st)
    | None => map WordProgress.id (ProgressStore.progressList st)
              ++ [WordProgress.id p]
    end.
Proof.
  unfold ProgressStore.getWordProgress, ProgressStore.updateProgressList.
  destruct st as [l a b c d e f g]. simpl.
  induction l as [|q l IH]; simpl; [reflexivity|].
  case_bool_decide as Hq; simpl; [congruence|].
  destruct (ProgressStore.findIndex (WordProgress.id p) l) as [i|]; simpl in *;
    rewrite IH;
    destruct (List.find _ l); reflexivity.
Qed.

Lemma find_recordFor (id : string) (l : list WordProgress.t) :
  NoDup (map WordProgress.id l) ->
  List.find (fun p => bool_decide (WordProgress.id p = id)) l = recordFor id l.
Proof.
  induction l as [|q l IH]; simpl; [reflexivity|].
  intros Hnd. apply NoDup_cons in Hnd as [Hq Hnd].
  rewrite <- (IH Hnd). case_bool_decide as Hid.
  - destruct (List.find _ l) as [r|] eqn:Hr; [|reflexivity].
    apply find_some in Hr as [Hin Hr]. apply bool_decide_eq_true in Hr.
    exfalso. apply Hq. rewrite Hid, <- Hr.
    apply list_elem_of_In, in_map, Hin.
  - destruct (List.find _ l); reflexivity.
Qed.

(** X12. Recording a progress: the record is then the one found for its id,
    whatever was there before, the records of the other ids are found as
    before, and the ids of the list stay as they are when the id was known
    and get the new id at the end when it was not. *)
Theorem updateProgressList_lookup (p : WordProgress.t) (st : ProgressStore.State) :
  let st' := ProgressStore.updateProgressList p st in
  ProgressStore.getWordProgress (WordProgress.id p) st' = Some p
  /\ (forall id, id <> WordProgress.id p ->
                ProgressStore.getWordProgress id st'
                = ProgressStore.getWordProgress id st)
  /\ map WordProgress.id (ProgressStore.progressList st')
     = match ProgressStore.getWordProgress (WordProgress.id p) st with
       | Some _ => map WordProgress.id (ProgressStore.progressList st)
       | None => map WordProgress.id (ProgressStore.progressList st)
                 ++ [WordProgress.id p]
       end
  /\ ProgressStore.getWordProgress (WordProgress.id p)
       (ProgressStore.updateProgressList p st') = Some p
  /\ ProgressStore.progressList (ProgressStore.updateProgressList p st')
     = ProgressStore.progressList st'.
Proof.
  intros st'. split.
  { subst st'. rewrite updateProgressList_find.
    rewrite bool_decide_true by reflexivity. reflexivity. }
  split.
  { intros id Hne. subst st'. rewrite updateProgressList_find.
    rewrite bool_decide_false by exact Hne. reflexivity. }
  split; [apply updateProgressList_ids|]. split.
  { rewrite updateProgressList_find.
    rewrite bool_decide_true by reflexivity. reflexivity. }
  assert (ProgressStore.getWordProgress (WordProgress.id p) st' = Some p) as Hp.
  { subst st'. rewrite updateProgressList_find.
    rewrite bool_decide_true by reflexivity. reflexivity. }
  unfold ProgressStore.getWordProgress in Hp.
  unfold ProgressStore.updateProgressList at 1.
  pose proof (progress_findIndex (WordProgress.id p)
                (ProgressStore.progressList st')) as Hf.
  destruct (ProgressStore.findIndex (WordProgress.id p)
              (ProgressStore.progressList st')) as [i|].
  - destruct Hf as (q & Hi & _ & Hq). rewrite Hp in Hq. injection Hq as <-.
    simpl. apply list_insert_id, Hi.
  - rewrite Hp in Hf. discriminate.
Qed.

(** X13. With one record per id in the progress list: recording keeps one record
    per id, and the record the store finds for a word is the record the
    loader merges into the word (the loader keeps the last record of an id,
    the store finds the first). *)
Theorem progress_one_record_per_id (p : WordProgress.t) (st : ProgressStore.State) :
  NoDup (map WordProgress.id (ProgressStore.progressList st)) ->
  NoDup (map WordProgress.id
           (ProgressStore.progressList (ProgressStore.updateProgressList p st)))
  /\ (forall id,
        WordLoader.buildProgressMap (ProgressStore.progressList st) !! id
        = ProgressStore.getWordProgress id st)
  /\ (forall id,
        WordLoader.buildProgressMap
          (ProgressStore.progressList (ProgressStore.updateProgressList p st)) !! id
        = if bool_decide (id = WordProgress.id p) then Some p
          else ProgressStore.getWordProgress id st).
Proof.
  intros Hnd.
  assert (NoDup (map WordProgress.id
            (ProgressStore.progressList (ProgressStore.updateProgressList p st))))
    as Hnd'.
  { rewrite updateProgressList_ids.
    destruct (ProgressStore.getWordProgress (WordProgress.id p) st) eqn:Hg;
      [exact Hnd|].
    apply NoDup_app. split; [exact Hnd|]. split; [|apply NoDup_singleton].
    intros id Hin Hid. apply list_elem_of_singleton in Hid. subst id.
    apply list_elem_of_In, in_map_iff in Hin as (q & Hq & Hin).
    unfold ProgressStore.getWordProgress in Hg.
    apply (find_none _ _ Hg) in Hin. simpl in Hin.
    apply bool_decide_eq_false in Hin. contradiction. }
  split; [exact Hnd'|]. split.
  - intros id. rewrite buildProgressMap_lookup. symmetry.
    apply find_recordFor, Hnd.
  - intros id. rewrite buildProgressMap_lookup, <- find_recordFor by exact Hnd'.
    apply updateProgressList_find.
Qed.

(** ** What the store saves is what it loads *)

Lemma FromJson_wordProgress (p : WordProgress.t) :
  FromJson.wordProgress (ToJson.wordProgress p) = Some p.
Proof.
  destruct p as [id stage due status last].
  destruct stage, status, last; reflexivity.
Qed.

Lemma FromJson_progress (l : list WordProgress.t) :
  mapM FromJson.wordProgress (map ToJson.wordProgress l) = Some l.
Proof.
  induction l as [|p l IH]; [reflexivity|].
  cbn [map mapM]. rewrite FromJson_wordProgress, IH. reflexivity.
Qed.

Lemma FromJson_dailyReviews (l : list (string * Z)) :
  mapM FromJson.dailyCount (map (fun kv => (kv.1, JNumber kv.2)) l) = Some l.
Proof.
  induction l as [|[k n] l IH]; [reflexivity|].
  cbn [map mapM]. rewrite IH. reflexivity.
Qed.

Lemma FromJson_progressData (d : ProgressData.t) :
  FromJson.progressData (ToJson.progressData d) = Some d.
Proof.
  destruct d as [version progress [streak last daily] settings].
  unfold ToJson.progressData, FromJson.progressData, ToJson.stats,
    FromJson.stats.
  cbn [ProgressData.version ProgressData.progress ProgressData.stats_
       ProgressData.settings ProgressData.streakDays ProgressData.lastStudyDate
       ProgressData.dailyReviews].
  rewrite !bool_decide_true by reflexivity. cbn [andb].
  rewrite FromJson_progress, FromJson_dailyReviews. reflexivity.
Qed.

Lemma ToJson_valid (d : ProgressData.t) :
  nonNullObject (ProgressData.settings d) ->
  ProgressService.isValidProgressData (ToJson.progressData d) = true.
Proof.
  intros Hs. apply isValidProgressData_topLevel.
  destruct d as [version progress [streak last daily] settings].
  unfold topLevelValid, ToJson.progressData, ToJson.stats. simpl.
  eexists _, _, _, _, _, _, _, _.
  split; [reflexivity|]. repeat split; try reflexivity; assumption.
Qed.

Lemma STORAGE_KEY_not_probe : ProgressService.STORAGE_KEY <> ProgressService.testKey.
Proof. discriminate. Qed.

Section PersistFacts.
Variable storageKey : string.

Lemma load_storage_roomy (st : LocalStorage.t) :
  roomy st ->
  (ProgressService.load storageKey st).2
  = LocalStorage.mk (LocalStorage.usable st) (LocalStorage.fits st)
      (delete ProgressService.testKey (LocalStorage.items st)).
Proof.
  intros Hr. unfold ProgressService.load.
  rewrite (isStorageAvailable_roomy st Hr). simpl.
  destruct (LocalStorage.getItem _ _) as [[raw|]|]; try reflexivity.
  destruct (isEmptyText raw); [reflexivity|].
  destruct (JSON.parse raw) as [data|]; [|reflexivity].
  destruct (ProgressService.isValidProgressData data); reflexivity.
Qed.

Lemma getSettings_nonNull (st : LocalStorage.t) :
  nonNullObject (ProgressService.getSettings storageKey st).1.
Proof.
  unfold ProgressService.getSettings.
  destruct (ProgressService.load storageKey st) as [[v|] st'] eqn:Hl; simpl;
    [|exact I].
  assert ((ProgressService.load storageKey st).1 = Some v) as Hv
    by (rewrite Hl; reflexivity).
  apply load_Some in Hv as (_ & _ & Hv).
  apply isValidProgressData_topLevel in Hv
    as (props & ? & ? & ? & ? & ? & ? & settings
        & -> & _ & _ & _ & _ & _ & _ & _ & Hs & Hn).
  simpl. rewrite Hs. destruct settings; simpl in *; try contradiction; exact I.
Qed.

Lemma getSettings_storage_roomy (st : LocalStorage.t) :
  roomy st ->
  (ProgressService.getSettings storageKey st).2
  = LocalStorage.mk (LocalStorage.usable st) (LocalStorage.fits st)
      (delete ProgressService.testKey (LocalStorage.items st)).
Proof.
  intros Hr. unfold ProgressService.getSettings.
  pose proof (load_storage_roomy st Hr) as Hl.
  destruct (ProgressService.load storageKey st) as [data st']. simpl in Hl.
  destruct (Js.prop data "settings") as [[]|]; exact Hl.
Qed.

Lemma getSettings_loaded (st : LocalStorage.t) (d : ProgressData.t) :
  nonNullObject (ProgressData.settings d) ->
  (ProgressService.load storageKey st).1 = Some (ToJson.progressData d) ->
  (ProgressService.getSettings storageKey st).1 = ProgressData.settings d.
Proof.
  intros Hn Hl. unfold ProgressService.getSettings.
  destruct (ProgressService.load storageKey st) as [data st']. simpl in Hl.
  subst data. simpl.
  destruct (ProgressData.settings d); simpl in *; try contradiction; reflexivity.
Qed.
End PersistFacts.

Lemma roomy_mk (st : LocalStorage.t) (items : gmap string text) :
  roomy st ->
  roomy (LocalStorage.mk (LocalStorage.usable st) (LocalStorage.fits st) items).
Proof. intros [Hu Hf]. split; [exact Hu|exact Hf]. Qed.

(** The snapshot the store writes. *)
Lemma saveProgress_roomy (st : ProgressStore.State) :
  roomy (ProgressStore.localStorage st) ->
  let settings :=
    (ProgressService.getSettings ProgressService.STORAGE_KEY
       (ProgressStore.localStorage st)).1 in
  let d :=
    ProgressData.mk 1 (ProgressStore.progressList st)
      (ProgressData.mkStats (ProgressStore.streakDays st)
         (ProgressStore.lastStudyDate st) (ProgressStore.dailyReviews st))
      settings in
  (ProgressStore.saveProgress st).1 = true
  /\ roomy (ProgressStore.localStorage (ProgressStore.saveProgress st).2)
  /\ (ProgressService.load ProgressService.STORAGE_KEY
        (ProgressStore.localStorage (ProgressStore.saveProgress st).2)).1
     = Some (ToJson.progressData d)
  /\ nonNullObject settings
  /\ ProgressStore.saveProgress st
     = (true, ProgressStore.set_localStorage
                (ProgressStore.localStorage (ProgressStore.saveProgress st).2) st).
Proof.
  intros Hr settings d.
  pose proof (getSettings_nonNull ProgressService.STORAGE_KEY
                (ProgressStore.localStorage st)) as Hn.
  pose proof (getSettings_storage_roomy ProgressService.STORAGE_KEY
                (ProgressStore.localStorage st) Hr) as Hs.
  unfold ProgressStore.saveProgress.
  fold settings in Hn. subst d.
  destruct (ProgressService.getSettings ProgressService.STORAGE_KEY
              (ProgressStore.localStorage st)) as [settings' storage] eqn:Hg.
  simpl in Hs, settings. subst settings.
  assert (roomy storage) as Hr' by (rewrite Hs; apply roomy_mk, Hr).
  rewrite (save_roomy ProgressService.STORAGE_KEY _ storage Hr').
  simpl. split; [reflexivity|]. split; [apply roomy_mk, Hr'|]. split.
  - apply load_roomy.
    + apply STORAGE_KEY_not_probe.
    + apply roomy_mk, Hr'.
    + simpl. apply lookup_insert_eq.
    + apply ToJson_valid. exact Hn.
  - split; [exact Hn|reflexivity].
Qed.

Lemma loadProgress_loaded (now : Z) (st : ProgressStore.State) (d : ProgressData.t) :
  (ProgressService.load ProgressService.STORAGE_KEY
     (ProgressStore.localStorage st)).1 = Some (ToJson.progressData d) ->
  exists storage,
    ProgressStore.loadProgress now st
    = Some (ProgressStore.mkState
              (ProgressData.progress d)
              (ProgressData.streakDays (ProgressData.stats_ d))
              (ProgressData.lastStudyDate (ProgressData.stats_ d))
              (ProgressData.dailyReviews (ProgressData.stats_ d))
              (ProgressStore.reviewQueue st)
              (ProgressStore.currentReviewIndex st)
              (default 0 (Props.get (ProgressStore.getTodayDateString now)
                            (ProgressData.dailyReviews (ProgressData.stats_ d))))
              storage).
Proof.
  intros Hl. unfold ProgressStore.loadProgress.
  destruct (ProgressService.load _ _) as [data storage]. simpl in Hl.
  subst data. rewrite FromJson_progressData. simpl. eauto.
Qed.

Lemma loadProgress_absent (now : Z) (st : ProgressStore.State) :
  (ProgressService.load ProgressService.STORAGE_KEY
     (ProgressStore.localStorage st)).1 = None ->
  exists storage,
    ProgressStore.loadProgress now st
    = Some (ProgressStore.mkState [] 0 "" [] (ProgressStore.reviewQueue st)
              (ProgressStore.currentReviewIndex st) 0 storage).
Proof.
  intros Hl. unfold ProgressStore.loadProgress.
  destruct (ProgressService.load _ _) as [data storage]. simpl in Hl.
  subst data. eauto.
Qed.

(** X14. Saving and loading again, with a storage that has room: the save
    succeeds and the load brings back the progress list, the streak, the
    date of the last study and the daily counts as they were saved, with
    the count of the day of the load as today's count; the queue and the
    cursor of the session are not touched, and the settings in the storage
    stay as they were. *)
Theorem saveProgress_loadProgress (now : Z) (st : ProgressStore.State) :
  roomy (ProgressStore.localStorage st) ->
  let saved := ProgressStore.saveProgress st in
  saved.1 = true
  /\ (ProgressService.getSettings ProgressService.STORAGE_KEY
        (ProgressStore.localStorage saved.2)).1
     = (ProgressService.getSettings ProgressService.STORAGE_KEY
          (ProgressStore.localStorage st)).1
  /\ exists storage,
       ProgressStore.loadProgress now saved.2
       = Some (ProgressStore.mkState
                 (ProgressStore.progressList st) (ProgressStore.streakDays st)
                 (ProgressStore.lastStudyDate st) (ProgressStore.dailyReviews st)
                 (ProgressStore.reviewQueue st)
                 (ProgressStore.currentReviewIndex st)
                 (default 0 (Props.get (ProgressStore.getTodayDateString now)
                               (ProgressStore.dailyReviews st)))
                 storage).
Proof.
  intros Hr saved.
  destruct (saveProgress_roomy st Hr) as (Hok & Hr' & Hl & Hn & Heq).
  split; [exact Hok|]. split.
  - subst saved. eapply getSettings_loaded in Hl; [exact Hl|exact Hn].
  - subst saved.
    destruct (loadProgress_loaded now _ _ Hl) as [storage Hload].
    exists storage. rewrite Hload.
    assert (ProgressStore.reviewQueue (ProgressStore.saveProgress st).2
            = ProgressStore.reviewQueue st) as ->
      by (rewrite Heq; reflexivity).
    assert (ProgressStore.currentReviewIndex (ProgressStore.saveProgress st).2
            = ProgressStore.currentReviewIndex st) as ->
      by (rewrite Heq; reflexivity).
    reflexivity.
Qed.

(** ** A grading is recorded, counted and saved *)

Lemma saveProgress_refs (st : ProgressStore.State) :
  (ProgressStore.saveProgress st).2
  = ProgressStore.set_localStorage
      (ProgressStore.localStorage (ProgressStore.saveProgress st).2) st.
Proof.
  unfold ProgressStore.saveProgress.
  destruct (ProgressService.getSettings _ _) as [settings storage].
  destruct (ProgressService.save _ _ _) as [saved storage']. reflexivity.
Qed.

Lemma updateStats_refs (now : Z) (st : ProgressStore.State) :
  let st' := ProgressStore.updateStats now st in
  let today := ProgressStore.getTodayDateString now in
  let count := default 0 (Props.get today (ProgressStore.dailyReviews st)) + 1 in
  ProgressStore.progressList st' = ProgressStore.progressList st
  /\ ProgressStore.dailyReviews st'
     = Props.set today count (ProgressStore.dailyReviews st)
  /\ ProgressStore.todayReviewedCount st' = count
  /\ ProgressStore.lastStudyDate st' = today
  /\ ProgressStore.localStorage st' = ProgressStore.localStorage st
  /\ ProgressStore.reviewQueue st' = ProgressStore.reviewQueue st
  /\ ProgressStore.currentReviewIndex st' = ProgressStore.currentReviewIndex st.
Proof.
  unfold ProgressStore.updateStats, ProgressStore.updateStreakDays.
  repeat case_bool_decide; simpl in *; repeat split; congruence.
Qed.

Section GradingFacts.
Context {zone : TimeZone}.

Lemma grade_refs (g : ProgressStore.Grade) (now : Z) (st : ProgressStore.State)
    (word : WordEntry.t) :
  ProgressStore.currentWord st = Some word ->
  let p :=
    match g with
    | ProgressStore.Remember => Scheduler.handleRemember now word
    | ProgressStore.Forget => Scheduler.handleForget now word
    end in
  let st0 := ProgressStore.updateStats now (ProgressStore.updateProgressList p st) in
  let st' := ProgressStore.grade g now st in
  ProgressStore.progressList st' = ProgressStore.progressList st0
  /\ ProgressStore.streakDays st' = ProgressStore.streakDays st0
  /\ ProgressStore.lastStudyDate st' = ProgressStore.lastStudyDate st0
  /\ ProgressStore.dailyReviews st' = ProgressStore.dailyReviews st0
  /\ ProgressStore.todayReviewedCount st' = ProgressStore.todayReviewedCount st0
  /\ ProgressStore.localStorage st'
     = ProgressStore.localStorage (ProgressStore.saveProgress st0).2.
Proof.
  intros Hcur p st0 st'. subst st' st0 p.
  destruct g; simpl.
  - unfold ProgressStore.handleRemember. rewrite Hcur.
    pose proof (saveProgress_refs
                  (ProgressStore.updateStats now
                     (ProgressStore.updateProgressList
                        (Scheduler.handleRemember now word) st))) as Hs.
    destruct (ProgressStore.saveProgress _) as [b s]. simpl in *.
    rewrite Hs. repeat split.
  - unfold ProgressStore.handleForget. rewrite Hcur.
    pose proof (saveProgress_refs
                  (ProgressStore.updateStats now
                     (ProgressStore.updateProgressList
                        (Scheduler.handleForget now word) st))) as Hs.
    destruct (ProgressStore.saveProgress _) as [b s]. simpl in *.
    rewrite Hs. repeat split.
Qed.

(** X15. A grading of the current word, with a storage that has room: the new
    progress is the record found for the word and the records of the other
    words are found as before; the count of the day goes up by one and is
    today's count; and loading the progress again gives back the state the
    grading left. *)
Theorem grading_is_recorded (g : ProgressStore.Grade) (now : Z)
    (st : ProgressStore.State) (word : WordEntry.t) :
  ProgressStore.currentWord st = Some word ->
  roomy (ProgressStore.localStorage st) ->
  let p :=
    match g with
    | ProgressStore.Remember => Scheduler.handleRemember now word
    | ProgressStore.Forget => Scheduler.handleForget now word
    end in
  let st' := ProgressStore.grade g now st in
  let today := ProgressStore.getTodayDateString now in
  ProgressStore.getWordProgress (WordEntry.id word) st' = Some p
  /\ (forall id, id <> WordEntry.id word ->
                ProgressStore.getWordProgress id st'
                = ProgressStore.getWordProgress id st)
  /\ ProgressStore.todayReviewedCount st'
     = default 0 (Props.get today (ProgressStore.dailyReviews st)) + 1
  /\ Props.get today (ProgressStore.dailyReviews st')
     = Some (ProgressStore.todayReviewedCount st')
  /\ ProgressStore.lastStudyDate st' = today
  /\ exists storage,
       ProgressStore.loadProgress now st'
       = Some (ProgressStore.set_localStorage storage st').
Proof.
  intros Hcur Hr p st' today.
  destruct (grade_refs g now st word Hcur) as (Hp & Hs & Hl & Hd & Hc & Hst).
  fold p st' in Hp, Hs, Hl, Hd, Hc, Hst.
  destruct (updateStats_refs now (ProgressStore.updateProgressList p st))
    as (Up & Ud & Uc & Ul & Ust & _ & _).
  fold today in Ud, Uc, Ul.
  assert (WordProgress.id p = WordEntry.id word) as Hid.
  { subst p. destruct g; [apply handleRemember_result|reflexivity]. }
  assert (forall id, ProgressStore.getWordProgress id st'
                     = ProgressStore.getWordProgress id
                         (ProgressStore.updateProgressList p st)) as Hget.
  { intros id. unfold ProgressStore.getWordProgress. rewrite Hp, Up. reflexivity. }
  assert (ProgressStore.dailyReviews (ProgressStore.updateProgressList p st)
          = ProgressStore.dailyReviews st) as Hdl.
  { unfold ProgressStore.updateProgressList.
    destruct (ProgressStore.findIndex _ _); reflexivity. }
  rewrite Hdl in Ud, Uc.
  split.
  { rewrite Hget, updateProgressList_find, Hid.
    rewrite bool_decide_true by reflexivity. reflexivity. }
  split.
  { intros id Hne. rewrite Hget, updateProgressList_find, Hid.
    rewrite bool_decide_false by exact Hne. reflexivity. }
  split; [rewrite Hc; exact Uc|].
  split; [rewrite Hd, Ud, Hc, Uc; apply get_set_eq|].
  split; [rewrite Hl; exact Ul|].
  set (st0 := ProgressStore.updateStats now
                (ProgressStore.updateProgressList p st)) in *.
  assert (roomy (ProgressStore.localStorage st0)) as Hr0.
  { rewrite Ust. unfold ProgressStore.updateProgressList.
    destruct (ProgressStore.findIndex _ _); exact Hr. }
  destruct (saveProgress_roomy st0 Hr0) as (_ & _ & Hload & _ & _).
  rewrite <- Hst in Hload.
  destruct (loadProgress_loaded now st' _ Hload) as [storage Hlp].
  exists storage. rewrite Hlp. simpl.
  rewrite <- Hp, <- Hs, <- Hl, <- Hd.
  assert (default 0 (Props.get (ProgressStore.getTodayDateString now)
                       (ProgressStore.dailyReviews st'))
          = ProgressStore.todayReviewedCount st') as ->.
  { fold today. rewrite Hd, Ud, Hc, Uc, get_set_eq. reflexivity. }
  reflexivity.
Qed.
End GradingFacts.

(** ** Clearing the progress *)

Lemma load_absent (storageKey : string) (st : LocalStorage.t) :
  LocalStorage.items st !! storageKey = None ->
  (ProgressService.load storageKey st).1 = None.
Proof.
  intros Hi. unfold ProgressService.load. rewrite isStorageAvailable_exact.
  destruct (LocalStorage.usable st) eqn:Hu; simpl; [|reflexivity].
  destruct (LocalStorage.fits st _); simpl; [|reflexivity].
  unfold LocalStorage.getItem. simpl.
  destruct (decide (storageKey = ProgressService.testKey)) as [->|Hne].
  - rewrite lookup_delete_eq. reflexivity.
  - rewrite lookup_delete_ne by congruence. rewrite Hi. reflexivity.
Qed.

(** X16. Clearing the progress succeeds exactly when the storage can be used and
    has room for the probe. Then every ref of the store is back to its
    initial value and nothing is left to load; otherwise the store and the
    storage are exactly as they were. *)
Theorem resetProgress_outcome (st : ProgressStore.State) :
  let r := ProgressStore.resetProgress st in
  let storage := ProgressStore.localStorage st in
  r.1 = LocalStorage.usable storage
        && LocalStorage.fits storage
             (<[ProgressService.testKey := PlainText ProgressService.testKey]>
                (LocalStorage.items storage))
  /\ if r.1
     then r.2 = ProgressStore.mkState [] 0 "" [] [] 0 0
                  (ProgressStore.localStorage r.2)
          /\ LocalStorage.items (ProgressStore.localStorage r.2)
             = delete ProgressService.STORAGE_KEY
                 (delete ProgressService.testKey (LocalStorage.items storage))
          /\ (ProgressService.load ProgressService.STORAGE_KEY
                (ProgressStore.localStorage r.2)).1 = None
          /\ ProgressStore.currentWord r.2 = None
     else r.2 = st.
Proof.
  intros r storage. subst r.
  unfold ProgressStore.resetProgress, ProgressService.reset.
  rewrite isStorageAvailable_exact. fold storage.
  destruct (LocalStorage.usable storage) eqn:Hu; simpl.
  - destruct (LocalStorage.fits storage _) eqn:Hf; simpl.
    + unfold LocalStorage.removeItem. simpl.
      split; [reflexivity|]. split; [reflexivity|]. split; [reflexivity|].
      split; [|reflexivity].
      apply load_absent. simpl. apply lookup_delete_eq.
    + split; [reflexivity|]. subst storage. destruct st; reflexivity.
  - split; [reflexivity|]. subst storage. destruct st; reflexivity.
Qed.

(** ** The daily counts *)

Section CountFacts.
Context {zone : TimeZone}.

Lemma grade_daily (g : ProgressStore.Grade) (now : Z) (st : ProgressStore.State) :
  (ProgressStore.currentReviewIndex st
   < length (ProgressStore.reviewQueue st))%nat ->
  let today := ProgressStore.getTodayDateString now in
  let count := default 0 (Props.get today (ProgressStore.dailyReviews st)) + 1 in
  ProgressStore.dailyReviews (ProgressStore.grade g now st)
  = Props.set today count (ProgressStore.dailyReviews st)
  /\ ProgressStore.todayReviewedCount (ProgressStore.grade g now st) = count.
Proof.
  intros Hlt today count.
  destruct (currentWord_in_range st Hlt) as [word Hcur].
  destruct (grade_refs g now st word Hcur) as (_ & _ & _ & Hd & Hc & _).
  rewrite Hd, Hc.
  match goal with
  | |- context [ProgressStore.updateStats now ?s] =>
      destruct (updateStats_refs now s) as (_ & Ud & Uc & _);
      assert (ProgressStore.dailyReviews s = ProgressStore.dailyReviews st) as Hs
  end.
  { unfold ProgressStore.updateProgressList.
    destruct (ProgressStore.findIndex _ _); reflexivity. }
  rewrite Ud, Uc, Hs. split; reflexivity.
Qed.

Lemma gradeAll_daily (today : string) (gs : list (ProgressStore.Grade * Z))
    (st : ProgressStore.State) :
  (forall k, (k < length gs)%nat ->
             ProgressStore.currentWord (ProgressStore.gradeAll (take k gs) st)
             <> None) ->
  Forall (fun g => ProgressStore.getTodayDateString g.2 = today) gs ->
  let st' := ProgressStore.gradeAll gs st in
  default 0 (Props.get today (ProgressStore.dailyReviews st'))
  = default 0 (Props.get today (ProgressStore.dailyReviews st))
    + Z.of_nat (length gs)
  /\ (forall date, date <> today ->
        Props.get date (ProgressStore.dailyReviews st')
        = Props.get date (ProgressStore.dailyReviews st))
  /\ match gs with
     | [] => True
     | _ :: _ =>
         ProgressStore.todayReviewedCount st'
         = default 0 (Props.get today (ProgressStore.dailyReviews st'))
     end.
Proof.
  revert st. induction gs as [|[g now] gs IH]; intros st Hfound Hday st'.
  - subst st'. simpl. split; [lia|]. split; [reflexivity|exact I].
  - apply Forall_cons in Hday as [Hnow Hday]. simpl in Hnow.
    pose proof (found_in_range st (Hfound 0%nat ltac:(simpl; lia))) as Hlt.
    destruct (grade_daily g now st Hlt) as [Hd Hc].
    rewrite Hnow in Hd, Hc.
    destruct (IH (ProgressStore.grade g now st)) as (IH1 & IH2 & IH3).
    { intros k Hk. apply (Hfound (S k)). simpl. lia. }
    { exact Hday. }
    subst st'. change (ProgressStore.gradeAll ((g, now) :: gs) st)
      with (ProgressStore.gradeAll gs (ProgressStore.grade g now st)).
    split.
    { rewrite IH1, Hd, get_set_eq. simpl. lia. }
    split.
    { intros date Hne. rewrite IH2 by exact Hne. rewrite Hd.
      apply get_set_ne. congruence. }
    destruct gs as [|g' gs'].
    + simpl. rewrite Hc, Hd, get_set_eq. reflexivity.
    + exact IH3.
Qed.

(** X17. Gradings on one day (the UTC date the store reads), each finding a
    current word, the words that a forget put back included: the count of
    that day has grown by the number of gradings, the counts of the other
    days are as before, and after at least one grading today's count is the
    count of that day. *)
Theorem gradings_counted (today : string) (gs : list (ProgressStore.Grade * Z))
    (st : ProgressStore.State) :
  (forall k, (k < length gs)%nat ->
             ProgressStore.currentWord (ProgressStore.gradeAll (take k gs) st)
             <> None) ->
  Forall (fun g => ProgressStore.getTodayDateString g.2 = today) gs ->
  let st' := ProgressStore.gradeAll gs st in
  default 0 (Props.get today (ProgressStore.dailyReviews st'))
  = default 0 (Props.get today (ProgressStore.dailyReviews st))
    + Z.of_nat (length gs)
  /\ (forall date, date <> today ->
        Props.get date (ProgressStore.dailyReviews st')
        = Props.get date (ProgressStore.dailyReviews st))
  /\ match gs with
     | [] => True
     | _ :: _ =>
         ProgressStore.todayReviewedCount st'
         = default 0 (Props.get today (ProgressStore.dailyReviews st))
           + Z.of_nat (length gs)
     end.
Proof.
  intros Hfound Hday st'.
  destruct (gradeAll_daily today gs st Hfound Hday) as (H1 & H2 & H3).
  fold st' in H1, H2, H3.
  split; [exact H1|]. split; [exact H2|].
  destruct gs; [exact I|]. rewrite H3. exact H1.
Qed.


Lemma setDate_back (now i : Z) :
  JsDate.setDate now (JsDate.getDate now - i) = now - i * JsDate.msPerDay.
Proof.
  unfold JsDate.setDate, JsDate.getDate.
  pose proof (civilFromDays_valid (JsDate.Day (JsDate.LocalTime now))) as Hv.
  destruct (JsDate.civilFromDays (JsDate.Day (JsDate.LocalTime now)))
    as [[y m] d].
  destruct Hv as (_ & _ & _ & Hday). simpl.
  assert (JsDate.MakeDay y (m - 1) (d - i)
          = JsDate.Day (JsDate.LocalTime now) - i) as ->.
  { rewrite <- Hday. unfold JsDate.MakeDay. lia. }
  unfold JsDate.UTC, JsDate.MakeDate, JsDate.TimeWithinDay, JsDate.Day,
    JsDate.LocalTime, JsDate.msPerDay.
  pose proof (Z.div_mod (now + utcOffset) 86400000). lia.
Qed.


(** X19. In a zone of fixed offset: the week of the statistics has seven
    entries, for the UTC dates of the instants six days ago, five days ago,
    and so on to now, each with the count stored for its date and 0 where
    none is stored; the last entry is today's; the week is the same in
    every such zone. *)
Theorem weeklyData_week (now : Z) (st : ProgressStore.State) :
  ProgressStore.weeklyData now st
  = map (fun i =>
           let date := JsDate.toISODate (now - i * 86400000) in
           {| DailyStudy.date := date;
              DailyStudy.reviewedCount :=
                default 0 (Props.get date (ProgressStore.dailyReviews st)) |})
        [6; 5; 4; 3; 2; 1; 0]
  /\ length (ProgressStore.weeklyData now st) = 7%nat
  /\ last (ProgressStore.weeklyData now st)
     = Some {| DailyStudy.date := ProgressStore.getTodayDateString now;
               DailyStudy.reviewedCount :=
                 default 0 (Props.get (ProgressStore.getTodayDateString now)
                                      (ProgressStore.dailyReviews st)) |}.
Proof.
  assert (ProgressStore.weeklyData now st
          = map (fun i =>
                   let date := JsDate.toISODate (now - i * 86400000) in
                   {| DailyStudy.date := date;
                      DailyStudy.reviewedCount :=
                        default 0 (Props.get date (ProgressStore.dailyReviews st)) |})
                [6; 5; 4; 3; 2; 1; 0]) as Hw.
  { unfold ProgressStore.weeklyData. apply map_ext. intros i.
    rewrite setDate_back. reflexivity. }
  split; [exact Hw|]. split; [reflexivity|].
  rewrite Hw. unfold ProgressStore.getTodayDateString. cbn [map last].
  replace (now - 0 * 86400000) with now by lia. reflexivity.
Qed.
End CountFacts.

(** ** The service and the storage *)

Section ServiceFacts.
Variable storageKey : string.

Lemma load_unusable (st : LocalStorage.t) :
  LocalStorage.usable st = false -> ProgressService.load storageKey st = (None, st).
Proof.
  intros Hu. unfold ProgressService.load.
  rewrite isStorageAvailable_exact, Hu. reflexivity.
Qed.

Lemma save_unusable (data : json) (st : LocalStorage.t) :
  LocalStorage.usable st = false ->
  ProgressService.save storageKey data st = (false, st).
Proof.
  intros Hu. unfold ProgressService.save.
  rewrite isStorageAvailable_exact, Hu. reflexivity.
Qed.

(** X20. A storage that cannot be used (every call throws): nothing is loaded,
    exported or read, the settings are the defaults, nothing is saved,
    cleared, updated or imported, and each call leaves the storage as it
    was. *)
Theorem unusable_storage (now : Z) (data : json) (jsonString : text)
    (settings : list (string * json)) (st : LocalStorage.t) :
  LocalStorage.usable st = false ->
  ProgressService.isStorageAvailable st = (false, st)
  /\ ProgressService.load storageKey st = (None, st)
  /\ ProgressService.save storageKey data st = (false, st)
  /\ ProgressService.reset storageKey st = (false, st)
  /\ ProgressService.getSettings storageKey st
     = (JObject [("voiceType", JString "en-US")], st)
  /\ ProgressService.getAllProgress storageKey st = (JArray [], st)
  /\ ProgressService.getStats storageKey st = (JNull, st)
  /\ ProgressService.updateSettings storageKey settings st = (false, st)
  /\ ProgressService.exportData storageKey now st = (None, st)
  /\ success (ProgressService.importData storageKey jsonString st).1 = false
  /\ (ProgressService.importData storageKey jsonString st).2 = st.
Proof.
  intros Hu.
  assert (ProgressService.isStorageAvailable st = (false, st)) as Ha
    by (rewrite isStorageAvailable_exact, Hu; reflexivity).
  pose proof (load_unusable st Hu) as Hl.
  split; [exact Ha|]. split; [exact Hl|].
  split; [apply save_unusable, Hu|].
  split; [unfold ProgressService.reset; rewrite Ha; reflexivity|].
  split; [unfold ProgressService.getSettings; rewrite Hl; reflexivity|].
  split; [unfold ProgressService.getAllProgress; rewrite Hl; reflexivity|].
  split; [unfold ProgressService.getStats; rewrite Hl; reflexivity|].
  split.
  { unfold ProgressService.updateSettings. rewrite Hl. apply save_unusable, Hu. }
  split; [unfold ProgressService.exportData; rewrite Hl; reflexivity|].
  unfold ProgressService.importData.
  destruct (JSON.parse jsonString) as [v|]; [|split; reflexivity].
  destruct v; try (split; reflexivity);
    (destruct (ProgressService.isValidProgressData _); simpl;
     [rewrite save_unusable by exact Hu|]; split; reflexivity).
Qed.

Lemma load_roomy_exact (st : LocalStorage.t) :
  storageKey <> ProgressService.testKey -> roomy st ->
  (ProgressService.load storageKey st).1
  = match LocalStorage.items st !! storageKey with
    | Some (JsonText v) =>
        if ProgressService.isValidProgressData v then Some v else None
    | _ => None
    end.
Proof.
  intros Hne Hr. unfold ProgressService.load.
  rewrite (isStorageAvailable_roomy st Hr). simpl.
  unfold LocalStorage.getItem. simpl. destruct Hr as [-> _].
  rewrite lookup_delete_ne by congruence.
  destruct (LocalStorage.items st !! storageKey) as [[v|s]|]; simpl;
    try reflexivity.
  - destruct (ProgressService.isValidProgressData v); reflexivity.
  - case_bool_decide; reflexivity.
Qed.

(** X21. Saving and loading, with a storage that has room: [save] stores any
    value, valid or not, and reports success; [load] then gives the value
    back when its top level is valid and nothing otherwise, so that saving
    a value that is not valid loses the snapshot; after [reset] there is
    nothing to load. Whatever was stored under the key of the probe is
    gone. *)
Theorem save_then_load (data : json) (st : LocalStorage.t) :
  storageKey <> ProgressService.testKey -> roomy st ->
  let saved := ProgressService.save storageKey data st in
  let cleared := ProgressService.reset storageKey saved.2 in
  saved.1 = true
  /\ LocalStorage.items saved.2 !! storageKey = Some (JsonText data)
  /\ LocalStorage.items saved.2 !! ProgressService.testKey = None
  /\ (ProgressService.load storageKey saved.2).1
     = (if ProgressService.isValidProgressData data then Some data else None)
  /\ cleared.1 = true
  /\ LocalStorage.items cleared.2 !! storageKey = None
  /\ (ProgressService.load storageKey cleared.2).1 = None.
Proof.
  intros Hne Hr saved cleared. subst cleared saved.
  rewrite (save_roomy storageKey data st Hr). simpl.
  set (st1 := LocalStorage.mk _ _ _).
  assert (roomy st1) as Hr1 by (apply roomy_mk, Hr).
  split; [reflexivity|]. split; [apply lookup_insert_eq|]. split.
  { simpl. rewrite lookup_insert_ne by congruence. apply lookup_delete_eq. }
  split.
  { rewrite (load_roomy_exact st1 Hne Hr1). simpl.
    rewrite lookup_insert_eq. reflexivity. }
  unfold ProgressService.reset.
  rewrite (isStorageAvailable_roomy st1 Hr1). simpl.
  unfold LocalStorage.removeItem. simpl. destruct Hr as [Hu Hf]. rewrite Hu.
  simpl. split; [reflexivity|]. split; [apply lookup_delete_eq|].
  apply load_absent. simpl. apply lookup_delete_eq.
Qed.

Lemma isStorageAvailable_items (st : LocalStorage.t) (k : string) :
  k <> ProgressService.testKey ->
  LocalStorage.items (ProgressService.isStorageAvailable st).2 !! k
  = LocalStorage.items st !! k.
Proof.
  intros Hk. rewrite isStorageAvailable_exact.
  destruct (_ && _); simpl; [|reflexivity].
  apply lookup_delete_ne. congruence.
Qed.

Lemma load_items (st : LocalStorage.t) (k : string) :
  k <> ProgressService.testKey ->
  LocalStorage.items (ProgressService.load storageKey st).2 !! k
  = LocalStorage.items st !! k.
Proof.
  intros Hk. pose proof (isStorageAvailable_items st k Hk) as Ha.
  unfold ProgressService.load.
  destruct (ProgressService.isStorageAvailable st) as [[] st']; simpl in *;
    [|exact Ha].
  destruct (LocalStorage.getItem _ _) as [[raw|]|]; try exact Ha.
  destruct (isEmptyText raw); [exact Ha|].
  destruct (JSON.parse raw) as [v|]; [|exact Ha].
  destruct (ProgressService.isValidProgressData v); exact Ha.
Qed.

Lemma save_items (data : json) (st : LocalStorage.t) (k : string) :
  k <> ProgressService.testKey -> k <> storageKey ->
  LocalStorage.items (ProgressService.save storageKey data st).2 !! k
  = LocalStorage.items st !! k.
Proof.
  intros Hk Hs. pose proof (isStorageAvailable_items st k Hk) as Ha.
  unfold ProgressService.save.
  destruct (ProgressService.isStorageAvailable st) as [[] st']; simpl in *;
    [|exact Ha].
  unfold LocalStorage.setItem. destruct (_ && _); simpl; [|exact Ha].
  rewrite lookup_insert_ne by congruence. exact Ha.
Qed.

Lemma reset_items (st : LocalStorage.t) (k : string) :
  k <> ProgressService.testKey -> k <> storageKey ->
  LocalStorage.items (ProgressService.reset storageKey st).2 !! k
  = LocalStorage.items st !! k.
Proof.
  intros Hk Hs. pose proof (isStorageAvailable_items st k Hk) as Ha.
  unfold ProgressService.reset.
  destruct (ProgressService.isStorageAvailable st) as [[] st']; simpl in *;
    [|exact Ha].
  unfold LocalStorage.removeItem. destruct (LocalStorage.usable st'); simpl;
    [|exact Ha].
  rewrite lookup_delete_ne by congruence. exact Ha.
Qed.

(** X22. The service touches two keys of the storage only, its own and the key
    of the probe: whatever it is asked to do, the item of every other key
    is as it was. *)
Theorem storage_other_keys (now : Z) (data : json) (jsonString : text)
    (settings : list (string * json)) (st : LocalStorage.t) (k : string) :
  k <> ProgressService.testKey -> k <> storageKey ->
  let same (st' : LocalStorage.t) :=
    LocalStorage.items st' !! k = LocalStorage.items st !! k in
  same (ProgressService.isStorageAvailable st).2
  /\ same (ProgressService.load storageKey st).2
  /\ same (ProgressService.save storageKey data st).2
  /\ same (ProgressService.reset storageKey st).2
  /\ same (ProgressService.getSettings storageKey st).2
  /\ same (ProgressService.getAllProgress storageKey st).2
  /\ same (ProgressService.getStats storageKey st).2
  /\ same (ProgressService.updateSettings storageKey settings st).2
  /\ same (ProgressService.exportData storageKey now st).2
  /\ same (ProgressService.importData storageKey jsonString st).2.
Proof.
  intros Hk Hs same. subst same. cbv beta.
  pose proof (load_items st k Hk) as Hl.
  split; [apply isStorageAvailable_items, Hk|].
  split; [exact Hl|].
  split; [apply save_items; assumption|].
  split; [apply reset_items; assumption|].
  split.
  { unfold ProgressService.getSettings.
    destruct (ProgressService.load storageKey st) as [d st'].
    destruct (Js.prop d "settings") as [[]|]; exact Hl. }
  split.
  { unfold ProgressService.getAllProgress.
    destruct (ProgressService.load storageKey st) as [d st'].
    destruct (Js.prop d "progress") as [[]|]; exact Hl. }
  split.
  { unfold ProgressService.getStats.
    destruct (ProgressService.load storageKey st) as [d st'].
    destruct (Js.prop d "stats") as [[]|]; exact Hl. }
  split.
  { unfold ProgressService.updateSettings.
    destruct (ProgressService.load storageKey st) as [d st']. simpl in Hl.
    rewrite save_items by assumption. exact Hl. }
  split.
  { unfold ProgressService.exportData.
    destruct (ProgressService.load storageKey st) as [[d|] st']; exact Hl. }
  unfold ProgressService.importData.
  destruct (JSON.parse jsonString) as [v|]; [|reflexivity].
  destruct v; try reflexivity;
    (destruct (ProgressService.isValidProgressData _); simpl; [|reflexivity];
     match goal with
     | |- context [ProgressService.save storageKey ?d st] =>
         pose proof (save_items d st k Hk Hs) as Hsv;
         destruct (ProgressService.save storageKey d st) as [[] st'];
         exact Hsv
     end).
Qed.
End ServiceFacts.

(** ** The settings *)

Lemma get_app {V : Type} (key : string) (o o' : list (string * V)) :
  Props.get key (o ++ o')
  = match Props.get key o with
    | Some v => Some v
    | None => Props.get key o'
    end.
Proof.
  induction o as [|[k v] o IH]; simpl; [reflexivity|].
  destruct (decide (k = key)); [reflexivity|exact IH].
Qed.

Lemma get_assign (key : string) (target source : list (string * json)) :
  Props.get key (Js.assign target source)
  = match Props.get key (reverse source) with
    | Some v => Some v
    | None => Props.get key target
    end.
Proof.
  unfold Js.assign. revert target.
  induction source as [|[k v] source IH]; intros target; simpl; [reflexivity|].
  rewrite IH, reverse_cons, get_app. simpl.
  destruct (Props.get key (reverse source)); [reflexivity|].
  destruct (decide (k = key)) as [->|Hne].
  - apply get_set_eq.
  - apply get_set_ne. exact Hne.
Qed.

Section SettingsFacts.
Variable storageKey : string.

Lemma updateSettings_roomy (settings : list (string * json)) (st : LocalStorage.t) :
  storageKey <> ProgressService.testKey -> roomy st ->
  exists props current,
    match (ProgressService.load storageKey st).1 with
    | Some data => data
    | None => ToJson.progressData ProgressService.createDefaultProgressData
    end = JObject props
    /\ topLevelValid (JObject props)
    /\ Props.get "settings" props = Some current
    /\ (ProgressService.getSettings storageKey st).1 = current
    /\ ProgressService.updateSettings storageKey settings st
       = ProgressService.save storageKey
           (JObject (Props.set "settings"
                       (JObject (Js.assign (Js.spread current) settings)) props))
           (ProgressService.load storageKey st).2.
Proof.
  intros Hne Hr.
  assert (topLevelValid
            match (ProgressService.load storageKey st).1 with
            | Some data => data
            | None => ToJson.progressData ProgressService.createDefaultProgressData
            end) as Hv.
  { destruct (ProgressService.load storageKey st).1 as [v|] eqn:Hl.
    - apply load_Some in Hl as (_ & _ & Hl).
      apply isValidProgressData_topLevel, Hl.
    - apply isValidProgressData_topLevel, ToJson_valid. exact I. }
  pose proof Hv as (props & ? & ? & ? & ? & ? & ? & current
                    & Hd & _ & _ & _ & _ & _ & _ & _ & Hs & Hn).
  exists props, current. split; [exact Hd|]. rewrite Hd in Hv.
  split; [exact Hv|]. split; [exact Hs|].
  unfold ProgressService.getSettings, ProgressService.updateSettings.
  destruct (ProgressService.load storageKey st) as [[v|] st']; simpl in *.
  - subst v. simpl. rewrite Hs. split; [|reflexivity].
    destruct current; simpl in *; try contradiction; reflexivity.
  - injection Hd as <-. simpl in Hs. injection Hs as <-.
    split; reflexivity.
Qed.

(** X23. Updating the settings, with a storage that has room: the update
    succeeds, each given setting is read back (the last value given for a
    name), the settings not given stay as they were, and the progress
    records are the ones stored before. Without a stored snapshot the
    update writes the default snapshot with the given settings. *)
Theorem updateSettings_getSettings (settings : list (string * json))
    (st : LocalStorage.t) :
  storageKey <> ProgressService.testKey -> roomy st ->
  let updated := ProgressService.updateSettings storageKey settings st in
  let before := (ProgressService.getSettings storageKey st).1 in
  let after := (ProgressService.getSettings storageKey updated.2).1 in
  updated.1 = true
  /\ after = JObject (Js.assign (Js.spread before) settings)
  /\ (forall name,
        Js.getProp after name
        = match Props.get name (reverse settings) with
          | Some v => Some v
          | None => Props.get name (Js.spread before)
          end)
  /\ (ProgressService.getAllProgress storageKey updated.2).1
     = (ProgressService.getAllProgress storageKey st).1
  /\ (ProgressService.getStats storageKey updated.2).1
     = match (ProgressService.load storageKey st).1 with
       | Some _ => (ProgressService.getStats storageKey st).1
       | None =>
           ToJson.stats
             (ProgressData.stats_ ProgressService.createDefaultProgressData)
       end.
Proof.
  intros Hne Hr updated before after.
  destruct (updateSettings_roomy settings st Hne Hr)
    as (props & current & Hd & Hv & Hs & Hg & Hu).
  assert (roomy (ProgressService.load storageKey st).2) as Hr1.
  { rewrite (load_storage_roomy storageKey st Hr). apply roomy_mk, Hr. }
  set (merged := JObject (Js.assign (Js.spread current) settings)) in *.
  set (data' := JObject (Props.set "settings" merged props)) in *.
  assert (topLevelValid data') as Hv'.
  { destruct Hv as (q & version & items & stats & streakDays & lastStudyDate
                    & dailyReviews & settings0 & [= <-] & H1 & H2 & H3 & H4
                    & H5 & H6 & H7 & H8 & H9).
    exists (Props.set "settings" merged props), version, items, stats,
      streakDays, lastStudyDate, dailyReviews, merged.
    rewrite !get_set_ne by discriminate. rewrite get_set_eq.
    repeat split; try assumption. }
  assert ((ProgressService.load storageKey updated.2).1 = Some data') as Hl'.
  { subst updated. rewrite Hu, (save_roomy storageKey data' _ Hr1). simpl.
    apply load_roomy.
    - exact Hne.
    - apply roomy_mk, Hr1.
    - simpl. apply lookup_insert_eq.
    - apply isValidProgressData_topLevel, Hv'. }
  assert (after = merged) as Ha.
  { subst after. unfold ProgressService.getSettings.
    destruct (ProgressService.load storageKey updated.2) as [d s]. simpl in Hl'.
    subst d. simpl. rewrite get_set_eq. reflexivity. }
  split.
  { subst updated. rewrite Hu, (save_roomy storageKey data' _ Hr1). reflexivity. }
  split; [subst before; rewrite Ha, Hg; reflexivity|].
  split.
  { intros name. rewrite Ha. subst before. rewrite Hg. simpl. apply get_assign. }
  destruct Hv as (q & version & items & stats & streakDays & lastStudyDate
                  & dailyReviews & settings0 & [= <-] & H1 & H2 & H3 & _).
  split.
  - unfold ProgressService.getAllProgress.
    destruct (ProgressService.load storageKey updated.2) as [d s]. simpl in Hl'.
    subst d. simpl. rewrite get_set_ne by discriminate. rewrite H2.
    destruct (ProgressService.load storageKey st) as [[v|] s']; simpl in *.
    + subst v. simpl. rewrite H2. reflexivity.
    + injection Hd as <-. simpl in H2. injection H2 as <-. reflexivity.
  - unfold ProgressService.getStats.
    destruct (ProgressService.load storageKey updated.2) as [d s]. simpl in Hl'.
    subst d. simpl. rewrite get_set_ne by discriminate. rewrite H3.
    destruct (ProgressService.load storageKey st) as [[v|] s']; simpl in *.
    + subst v. simpl. rewrite H3. reflexivity.
    + injection Hd as <-. simpl in H3. injection H3 as <-. reflexivity.
Qed.
End SettingsFacts.

(** ** The ids and the entries of the catalog *)

Lemma splitYMD_length (s : string) (r : Z * Z * Z) :
  JsDate.splitYMD s = Some r -> String.length s = 10%nat.
Proof.
  unfold JsDate.splitYMD.
  destruct s as [|c1 s]; [discriminate|].
  destruct s as [|c2 s]; [discriminate|].
  destruct s as [|c3 s]; [discriminate|].
  destruct s as [|c4 s]; [discriminate|].
  destruct s as [|c5 s]; [discriminate|].
  destruct s as [|c6 s];
    [simpl; destruct c5 as [[] [] [] [] [] [] [] []]; discriminate|].
  destruct s as [|c7 s];
    [simpl; destruct c5 as [[] [] [] [] [] [] [] []]; discriminate|].
  destruct s as [|c8 s];
    [simpl; destruct c5 as [[] [] [] [] [] [] [] []]; discriminate|].
  destruct s as [|c9 s];
    [simpl; destruct c5 as [[] [] [] [] [] [] [] []];
     try discriminate; destruct c8 as [[] [] [] [] [] [] [] []]; discriminate|].
  destruct s as [|c10 s];
    [simpl; destruct c5 as [[] [] [] [] [] [] [] []];
     try discriminate; destruct c8 as [[] [] [] [] [] [] [] []]; discriminate|].
  destruct s as [|c11 s]; [reflexivity|].
  simpl. destruct c5 as [[] [] [] [] [] [] [] []]; try discriminate;
    destruct c8 as [[] [] [] [] [] [] [] []]; discriminate.
Qed.

Lemma append_inj_length (a a' b b' : string) :
  String.length a = String.length a' ->
  a +:+ b = a' +:+ b' -> a = a' /\ b = b'.
Proof.
  revert a'. induction a as [|c a IH]; intros [|c' a'] Hlen Heq;
    try discriminate.
  - auto.
  - simpl in Hlen, Heq. injection Heq as -> Heq. injection Hlen as Hlen.
    destruct (IH a' Hlen Heq) as [-> ->]. auto.
Qed.

Lemma generateWordId_split (date date' word word' : string) :
  String.length date = String.length date' ->
  WordLoader.generateWordId date word = WordLoader.generateWordId date' word' ->
  date = date' /\ word = word'.
Proof.
  unfold WordLoader.generateWordId. intros Hlen Heq.
  apply append_inj_length in Heq as [-> Heq]; [|exact Hlen].
  split; [reflexivity|].
  apply (append_inj_length "_" "_") in Heq as [_ Heq]; [exact Heq|reflexivity].
Qed.

Section CatalogFacts.
Context {zone : TimeZone}.

Lemma isValidDateFormat_length (s : string) :
  WordLoader.isValidDateFormat s = true -> String.length s = 10%nat.
Proof.
  intros Hv. apply isValidDateFormat_parts in Hv as (y & m & d & Hs & _).
  apply (splitYMD_length s _ Hs).
Qed.

Lemma mergeOne_id (progressMap : gmap string WordProgress.t) (w : DatedWord.t)
    (e : WordEntry.t) :
  WordLoader.mergeOne progressMap w = Some e ->
  WordEntry.id e
  = WordLoader.generateWordId (DatedWord.date w) (RawWord.word (DatedWord.raw w)).
Proof.
  unfold WordLoader.mergeOne, WordLoader.createWordEntry.
  destruct (progressMap !! _); [intros [= <-]; reflexivity|].
  destruct (Scheduler.calculateInitialReview _); simpl; [|discriminate].
  intros [= <-]. reflexivity.
Qed.

Lemma mergeWithProgress_ids (words : list DatedWord.t)
    (progress : list WordProgress.t) (entries : list WordEntry.t) :
  WordLoader.mergeWithProgress words progress = Some entries ->
  map WordEntry.id entries
  = map (fun w => WordLoader.generateWordId (DatedWord.date w)
                    (RawWord.word (DatedWord.raw w))) words.
Proof.
  unfold WordLoader.mergeWithProgress. intros H.
  apply mapM_Some in H.
  induction H as [|w e words entries Hw _ IH]; [reflexivity|].
  simpl. rewrite IH, (mergeOne_id _ _ _ Hw). reflexivity.
Qed.

(** X24. Ids of the catalog: two words of valid dates have the same id only when
    they have the same date and the same spelling, so a catalog of valid
    dates that repeats no word of a date is merged into entries of distinct
    ids, in the order of the catalog. *)
Theorem generateWordId_distinct (words : list DatedWord.t)
    (progress : list WordProgress.t) (entries : list WordEntry.t) :
  Forall (fun w => WordLoader.isValidDateFormat (DatedWord.date w) = true) words ->
  NoDup (map (fun w => (DatedWord.date w, RawWord.word (DatedWord.raw w))) words) ->
  WordLoader.mergeWithProgress words progress = Some entries ->
  (forall date date' word word',
      WordLoader.isValidDateFormat date = true ->
      WordLoader.isValidDateFormat date' = true ->
      WordLoader.generateWordId date word = WordLoader.generateWordId date' word' ->
      date = date' /\ word = word')
  /\ map WordEntry.id entries
     = map (fun w => WordLoader.generateWordId (DatedWord.date w)
                       (RawWord.word (DatedWord.raw w))) words
  /\ NoDup (map WordEntry.id entries).
Proof.
  intros Hvalid Hnd Hmerge.
  assert (forall date date' word word',
             WordLoader.isValidDateFormat date = true ->
             WordLoader.isValidDateFormat date' = true ->
             WordLoader.generateWordId date word
             = WordLoader.generateWordId date' word' ->
             date = date' /\ word = word') as Hinj.
  { intros date date' word word' Hd Hd'. apply generateWordId_split.
    rewrite (isValidDateFormat_length _ Hd), (isValidDateFormat_length _ Hd').
    reflexivity. }
  split; [exact Hinj|]. split; [apply (mergeWithProgress_ids _ _ _ Hmerge)|].
  rewrite (mergeWithProgress_ids _ _ _ Hmerge). clear Hmerge entries.
  induction words as [|w words IH]; simpl; [constructor|].
  apply Forall_cons in Hvalid as [Hw Hvalid].
  simpl in Hnd. apply NoDup_cons in Hnd as [Hnot Hnd].
  apply NoDup_cons. split; [|apply IH; assumption].
  intros Hin. apply Hnot.
  apply list_elem_of_In, in_map_iff in Hin as (w' & Heq & Hin').
  apply list_elem_of_In, in_map_iff. exists w'. split; [|exact Hin'].
  assert (WordLoader.isValidDateFormat (DatedWord.date w') = true) as Hw'.
  { rewrite Forall_forall in Hvalid. apply Hvalid, list_elem_of_In, Hin'. }
  destruct (Hinj _ _ _ _ Hw' Hw Heq) as [-> ->]. reflexivity.
Qed.

Lemma mergeOne_overlay (progress : list WordProgress.t) (w : DatedWord.t)
    (e : WordEntry.t) :
  WordLoader.mergeOne ∅ w = Some e ->
  WordLoader.mergeOne (WordLoader.buildProgressMap progress) w
  = Some match WordLoader.buildProgressMap progress !! WordEntry.id e with
         | Some p => refreshed e p
         | None => e
         end.
Proof.
  intros He. pose proof (mergeOne_id _ _ _ He) as Hid.
  unfold WordLoader.mergeOne in *. rewrite lookup_empty in He.
  rewrite Hid.
  destruct (WordLoader.buildProgressMap progress !! _) as [p|]; [|exact He].
  unfold WordLoader.createWordEntry in He.
  destruct (Scheduler.calculateInitialReview _); simpl in He; [|discriminate].
  injection He as <-. reflexivity.
Qed.

(** X25. Merging a catalog with a progress list is merging it with no progress
    and then laying the progress over the entries, as the vocabulary store
    does when the progress changes; the overlay keeps the ids and the
    catalog fields of the entries. *)
Theorem mergeWithProgress_overlay (words : list DatedWord.t)
    (progress : list WordProgress.t) (fresh : list WordEntry.t) :
  WordLoader.mergeWithProgress words [] = Some fresh ->
  WordLoader.mergeWithProgress words progress
  = Some (VocabularyStore.updateWordsFromProgress progress fresh)
  /\ map WordEntry.id (VocabularyStore.updateWordsFromProgress progress fresh)
     = map WordEntry.id fresh
  /\ map WordEntry.word (VocabularyStore.updateWordsFromProgress progress fresh)
     = map WordEntry.word fresh
  /\ map WordEntry.addedDate
         (VocabularyStore.updateWordsFromProgress progress fresh)
     = map WordEntry.addedDate fresh
  /\ VocabularyStore.updateWordsFromProgress [] fresh = fresh.
Proof.
  intros Hfresh. unfold WordLoader.mergeWithProgress in *.
  change (WordLoader.buildProgressMap []) with (∅ : gmap string WordProgress.t)
    in Hfresh.
  apply mapM_Some in Hfresh.
  split.
  { apply mapM_Some. unfold VocabularyStore.updateWordsFromProgress.
    induction Hfresh as [|w e words fresh Hw _ IH]; simpl; [constructor|].
    constructor; [|exact IH].
    rewrite (mergeOne_overlay progress w e Hw). reflexivity. }
  unfold VocabularyStore.updateWordsFromProgress.
  repeat split.
  - rewrite map_map. apply map_ext. intros e.
    destruct (_ !! _); reflexivity.
  - rewrite map_map. apply map_ext. intros e.
    destruct (_ !! _); reflexivity.
  - rewrite map_map. apply map_ext. intros e.
    destruct (_ !! _); reflexivity.
  - change (WordLoader.buildProgressMap [])
      with (∅ : gmap string WordProgress.t).
    rewrite <- (map_id fresh) at 2. apply map_ext. intros e.
    rewrite lookup_empty. reflexivity.
Qed.

Lemma createWordEntry_valid (rawWord : RawWord.t) (addedDate : string) :
  WordLoader.isValidDateFormat addedDate = true ->
  exists entry y m d,
    WordLoader.createWordEntry rawWord addedDate = Some entry
    /\ JsDate.splitYMD addedDate = Some (y, m, d)
    /\ 100 <= y /\ isCalendarDate y m d
    /\ WordEntry.nextReviewAt entry
       = JsDate.MakeDay y (m - 1) d * 86400000 - utcOffset
    /\ WordEntry.memoryStatus entry = new
    /\ WordEntry.addedDate entry = addedDate.
Proof.
  intros Hv. apply isValidDateFormat_parts in Hv as (y & m & d & Hs & Hy & Hdate).
  assert ((if (0 <=? y) && (y <=? 99) then 1900 + y else y) = y) as Hyr.
  { destruct (Z.leb_spec 0 y); [|reflexivity].
    destruct (Z.leb_spec y 99); [lia|reflexivity]. }
  assert (Scheduler.calculateInitialReview addedDate
          = Some (JsDate.MakeDay y (m - 1) d * 86400000 - utcOffset)) as Hc.
  { rewrite calculateInitialReview_parse. unfold Scheduler.parseDateString.
    rewrite Hs. simpl. f_equal.
    unfold JsDate.ofLocalYMD, JsDate.UTC, JsDate.MakeDate, JsDate.MakeTime,
      JsDate.msPerDay. rewrite Hyr. lia. }
  unfold WordLoader.createWordEntry. rewrite Hc. simpl.
  eexists _, y, m, d. split; [reflexivity|]. split; [exact Hs|].
  split; [exact Hy|]. split; [exact Hdate|]. repeat split.
Qed.

Lemma due_from_day (now n due : Z) :
  due = n * 86400000 - utcOffset ->
  (due <= Scheduler.getEndOfDay now <-> n <= JsDate.Day (JsDate.LocalTime now))
  /\ (Scheduler.getStartOfDay now <= due <= Scheduler.getEndOfDay now
      <-> n = JsDate.Day (JsDate.LocalTime now)).
Proof.
  intros ->.
  pose proof (getStartOfDay_spec now) as [Hmid Hin].
  pose proof (getEndOfDay_spec now) as Hend. rewrite DAY_MS_value in *.
  assert (Scheduler.getStartOfDay now
          = JsDate.Day (JsDate.LocalTime now) * 86400000 - utcOffset) as Hstart.
  { unfold Scheduler.getStartOfDay, JsDate.setHours, JsDate.UTC,
      JsDate.MakeDate, JsDate.MakeTime, JsDate.msPerDay. lia. }
  lia.
Qed.

(** X26. A fresh entry of a valid date is due from the local day of that date
    on: it is among the words to review at an instant exactly when the
    local day of the instant is not before the date, and it is due today
    exactly on that day. *)
Theorem fresh_entry_due (rawWord : RawWord.t) (addedDate : string) (now : Z) :
  WordLoader.isValidDateFormat addedDate = true ->
  exists entry y m d,
    WordLoader.createWordEntry rawWord addedDate = Some entry
    /\ JsDate.splitYMD addedDate = Some (y, m, d)
    /\ WordEntry.nextReviewAt entry
       = JsDate.MakeDay y (m - 1) d * 86400000 - utcOffset
    /\ (In entry (Scheduler.getTodayReviewWords now [entry])
        <-> JsDate.MakeDay y (m - 1) d <= JsDate.Day (JsDate.LocalTime now))
    /\ (inUrgency now entry DueToday
        <-> JsDate.MakeDay y (m - 1) d = JsDate.Day (JsDate.LocalTime now)).
Proof.
  intros Hv.
  destruct (createWordEntry_valid rawWord addedDate Hv)
    as (entry & y & m & d & He & Hs & _ & _ & Hn & Hm & _).
  exists entry, y, m, d. split; [exact He|]. split; [exact Hs|].
  split; [exact Hn|].
  destruct (due_from_day now _ _ Hn) as [Hdue Htoday].
  split.
  - rewrite getTodayReviewWords_In, Hm, <- Hdue. split.
    + intros (_ & _ & Hle). exact Hle.
    + intros Hle. split; [left; reflexivity|]. split; [discriminate|exact Hle].
  - exact Htoday.
Qed.

(** X27. The new words of today are picked by the UTC date and the words to
    review by the local day. A fresh entry that is a new word of today (in
    the years 0000 to 9999) is among the words to review exactly when the
    local clock is not a day behind UTC: always in a zone at or east of UTC,
    and in a zone west of it only once the UTC day is as old as the
    offset. *)
Theorem new_word_of_today (rawWord : RawWord.t) (addedDate : string)
    (entry : WordEntry.t) (now : Z) (words : list WordEntry.t) :
  WordLoader.isValidDateFormat addedDate = true ->
  WordLoader.createWordEntry rawWord addedDate = Some entry ->
  0 <= (JsDate.civilFromDays (JsDate.Day now)).1.1 <= 9999 ->
  In entry (Scheduler.getTodayNewWords now words) ->
  WordEntry.nextReviewAt entry = JsDate.Day now * 86400000 - utcOffset
  /\ (In entry (Scheduler.getTodayReviewWords now words)
      <-> 0 <= now mod 86400000 + utcOffset).
Proof.
  intros Hv He Hyear Hnew.
  destruct (createWordEntry_valid rawWord addedDate Hv)
    as (entry' & y & m & d & He' & Hs & _ & _ & Hn & Hm & Ha).
  rewrite He in He'. injection He' as <-.
  unfold Scheduler.getTodayNewWords in Hnew.
  apply filter_In in Hnew as [Hin Hnew].
  apply andb_prop in Hnew as [Hdate _]. apply bool_decide_eq_true in Hdate.
  rewrite Ha in Hdate.
  pose proof (parse_toISODate now Hyear) as Hp. rewrite <- Hdate in Hp.
  unfold JsDate.parse in Hp. rewrite Hs in Hp. simpl in Hp.
  destruct (_ && _) in Hp; [|discriminate].
  injection Hp as Hp. unfold JsDate.MakeDate in Hp.
  assert (JsDate.MakeDay y (m - 1) d = JsDate.Day now) as Hday
    by (unfold JsDate.msPerDay in Hp; lia).
  rewrite Hday in Hn. split; [exact Hn|].
  destruct (due_from_day now _ _ Hn) as [Hdue _].
  rewrite getTodayReviewWords_In, Hm, Hdue.
  assert (JsDate.Day now <= JsDate.Day (JsDate.LocalTime now)
          <-> 0 <= now mod 86400000 + utcOffset) as <-.
  { unfold JsDate.Day, JsDate.LocalTime, JsDate.msPerDay.
    pose proof (Z.div_mod now 86400000 ltac:(lia)) as Hnow.
    pose proof (Z.mod_pos_bound now 86400000 ltac:(lia)) as Hb.
    replace (now + utcOffset)
      with (now mod 86400000 + utcOffset + now / 86400000 * 86400000) by lia.
    rewrite Z.div_add by lia.
    split; intros H.
    - destruct (Z.le_gt_cases 0 (now mod 86400000 + utcOffset)) as [|Hneg];
        [assumption|].
      assert ((now mod 86400000 + utcOffset) / 86400000 < 0)
        by (apply Z.div_lt_upper_bound; lia).
      lia.
    - assert (0 <= (now mod 86400000 + utcOffset) / 86400000)
        by (apply Z.div_pos; lia).
      lia. }
  split.
  - intros (_ & _ & Hle). exact Hle.
  - intros Hle. split; [exact Hin|]. split; [discriminate|exact Hle].
Qed.
End CatalogFacts.

(** ** Instances *)

Lemma day_bracket_witness :
  Scheduler.getStartOfDay (zone := zoneCST) Example.now
  <= Scheduler.getStartOfDay (zone := zoneCST) (Example.now + 3600000).
Proof.
  destruct (day_bracket (zone := zoneCST) Example.now) as (_ & _ & _ & _ & _ & H).
  apply H. lia.
Defined.

Lemma calculateNextReview_later_witness :
  Scheduler.calculateNextReview (zone := zoneCST) Stage1 Example.now
  <= Scheduler.calculateNextReview (zone := zoneCST) Stage3 Example.now.
Proof.
  destruct (calculateNextReview_later (zone := zoneCST) Stage1 Example.now)
    as (_ & _ & _ & _ & H & _).
  apply H. simpl. lia.
Defined.

Lemma getTodayReviewWords_due_witness :
  Scheduler.getTodayReviewWords (zone := zoneCST) Example.todayStart
    [Example.overdue; Example.today; Example.future; Example.known]
  = Scheduler.getTodayReviewWords (zone := zoneCST) Example.now
      [Example.overdue; Example.today; Example.future; Example.known].
Proof.
  destruct (getTodayReviewWords_due (zone := zoneCST) Example.now
              [Example.overdue; Example.today; Example.future; Example.known])
    as (_ & _ & _ & H).
  apply H. vm_compute. reflexivity.
Defined.

Lemma graded_word_leaves_today_witness :
  let st := ProgressStore.mkState [] 0 "" [] [Example.overdue; Example.today]
              0 0 (LocalStorage.mk true (fun _ => true) ∅) in
  let words := [Example.today; Example.overdue; Example.future] in
  let page := ReviewPage.handleForget (zone := zoneCST) Example.now (st, words) in
  VocabularyStore.getWordById "overdue" page.2
  = Some (refreshed Example.overdue
            (Scheduler.handleForget (zone := zoneCST) Example.now
                                    Example.overdue))
  /\ In Example.today
        (Scheduler.getTodayReviewWords (zone := zoneCST) Example.now page.2).
Proof.
  intros st words page.
  destruct (graded_word_leaves_today (zone := zoneCST) ProgressStore.Forget
              Example.now st words Example.overdue Example.overdue)
    as (_ & _ & Hw & _ & _ & Hdue).
  - reflexivity.
  - reflexivity.
  - apply (bool_decide_unpack _). vm_compute. exact I.
  - split; [exact Hw|].
    apply (Hdue Example.now Example.today eq_refl).
    split; [vm_compute; tauto|discriminate].
Defined.

Lemma cursor_within_queue_witness :
  let st := ProgressStore.mkState [] 0 "" [] [Example.overdue; Example.today]
              2 0 (LocalStorage.mk true (fun _ => true) ∅) in
  (ProgressStore.currentReviewIndex
     (ProgressStore.handleForget (zone := zoneCST) Example.now st).2
   <= length (ProgressStore.reviewQueue
                (ProgressStore.handleForget (zone := zoneCST) Example.now st).2))%nat
  /\ (ProgressStore.currentReviewIndex (ProgressStore.skipCurrentWord st)
      <= length (ProgressStore.reviewQueue (ProgressStore.skipCurrentWord st)))%nat.
Proof.
  intros st.
  destruct (cursor_within_queue (zone := zoneCST) Example.now [] [] st)
    as (_ & _ & [Hf _] & _ & [Hs _] & _).
  - simpl. lia.
  - split; [exact Hf|exact Hs].
Defined.

Lemma reviewProgress_counts_witness :
  let st := ProgressStore.mkState [] 0 "" [] [Example.overdue]
              0 0 (LocalStorage.mk true (fun _ => true) ∅) in
  let gs := [(ProgressStore.Forget, Example.now);
             (ProgressStore.Remember, Example.now)] in
  ProgressStore.total
    (ProgressStore.reviewProgress (ProgressStore.gradeAll (zone := zoneCST) gs st))
  = 2
  /\ ProgressStore.isReviewComplete (ProgressStore.gradeAll (zone := zoneCST) gs st)
     = true.
Proof.
  intros st gs.
  destruct (reviewProgress_counts (zone := zoneCST) gs st)
    as (_ & Ht & Hr & (_ & Hc) & _).
  - intros k Hk. destruct k as [|[|k]]; [vm_compute; discriminate..|].
    simpl in Hk. lia.
  - split; [exact Ht|]. apply Hc. rewrite Hr. reflexivity.
Defined.

Lemma updateProgressList_lookup_witness :
  let p := WordProgress.mk "a" Stage2 0 learning None in
  let q := WordProgress.mk "b" Stage1 0 learning None in
  let st := ProgressStore.mkState [WordProgress.mk "a" Stage1 0 learning None; q]
              0 "" [] [] 0 0 (LocalStorage.mk true (fun _ => true) ∅) in
  ProgressStore.getWordProgress "b" (ProgressStore.updateProgressList p st)
  = Some q.
Proof.
  intros p q st.
  destruct (updateProgressList_lookup p st) as (_ & H & _).
  apply (H "b"). discriminate.
Defined.

Lemma progress_one_record_per_id_witness :
  let p := WordProgress.mk "c" Stage2 0 learning None in
  let st := ProgressStore.mkState
              [WordProgress.mk "a" Stage1 0 learning None;
               WordProgress.mk "b" Stage1 0 learning None]
              0 "" [] [] 0 0 (LocalStorage.mk true (fun _ => true) ∅) in
  NoDup (map WordProgress.id
           (ProgressStore.progressList (ProgressStore.updateProgressList p st))).
Proof.
  intros p st.
  destruct (progress_one_record_per_id p st) as (H & _).
  - apply (bool_decide_unpack _). vm_compute. exact I.
  - exact H.
Defined.

Lemma roomy_example (items : gmap string text) :
  roomy (LocalStorage.mk true (fun _ => true) items).
Proof. split; [reflexivity|intros; reflexivity]. Defined.

Lemma saveProgress_loadProgress_witness :
  let st := ProgressStore.mkState
              [WordProgress.mk "a" Stage1 0 learning (Some 5)]
              3 "2026-01-11" [("2026-01-11", 4)] [Example.today] 0 4
              (LocalStorage.mk true (fun _ => true) ∅) in
  exists storage,
    ProgressStore.loadProgress Example.now (ProgressStore.saveProgress st).2
    = Some (ProgressStore.mkState
              [WordProgress.mk "a" Stage1 0 learning (Some 5)]
              3 "2026-01-11" [("2026-01-11", 4)] [Example.today] 0 4 storage).
Proof.
  intros st.
  destruct (saveProgress_loadProgress Example.now st) as (_ & _ & storage & H).
  - apply roomy_example.
  - exists storage. exact H.
Defined.

Lemma grading_is_recorded_witness :
  let st := ProgressStore.mkState [] 0 "" [] [Example.overdue; Example.today]
              0 0 (LocalStorage.mk true (fun _ => true) ∅) in
  let st' := ProgressStore.grade (zone := zoneCST) ProgressStore.Forget
               Example.now st in
  ProgressStore.getWordProgress "overdue" st'
  = Some (Scheduler.handleForget (zone := zoneCST) Example.now Example.overdue)
  /\ ProgressStore.todayReviewedCount st' = 1
  /\ exists storage,
       ProgressStore.loadProgress Example.now st'
       = Some (ProgressStore.set_localStorage storage st').
Proof.
  intros st st'.
  destruct (grading_is_recorded (zone := zoneCST) ProgressStore.Forget
              Example.now st Example.overdue)
    as (Hp & _ & Hc & _ & _ & Hl).
  - reflexivity.
  - apply roomy_example.
  - split; [exact Hp|]. split; [exact Hc|exact Hl].
Defined.

Lemma gradings_counted_witness :
  let st := ProgressStore.mkState [] 0 "" [("2026-01-11", 4)]
              [Example.overdue]
              0 4 (LocalStorage.mk true (fun _ => true) ∅) in
  let gs := [(ProgressStore.Forget, Example.now);
             (ProgressStore.Remember, Example.now + 1000)] in
  ProgressStore.todayReviewedCount (ProgressStore.gradeAll (zone := zoneCST) gs st)
  = 6.
Proof.
  intros st gs.
  destruct (gradings_counted (zone := zoneCST) "2026-01-11" gs st)
    as (_ & _ & H).
  - intros k Hk. destruct k as [|[|k]]; [vm_compute; discriminate..|].
    simpl in Hk. lia.
  - repeat constructor.
  - exact H.
Defined.

Lemma unusable_storage_witness :
  let st := LocalStorage.mk false (fun _ => true)
              {[ ProgressService.STORAGE_KEY := JsonText Example.snapshot ]} in
  ProgressService.load ProgressService.STORAGE_KEY st = (None, st)
  /\ ProgressService.save ProgressService.STORAGE_KEY Example.snapshot st
     = (false, st).
Proof.
  intros st.
  destruct (unusable_storage ProgressService.STORAGE_KEY Example.now
              Example.snapshot (JsonText Example.snapshot) [] st)
    as (_ & Hl & Hs & _).
  - reflexivity.
  - split; [exact Hl|exact Hs].
Defined.

Lemma save_then_load_witness :
  let st := LocalStorage.mk true (fun _ => true) ∅ in
  (ProgressService.load ProgressService.STORAGE_KEY
     (ProgressService.save ProgressService.STORAGE_KEY Example.snapshot st).2).1
  = Some Example.snapshot
  /\ (ProgressService.load ProgressService.STORAGE_KEY
        (ProgressService.save ProgressService.STORAGE_KEY (JNumber 7) st).2).1
     = None.
Proof.
  intros st. split.
  - destruct (save_then_load ProgressService.STORAGE_KEY Example.snapshot st)
      as (_ & _ & _ & H & _).
    + discriminate.
    + apply roomy_example.
    + exact H.
  - destruct (save_then_load ProgressService.STORAGE_KEY (JNumber 7) st)
      as (_ & _ & _ & H & _).
    + discriminate.
    + apply roomy_example.
    + exact H.
Defined.

Lemma storage_other_keys_witness :
  let st := LocalStorage.mk true (fun _ => true)
              {[ "theme" := PlainText "dark" ]} in
  LocalStorage.items
    (ProgressService.save ProgressService.STORAGE_KEY Example.snapshot st).2
    !! "theme"
  = Some (PlainText "dark").
Proof.
  intros st.
  destruct (storage_other_keys ProgressService.STORAGE_KEY Example.now
              Example.snapshot (JsonText Example.snapshot) [] st "theme")
    as (_ & _ & H & _).
  - discriminate.
  - discriminate.
  - rewrite H. reflexivity.
Defined.

Lemma updateSettings_getSettings_witness :
  let st := Example.storageWith Example.snapshot in
  (ProgressService.getSettings ProgressService.STORAGE_KEY
     (ProgressService.updateSettings ProgressService.STORAGE_KEY
        [("voiceType", JString "en-US")] st).2).1
  = JObject [("voiceType", JString "en-US")].
Proof.
  intros st.
  destruct (updateSettings_getSettings ProgressService.STORAGE_KEY
              [("voiceType", JString "en-US")] st) as (_ & H & _).
  - discriminate.
  - apply roomy_example.
  - rewrite H. vm_compute. reflexivity.
Defined.

Lemma generateWordId_distinct_witness :
  let words :=
    [DatedWord.mk (RawWord.mk "apple" "a fruit" None) "2026-01-09";
     DatedWord.mk (RawWord.mk "apple" "a fruit" None) "2026-01-10";
     DatedWord.mk (RawWord.mk "pear" "a fruit" None) "2026-01-10"] in
  match WordLoader.mergeWithProgress (zone := zoneCST) words [] with
  | Some entries => NoDup (map WordEntry.id entries)
  | None => False
  end.
Proof.
  intros words.
  destruct (WordLoader.mergeWithProgress (zone := zoneCST) words []) as [entries|]
    eqn:Hm.
  - destruct (generateWordId_distinct (zone := zoneCST) words [] entries)
      as (_ & _ & H).
    + repeat constructor.
    + apply (bool_decide_unpack _). vm_compute. exact I.
    + exact Hm.
    + exact H.
  - vm_compute in Hm. discriminate.
Defined.

Lemma mergeWithProgress_overlay_witness :
  let words :=
    [DatedWord.mk (RawWord.mk "apple" "a fruit" None) "2026-01-09";
     DatedWord.mk (RawWord.mk "pear" "a fruit" None) "2026-01-10"] in
  let progress :=
    [WordProgress.mk "2026-01-10_pear" Stage2 1768233600000 learning (Some 5)] in
  match WordLoader.mergeWithProgress (zone := zoneCST) words [] with
  | Some fresh =>
      WordLoader.mergeWithProgress (zone := zoneCST) words progress
      = Some (VocabularyStore.updateWordsFromProgress progress fresh)
  | None => False
  end.
Proof.
  intros words progress.
  destruct (WordLoader.mergeWithProgress (zone := zoneCST) words []) as [fresh|]
    eqn:Hm.
  - destruct (mergeWithProgress_overlay (zone := zoneCST) words progress fresh Hm)
      as (H & _).
    exact H.
  - vm_compute in Hm. discriminate.
Defined.

Lemma fresh_entry_due_witness :
  exists entry,
    WordLoader.createWordEntry (zone := zoneCST)
      (RawWord.mk "apple" "a fruit" None) "2026-01-11" = Some entry
    /\ WordEntry.nextReviewAt entry = Example.todayStart.
Proof.
  destruct (fresh_entry_due (zone := zoneCST) (RawWord.mk "apple" "a fruit" None)
              "2026-01-11" Example.now)
    as (entry & y & m & d & He & Hs & Hn & _).
  - vm_compute. reflexivity.
  - exists entry. split; [exact He|].
    vm_compute in Hs. injection Hs as <- <- <-. rewrite Hn.
    vm_compute. reflexivity.
Defined.

Lemma new_word_of_today_witness :
  match WordLoader.createWordEntry (zone := zoneCST)
          (RawWord.mk "apple" "a fruit" None) "2026-01-11" with
  | Some entry =>
      In entry (Scheduler.getTodayReviewWords (zone := zoneCST) Example.now
                  [Example.future; entry])
  | None => False
  end.
Proof.
  destruct (WordLoader.createWordEntry (zone := zoneCST)
              (RawWord.mk "apple" "a fruit" None) "2026-01-11") as [entry|] eqn:He.
  - destruct (new_word_of_today (zone := zoneCST)
                (RawWord.mk "apple" "a fruit" None) "2026-01-11" entry
                Example.now [Example.future; entry]) as (_ & H).
    + vm_compute. reflexivity.
    + exact He.
    + vm_compute. split; discriminate.
    + vm_compute in He. injection He as <-. vm_compute. left. reflexivity.
    + apply H. vm_compute. discriminate.
  - vm_compute in He. discriminate.
Defined.

Lemma updateStats_streak_over_days_witness :
  let st := ProgressStore.mkState [] 3 "2026-01-10" [] [] 0 0
              (LocalStorage.mk true (fun _ => true) ∅) in
  ProgressStore.streakDays
    (ProgressStore.updateStats (Example.now + 86400000)
       (ProgressStore.updateStats Example.now st))
  = ProgressStore.streakDays (ProgressStore.updateStats Example.now st) + 1.
Proof.
  intros st.
  destruct (updateStats_streak_over_days Example.now (Example.now + 86400000) st)
    as (H & _).
  - vm_compute. split; discriminate.
  - vm_compute. split; discriminate.
  - apply H. vm_compute. reflexivity.
Defined.
